(** * Capstone analytics suite: the local comparable-sales adjustment pipeline

    A shallow embedding of the geocode cache, the haversine distance, the
    distance/time filter and the ratio-based price correction of
    [app/streamlit_app.py], [src/local_analysis.py] and [src/geocode.py],
    with [src/predict.py], [src/cleaning.py] and
    [scripts/ingest_recent_sales.py].

    Numbers.  The source computes with IEEE-754 doubles.  Here a double is a
    [pyfloat]: a real number or one of the special values +inf, -inf and
    NaN.  The special values follow IEEE-754 (NaN compares false with
    everything, inf - inf = NaN, ...).  Finite arithmetic is exact: rounding
    and overflow are left out, and there is one zero.  The statements on the
    ratio of the re-ranker are kept to what rounding to nearest does not
    change: inequalities that a monotone rounding keeps, and bounds with
    room for the rounding error.  The section [Rounding] proves these
    bounds for every such rounding, and the module [Binary64] evaluates
    the ratio in binary64.

    Strings.  A Python [str] is the string of its UTF-8 bytes.

    Exceptions.  A Python call that can raise returns a [result].

    Time.  A timestamp is a number of nanoseconds since the epoch, as in
    pandas' [datetime64[ns]]; a missing date (NaT) is [None].

    Files and services.  The cache file, the historical sales, the model
    files, the clock and the geocoding service are arguments of the
    functions that read them.  A CSV file is the list of the rows that
    [pd.read_csv] finds in it; [to_csv] is modelled with the quoting of
    [csv.writer] and the line terminator of POSIX.  The digits of a number
    in the file are not modelled: a coordinate is read back as the float
    that was written.  [cached_geocode] is
    the function under its decorator, one run of the body, and
    [st_cache_data] is the decorator. *)

From Stdlib Require Import Reals Lra Lia ZArith List String Ascii Bool.
From Stdlib Require Import Floats.SpecFloat.
Import ListNotations.

(* ===================================================================== *)
(** ** Exceptions *)

Inductive exn : Type :=
| TypeError
| ValueError
| KeyError
| OtherError.

Inductive result (A : Type) : Type :=
| Ok (a : A)
| Raise (e : exn).

Arguments Ok {A} a.
Arguments Raise {A} e.

Definition bind {A B : Type} (c : result A) (k : A -> result B) : result B :=
  match c with
  | Ok a => k a
  | Raise e => Raise e
  end.

Notation "x <- c ;; k" := (bind c (fun x => k))
  (at level 61, c at next level, right associativity).

(** [map] of a function that can raise, left to right, as [DataFrame.apply]
    and a list comprehension do. *)
Fixpoint mapM {A B : Type} (f : A -> result B) (l : list A) : result (list B) :=
  match l with
  | [] => Ok []
  | a :: l' => b <- f a ;; bs <- mapM f l' ;; Ok (b :: bs)
  end.

(* ===================================================================== *)
(** ** Python floats *)

Open Scope R_scope.

Inductive pyfloat : Type :=
| Fin (x : R)
| PInf
| NInf
| NaN.

Definition Req_bool (x y : R) : bool := if Req_dec_T x y then true else false.
Definition Rle_bool (x y : R) : bool := if Rle_dec x y then true else false.
Definition Rlt_bool (x y : R) : bool := if Rlt_dec x y then true else false.

Definition fneg (a : pyfloat) : pyfloat :=
  match a with
  | Fin x => Fin (- x)
  | PInf => NInf
  | NInf => PInf
  | NaN => NaN
  end.

Definition fadd (a b : pyfloat) : pyfloat :=
  match a, b with
  | NaN, _ | _, NaN => NaN
  | Fin x, Fin y => Fin (x + y)
  | PInf, NInf | NInf, PInf => NaN
  | PInf, _ | _, PInf => PInf
  | NInf, _ | _, NInf => NInf
  end.

Definition fsub (a b : pyfloat) : pyfloat := fadd a (fneg b).

(** An infinity of sign [pos] times (or divided by) a finite [y]. *)
Definition signed_inf (pos : bool) : pyfloat := if pos then PInf else NInf.

Definition fmul (a b : pyfloat) : pyfloat :=
  match a, b with
  | NaN, _ | _, NaN => NaN
  | Fin x, Fin y => Fin (x * y)
  | PInf, Fin y | Fin y, PInf =>
      if Req_bool y 0 then NaN else signed_inf (Rlt_bool 0 y)
  | NInf, Fin y | Fin y, NInf =>
      if Req_bool y 0 then NaN else signed_inf (negb (Rlt_bool 0 y))
  | PInf, PInf | NInf, NInf => PInf
  | PInf, NInf | NInf, PInf => NInf
  end.

(** Division as numpy does it: a division by zero gives an infinity or NaN
    and does not raise. *)
Definition fdiv (a b : pyfloat) : pyfloat :=
  match a, b with
  | NaN, _ | _, NaN => NaN
  | Fin x, Fin y =>
      if Req_bool y 0
      then (if Req_bool x 0 then NaN else signed_inf (Rlt_bool 0 x))
      else Fin (x / y)
  | Fin _, PInf | Fin _, NInf => Fin 0
  | PInf, Fin y => signed_inf (Rle_bool 0 y)
  | NInf, Fin y => signed_inf (negb (Rle_bool 0 y))
  | _, _ => NaN
  end.

Definition fle (a b : pyfloat) : bool :=
  match a, b with
  | NaN, _ | _, NaN => false
  | Fin x, Fin y => Rle_bool x y
  | NInf, _ | _, PInf => true
  | _, _ => false
  end.

Definition flt (a b : pyfloat) : bool :=
  match a, b with
  | NaN, _ | _, NaN => false
  | Fin x, Fin y => Rlt_bool x y
  | PInf, _ | _, NInf => false
  | _, _ => true
  end.

(** [np.isfinite] *)
Definition isfinite (a : pyfloat) : bool :=
  match a with Fin _ => true | _ => false end.

(** [pd.isna] on a float *)
Definition isna (a : pyfloat) : bool :=
  match a with NaN => true | _ => false end.

(** Truth value of a float in [if x]: false only for zero. *)
Definition truthy (a : pyfloat) : bool :=
  match a with Fin x => negb (Req_bool x 0) | _ => true end.

(* ===================================================================== *)
(** ** The [math] module *)

Definition radians (v : option pyfloat) : result pyfloat :=
  match v with
  | None => Raise TypeError
  | Some x => Ok (fmul x (Fin (PI / 180)))
  end.

Definition math_sin (a : pyfloat) : result pyfloat :=
  match a with
  | Fin x => Ok (Fin (sin x))
  | NaN => Ok NaN
  | _ => Raise ValueError
  end.

Definition math_cos (a : pyfloat) : result pyfloat :=
  match a with
  | Fin x => Ok (Fin (cos x))
  | NaN => Ok NaN
  | _ => Raise ValueError
  end.

Definition math_sqrt (a : pyfloat) : result pyfloat :=
  match a with
  | Fin x => if Rlt_bool x 0 then Raise ValueError else Ok (Fin (sqrt x))
  | NaN => Ok NaN
  | PInf => Ok PInf
  | NInf => Raise ValueError
  end.

Definition math_asin (a : pyfloat) : result pyfloat :=
  match a with
  | Fin x =>
      if Rlt_bool x (-1) || Rlt_bool 1 x then Raise ValueError
      else Ok (Fin (asin x))
  | NaN => Ok NaN
  | _ => Raise ValueError
  end.

(** [x ** 2] *)
Definition sq (a : pyfloat) : pyfloat := fmul a a.

(* ===================================================================== *)
(** ** Haversine distance *)

(** [src/local_analysis.py], [haversine] *)
Definition haversine (lat1 lon1 lat2 lon2 : option pyfloat) : result pyfloat :=
  rlon1 <- radians lon1 ;;
  rlat1 <- radians lat1 ;;
  rlon2 <- radians lon2 ;;
  rlat2 <- radians lat2 ;;
  let dlon := fsub rlon2 rlon1 in
  let dlat := fsub rlat2 rlat1 in
  s1 <- math_sin (fdiv dlat (Fin 2)) ;;
  c1 <- math_cos rlat1 ;;
  c2 <- math_cos rlat2 ;;
  s2 <- math_sin (fdiv dlon (Fin 2)) ;;
  let a := fadd (sq s1) (fmul (fmul c1 c2) (sq s2)) in
  r <- math_sqrt a ;;
  t <- math_asin r ;;
  let c := fmul (Fin 2) t in
  Ok (fmul (Fin 6371) c).

(** [v is None or pd.isna(v)] *)
Definition missing (v : option pyfloat) : bool :=
  match v with
  | None => true
  | Some x => isna x
  end.

(** [app/streamlit_app.py], [haversine_km] *)
Definition haversine_km (lat1 lon1 lat2 lon2 : option pyfloat) : result pyfloat :=
  if existsb missing [lat1; lon1; lat2; lon2] then Ok NaN
  else
    rlon1 <- radians lon1 ;;
    rlat1 <- radians lat1 ;;
    rlon2 <- radians lon2 ;;
    rlat2 <- radians lat2 ;;
    let dlon := fsub rlon2 rlon1 in
    let dlat := fsub rlat2 rlat1 in
    s1 <- math_sin (fdiv dlat (Fin 2)) ;;
    c1 <- math_cos rlat1 ;;
    c2 <- math_cos rlat2 ;;
    s2 <- math_sin (fdiv dlon (Fin 2)) ;;
    let a := fadd (sq s1) (fmul (fmul c1 c2) (sq s2)) in
    r <- math_sqrt a ;;
    t <- math_asin r ;;
    let c := fmul (Fin 2) t in
    Ok (fmul (Fin 6371) c).

(* ===================================================================== *)
(** ** Timestamps and calendar arithmetic *)

Definition ns_per_day : Z := (86400 * 1000000000)%Z.

(** [timedelta(days=d)] in nanoseconds *)
Definition timedelta (days : Z) : Z := (days * ns_per_day)%Z.

(** Days since 1970-01-01 of a date of the proleptic Gregorian calendar. *)
Definition days_from_civil (y m d : Z) : Z :=
  (let y' := if m <=? 2 then y - 1 else y in
   let era := y' / 400 in
   let yoe := y' - era * 400 in
   let mp := if m >? 2 then m - 3 else m + 9 in
   let doy := (153 * mp + 2) / 5 + d - 1 in
   let doe := yoe * 365 + yoe / 4 - yoe / 100 + doy in
   era * 146097 + doe - 719468)%Z.

Definition civil_from_days (z : Z) : Z * Z * Z :=
  (let z' := z + 719468 in
   let era := z' / 146097 in
   let doe := z' - era * 146097 in
   let yoe := (doe - doe / 1460 + doe / 36524 - doe / 146096) / 365 in
   let doy := doe - (365 * yoe + yoe / 4 - yoe / 100) in
   let mp := (5 * doy + 2) / 153 in
   let d := doy - (153 * mp + 2) / 5 + 1 in
   let m := if mp <? 10 then mp + 3 else mp - 9 in
   let y := yoe + era * 400 in
   ((if m <=? 2 then y + 1 else y), m, d))%Z.

Definition is_leap (y : Z) : bool :=
  ((y mod 4 =? 0) && (negb (y mod 100 =? 0) || (y mod 400 =? 0)))%Z.

Definition days_in_month (y m : Z) : Z :=
  (if m =? 2 then (if is_leap y then 29 else 28)
   else if (m =? 4) || (m =? 6) || (m =? 9) || (m =? 11) then 30
   else 31)%Z.

(** [t - pd.DateOffset(months=n)]: the same day of the month [n] calendar
    months earlier, clipped to the length of that month; the time of day is
    kept. *)
Definition sub_DateOffset_months (t n : Z) : Z :=
  (let day := t / ns_per_day in
   let tod := t mod ns_per_day in
   let '(y, m, d) := civil_from_days day in
   let k := y * 12 + (m - 1) - n in
   let y' := k / 12 in
   let m' := k mod 12 + 1 in
   let d' := Z.min d (days_in_month y' m') in
   days_from_civil y' m' d' * ns_per_day + tod)%Z.

(** A day number converts to a date of the calendar and back. *)
Definition civil_day_ok (day : Z) : bool :=
  let '(y, m, d) := civil_from_days day in
  ((days_from_civil y m d =? day)
   && (1 <=? m) && (m <=? 12) && (1 <=? d) && (d <=? days_in_month y m))%Z.

(** [test] holds on the [n] days from [day] on. *)
Fixpoint all_days (test : Z -> bool) (n : nat) (day : Z) : bool :=
  match n with
  | O => true
  | S n' => test day && all_days test n' (day + 1)%Z
  end.

(** [date >= cutoff] on a datetime column: NaT compares false. *)
Definition date_ge (date : option Z) (cutoff : Z) : bool :=
  match date with
  | Some t => (cutoff <=? t)%Z
  | None => false
  end.

(* ===================================================================== *)
(** ** Series: median and mean (NaN skipped, as pandas does) *)

Fixpoint insert_sorted (x : pyfloat) (l : list pyfloat) : list pyfloat :=
  match l with
  | [] => [x]
  | y :: l' => if fle x y then x :: l else y :: insert_sorted x l'
  end.

Fixpoint sort (l : list pyfloat) : list pyfloat :=
  match l with
  | [] => []
  | x :: l' => insert_sorted x (sort l')
  end.

Definition skipna (l : list pyfloat) : list pyfloat :=
  filter (fun x => negb (isna x)) l.

(** [Series.median()]: the middle value of the sorted non-NaN values, or
    the mean of the two middle values; NaN for an empty series. *)
Definition median (l : list pyfloat) : pyfloat :=
  let s := sort (skipna l) in
  let n := List.length s in
  match n with
  | O => NaN
  | _ =>
      if Nat.even n
      then fdiv (fadd (nth (n / 2 - 1) s NaN) (nth (n / 2) s NaN)) (Fin 2)
      else nth (n / 2) s NaN
  end.

(** [Series.mean()] *)
Definition mean (l : list pyfloat) : pyfloat :=
  let s := skipna l in
  match s with
  | [] => NaN
  | _ => fdiv (fold_left fadd s (Fin 0)) (Fin (INR (List.length s)))
  end.

(* ===================================================================== *)
(** ** The geocoder, [src/geocode.py] *)

Definition coords : Type := (option pyfloat * option pyfloat)%type.

(** What the request to the geocoding service comes to: [RequestFailed]
    when [requests.get], [raise_for_status] or [r.json()] raises or the
    body has no status, otherwise the status and the results of the body.
    A result is the pair [lat], [lng] of its location, each of them a
    number or null ([None]); a result without one of the keys [geometry],
    [location], [lat], [lng] is [None].  Coordinates of another JSON type
    are left out. *)
Inductive api_reply : Type :=
| RequestFailed
| Reply (status : string) (results : list (option coords)).

Record geo_env : Type := {
  GOOGLE_API_KEY : option string;
  maps_api : string -> api_reply
}.

(** [loc["lat"], loc["lng"]] of the first result are returned as they are;
    an empty list of results or a missing key raises inside the [try]. *)
Definition geocode_address (env : geo_env) (address : string) : result coords :=
  match GOOGLE_API_KEY env with
  | None | Some EmptyString => Ok (None, None)
  | Some _ =>
      match maps_api env address with
      | RequestFailed => Ok (None, None)
      | Reply status results =>
          if String.eqb status "OK"
          then match results with
               | Some loc :: _ => Ok loc
               | _ => Ok (None, None)
               end
          else Ok (None, None)
      end
  end.

(* ===================================================================== *)
(** ** The geocode cache, [app/streamlit_app.py] *)

(** A cell of the [lat] or [lon] column: a number (NaN when the field is
    empty) or text that [float] refuses. *)
Inductive cell : Type :=
| Num (x : pyfloat)
| Junk.

Definition float_of_cell (c : cell) : result pyfloat :=
  match c with
  | Num x => Ok x
  | Junk => Raise ValueError
  end.

(** A row that [pd.read_csv] finds in the file, before the strings for
    missing values are converted. *)
Record csv_row : Type := {
  csv_address : string;
  csv_lat : cell;
  csv_lon : cell
}.

(** The cache file: absent, one that [pd.read_csv] raises on, a table
    without an [address] column, or a table with the columns
    [address,lat,lon]. *)
Inductive cache_file : Type :=
| Absent
| Unparseable
| NoAddressColumn
| Csv (rows : list csv_row).

(** A row of the DataFrame: the address is missing (NaN) when the field
    holds one of the strings that [pd.read_csv] reads as a missing value. *)
Record df_row : Type := {
  address : option string;
  lat : cell;
  lon : cell
}.

Inductive cache_frame : Type :=
| Columns (rows : list df_row)
| OtherColumns.

(** The strings [pd.read_csv] reads as NaN by default; [dtype=str] does not
    switch this off. *)
Definition na_values : list string :=
  [""; "#N/A"; "#N/A N/A"; "#NA"; "-1.#IND"; "-1.#QNAN"; "-NaN"; "-nan";
   "1.#IND"; "1.#QNAN"; "<NA>"; "N/A"; "NA"; "NULL"; "NaN"; "None"; "n/a";
   "nan"; "null"]%string.

Definition is_na_value (s : string) : bool := existsb (String.eqb s) na_values.

Definition read_row (r : csv_row) : df_row :=
  {| address := if is_na_value (csv_address r) then None else Some (csv_address r);
     lat := csv_lat r;
     lon := csv_lon r |}.

Definition _read_geocode_cache_df (f : cache_file) : cache_frame :=
  match f with
  | Csv rows => Columns (map read_row rows)
  | NoAddressColumn => OtherColumns
  | Unparseable => Columns []
  | Absent => Columns []
  end.

(** The lines that the functions of the cache log with [logger.exception]. *)
Inductive log_line : Type :=
| FailedToRead
| FailedToAppend.

(** What [_read_geocode_cache_df] logs. *)
Definition read_log (f : cache_file) : list log_line :=
  match f with
  | Unparseable => [FailedToRead]
  | _ => []
  end.

(** *** Writing the file

    [to_csv] writes through [csv.writer] with [QUOTE_MINIMAL] and, on
    POSIX, the line terminator "\n": a field is put in quotes when it
    holds the delimiter, the quote character or a line feed.  A carriage
    return alone does not quote the field, and [pd.read_csv] takes a
    carriage return outside quotes for the end of a line. *)

Definition CR : ascii := ascii_of_nat 13.
Definition LF : ascii := ascii_of_nat 10.
Definition comma : ascii := ascii_of_nat 44.
Definition dquote : ascii := ascii_of_nat 34.

Fixpoint has (c : ascii) (s : string) : bool :=
  match s with
  | EmptyString => false
  | String d s' => Ascii.eqb d c || has c s'
  end.

Definition quoted (s : string) : bool :=
  has comma s || has dquote s || has LF s.

(** The pieces of a string between its carriage returns. *)
Fixpoint split_cr (s : string) : list string :=
  match s with
  | EmptyString => [EmptyString]
  | String c s' =>
      if Ascii.eqb c CR then EmptyString :: split_cr s'
      else match split_cr s' with
           | p :: ps => String c p :: ps
           | [] => [String c EmptyString]
           end
  end.

(** A line that [pd.read_csv] skips: empty, or spaces and tabs only. *)
Fixpoint blank_line (s : string) : bool :=
  match s with
  | EmptyString => true
  | String c s' =>
      (Ascii.eqb c (ascii_of_nat 32) || Ascii.eqb c (ascii_of_nat 9)) && blank_line s'
  end.

(** The rows that [pd.read_csv] finds where [to_csv] wrote one row.  A
    missing address is written as the empty field.  An address that is not
    quoted is cut at its carriage returns: every piece but the last is a
    line of its own, skipped when it is blank and otherwise read as a row
    without coordinates, and the last piece is the address of the row.
    (What the tokenizer of pandas makes of a later piece that begins with
    a space or a tab is not singled out; the statements on stores are
    about addresses written on one line.) *)
Definition write_row (r : df_row) : list csv_row :=
  match address r with
  | None => [ {| csv_address := EmptyString; csv_lat := lat r; csv_lon := lon r |} ]
  | Some a =>
      if quoted a
      then [ {| csv_address := a; csv_lat := lat r; csv_lon := lon r |} ]
      else
        let pieces := split_cr a in
        map (fun p => {| csv_address := p; csv_lat := Num NaN; csv_lon := Num NaN |})
            (filter (fun p => negb (blank_line p)) (removelast pieces))
        ++ [ {| csv_address := last pieces EmptyString;
                csv_lat := lat r; csv_lon := lon r |} ]
  end.

(** [updated.to_csv(GEOCODE_CACHE_PATH, index=False)] *)
Definition to_csv (rows : list df_row) : list csv_row := flat_map write_row rows.

(** What [to_csv] does to the file: it writes it, or it raises and leaves
    [remains] behind: the file as it was when it could not be opened, a
    cut one when the write broke off. *)
Inductive disk : Type :=
| Writable
| Broken (remains : cache_file).

(** [cache_df["address"] == address], row by row *)
Definition address_is (a : string) (r : df_row) : bool :=
  match address r with
  | Some b => String.eqb b a
  | None => false
  end.

(** [cache_df[cache_df["address"] == address]]; KeyError without the column *)
Definition select_address (df : cache_frame) (a : string) : result (list df_row) :=
  match df with
  | Columns rows => Ok (filter (address_is a) rows)
  | OtherColumns => Raise KeyError
  end.

(** [pd.DataFrame([{"address": address, "lat": lat, "lon": lon}])] *)
Definition new_row (a : string) (la lo : pyfloat) : df_row :=
  {| address := Some a; lat := Num la; lon := Num lo |}.

(** [_append_geocode_cache_df]: the file it leaves and what it logs. *)
Definition _append_geocode_cache_df (writable : disk) (f : cache_file)
    (a : string) (la lo : pyfloat) : cache_file * list log_line :=
  let cache_df := _read_geocode_cache_df f in
  match select_address cache_df a, cache_df with
  | Ok (_ :: _), _ => (f, read_log f)
  | Ok [], Columns rows =>
      match writable with
      | Writable => (Csv (to_csv (rows ++ [new_row a la lo])), read_log f)
      | Broken remains => (remains, read_log f ++ [FailedToAppend])
      end
  | _, _ => (f, read_log f ++ [FailedToAppend])
  end.

(** The lookup of [cached_geocode]: the first row of the address, when
    [float] accepts its cells. *)
Definition cache_lookup (f : cache_file) (a : string)
  : result (option (pyfloat * pyfloat)) :=
  m <- select_address (_read_geocode_cache_df f) a ;;
  match m with
  | [] => Ok None
  | r :: _ =>
      match float_of_cell (lat r), float_of_cell (lon r) with
      | Ok la, Ok lo => Ok (Some (la, lo))
      | _, _ => Ok None
      end
  end.

(** Python's white space ([str.isspace]) in UTF-8: the ASCII characters
    9 to 13, 28 to 32; U+0085 and U+00A0 in two bytes; U+1680, U+2000 to
    U+200A, U+2028, U+2029, U+202F, U+205F and U+3000 in three. *)
Definition is_space (c : ascii) : bool :=
  let n := nat_of_ascii c in
  ((9 <=? n) && (n <=? 13) || (28 <=? n) && (n <=? 32))%nat.

Definition is_space2 (c1 c2 : ascii) : bool :=
  let a := nat_of_ascii c1 in
  let b := nat_of_ascii c2 in
  ((a =? 194) && ((b =? 133) || (b =? 160)))%nat.

Definition is_space3 (c1 c2 c3 : ascii) : bool :=
  let a := nat_of_ascii c1 in
  let b := nat_of_ascii c2 in
  let c := nat_of_ascii c3 in
  ((a =? 225) && (b =? 154) && (c =? 128)
   || (a =? 226) && (b =? 128)
      && ((128 <=? c) && (c <=? 138) || (c =? 168) || (c =? 169) || (c =? 175))
   || (a =? 226) && (b =? 129) && (c =? 159)
   || (a =? 227) && (b =? 128) && (c =? 128))%nat.

(** [not address or not str(address).strip()]: every character is white
    space. *)
Fixpoint is_blank (s : string) : bool :=
  match s with
  | EmptyString => true
  | String c1 s1 =>
      if is_space c1 then is_blank s1
      else
        match s1 with
        | EmptyString => false
        | String c2 s2 =>
            if is_space2 c1 c2 then is_blank s2
            else
              match s2 with
              | EmptyString => false
              | String c3 s3 => is_space3 c1 c2 c3 && is_blank s3
              end
        end
  end.

(** One run of the body of [cached_geocode]: the file it leaves and the
    pair it returns. *)
Definition cached_geocode (geocoder : string -> result coords)
    (writable : disk) (f : cache_file) (a : string)
  : result (cache_file * coords) :=
  if is_blank a then Ok (f, (None, None))
  else
    hit <- cache_lookup f a ;;
    match hit with
    | Some (la, lo) => Ok (f, (Some la, Some lo))
    | None =>
        let found :=
          match geocoder a with
          | Ok c => c
          | Raise _ => (None, None)
          end in
        match found with
        | (Some la, Some lo) =>
            Ok (fst (_append_geocode_cache_df writable f a la lo), found)
        | _ => Ok (f, found)
        end
    end.

(** *** [st.cache_data(ttl=60 * 60 * 24)]

    The decorator of [cached_geocode] keeps what a call returned, under
    its argument, for 24 hours; while the entry lives the body is not
    run.  A call that raises is not kept. *)

Record memo_entry : Type := {
  memo_key : string;
  memo_value : coords;
  memo_expires : Z
}.

Definition ttl : Z := (60 * 60 * 24 * 1000000000)%Z.

(** The newest entry of a key; new entries are put in front. *)
Fixpoint memo_find (memo : list memo_entry) (key : string) : option memo_entry :=
  match memo with
  | [] => None
  | e :: memo' => if String.eqb (memo_key e) key then Some e else memo_find memo' key
  end.

Definition memo_get (memo : list memo_entry) (now : Z) (key : string) : option coords :=
  match memo_find memo key with
  | Some e => if (now <? memo_expires e)%Z then Some (memo_value e) else None
  | None => None
  end.

(** A call of the decorated function at the time [now]; [body] is the
    function under the decorator, on the state [S] that it reads and
    leaves. *)
Definition st_cache_data {S : Type} (body : S -> string -> result (S * coords))
    (memo : list memo_entry) (now : Z) (s : S) (a : string)
  : result (list memo_entry * S * coords) :=
  match memo_get memo now a with
  | Some c => Ok (memo, s, c)
  | None =>
      out <- body s a ;;
      Ok ({| memo_key := a; memo_value := snd out; memo_expires := (now + ttl)%Z |} :: memo,
          fst out, snd out)
  end.

(* ===================================================================== *)
(** ** Historical sales *)

(** A row of [historical_sales.csv].  A numeric column holds NaN where the
    value (or the whole optional column) is missing, a missing date is NaT. *)
Record sale : Type := {
  Date : option Z;
  Price : pyfloat;
  Area : pyfloat;
  row_lat : pyfloat;
  row_lon : pyfloat;
  Bedrooms : pyfloat;
  Bathrooms : pyfloat;
  Age : pyfloat;
  Property_Type : string;
  Location : string
}.

(** The DataFrame of [load_historical_sales_cached]: whether it has the
    columns [lat, lon, Price, Area, Date], and its rows (none when the file
    is absent or unreadable). *)
Record hist_frame : Type := {
  required_columns : bool;
  hist_rows : list sale
}.

Definition notna (a : pyfloat) : bool := negb (isna a).

Definition notnat (d : option Z) : bool :=
  match d with Some _ => true | None => false end.

(** [df[name] = df.apply(f, axis=1)].  On a frame without rows pandas
    calls [f] once, on a row of NaN, to learn the kind of the result: when
    that call raises, [apply] returns a frame in place of a column and the
    assignment raises ValueError. *)
Definition DataFrame_apply {A B : Type} (f : A -> result B) (nan_row : A)
    (rows : list A) : result (list B) :=
  match rows with
  | [] =>
      match f nan_row with
      | Ok _ => Ok []
      | Raise _ => Raise ValueError
      end
  | _ :: _ => mapM f rows
  end.

(** The row of NaN of the historical sales. *)
Definition nan_row : sale :=
  {| Date := None; Price := NaN; Area := NaN; row_lat := NaN; row_lon := NaN;
     Bedrooms := NaN; Bathrooms := NaN; Age := NaN;
     Property_Type := EmptyString; Location := EmptyString |}.

(* ===================================================================== *)
(** ** [src/local_analysis.py], [local_adjustment] *)

(** [df.dropna(subset=["lat", "lon", "Price", "Date"])] *)
Definition dropna_local (df : list sale) : list sale :=
  filter (fun r => notna (row_lat r) && notna (row_lon r) && notna (Price r)
                   && notnat (Date r)) df.

(** [df_filtered]: the distance column, the cutoff and the filter. *)
Definition local_comps (now : Z) (lat lon : option pyfloat)
    (radius_km : pyfloat) (months : Z) (rows : list sale) : result (list sale) :=
  let df := dropna_local rows in
  distance_km <-
    DataFrame_apply
      (fun row => haversine lat lon (Some (row_lat row)) (Some (row_lon row)))
      nan_row df ;;
  let cutoff := sub_DateOffset_months now months in
  Ok (map fst
        (filter (fun rd => fle (snd rd) radius_km && date_ge (Date (fst rd)) cutoff)
                (combine df distance_km))).

(** [historical_file] is [None] when the file does not exist. *)
Definition local_adjustment (historical_file : option (list sale)) (now : Z)
    (lat lon : option pyfloat) (radius_km : pyfloat) (months : Z) : result pyfloat :=
  match historical_file with
  | None => Ok (Fin 1)
  | Some rows =>
      df_filtered <- local_comps now lat lon radius_km months rows ;;
      match df_filtered with
      | [] => Ok (Fin 1)
      | _ => Ok (fdiv (median (map Price df_filtered)) (mean (map Price df_filtered)))
      end
  end.

(* ===================================================================== *)
(** ** The form and the features of a comp *)

Record input_data : Type := {
  in_Area : pyfloat;
  in_Bedrooms : pyfloat;
  in_Bathrooms : pyfloat;
  in_Age : pyfloat;
  in_Property_Type : string
}.

Record features : Type := {
  f_Area : pyfloat;
  f_Bedrooms : pyfloat;
  f_Bathrooms : pyfloat;
  f_Age : pyfloat;
  f_Property_Type : string;
  f_Location : string
}.

Definition build_feat (row : sale) : features :=
  {| f_Area := Area row;
     f_Bedrooms := Bedrooms row;
     f_Bathrooms := Bathrooms row;
     f_Age := Age row;
     f_Property_Type := Property_Type row;
     f_Location := Location row |}.

(* ===================================================================== *)
(** ** [src/predict.py], [predict_house_price] *)

Module Predict.

(** A value of the input dictionary. *)
Inductive value : Type :=
| Number (x : pyfloat)
| Text (s : string).

(** A dictionary with string keys, as the list of its items. *)
Definition dict : Type := list (string * value).

(** [d.get(k)] *)
Fixpoint get (d : dict) (k : string) : option value :=
  match d with
  | [] => None
  | (k', v) :: d' => if String.eqb k' k then Some v else get d' k
  end.

(** [house_price_metadata.json] *)
Record metadata : Type := {
  numeric : list string;
  categorical : list string
}.

(** The keys of a dictionary filled by assignments in the order [names]:
    each name once, at its first place. *)
Fixpoint insertion_order (names : list string) : list string :=
  match names with
  | [] => []
  | n :: names' =>
      n :: filter (fun m => negb (String.eqb m n)) (insertion_order names')
  end.

(** A row of a DataFrame: its columns, in order, with the value of the
    row, None for a key that the input lacks. *)
Definition frame : Type := list (string * option value).

(** The one row of [pd.DataFrame(data)] *)
Definition data_frame (meta : metadata) (input_dict : dict) : frame :=
  map (fun k => (k, get input_dict k))
      (insertion_order (numeric meta ++ categorical meta)).

(** A loaded model, through [model.predict(df)] on the DataFrame with the
    given rows. *)
Definition estimator : Type := list frame -> result (list pyfloat).

(** The directory [models]: each file is there or not. *)
Record models_dir : Type := {
  house_price_model : option estimator;
  house_price_metadata : option metadata
}.

(** [FileNotFoundError], and the IndexError of [model.predict(df)[0]] on
    an empty result, are [OtherError]s. *)
Definition predict_house_price (dir : models_dir) (input_dict : dict)
  : result pyfloat :=
  match house_price_model dir with
  | None => Raise OtherError
  | Some model =>
      match house_price_metadata dir with
      | None => Raise OtherError
      | Some meta =>
          preds <- model [data_frame meta input_dict] ;;
          match preds with
          | pred :: _ => Ok pred
          | [] => Raise OtherError
          end
      end
  end.

(** The dictionary [input_data] that [render_valuation] builds from the
    form. *)
Definition form_dict (i : input_data) : dict :=
  [ ("Area"%string, Number (in_Area i));
    ("Bedrooms"%string, Number (in_Bedrooms i));
    ("Bathrooms"%string, Number (in_Bathrooms i));
    ("Age"%string, Number (in_Age i));
    ("Property_Type"%string, Text (in_Property_Type i)) ].

(** The row of [pd.DataFrame([build_feat(r) ...])] of a comp. *)
Definition feat_frame (x : features) : frame :=
  [ ("Area"%string, Some (Number (f_Area x)));
    ("Bedrooms"%string, Some (Number (f_Bedrooms x)));
    ("Bathrooms"%string, Some (Number (f_Bathrooms x)));
    ("Age"%string, Some (Number (f_Age x)));
    ("Property_Type"%string, Some (Text (f_Property_Type x)));
    ("Location"%string, Some (Text (f_Location x))) ].

End Predict.

(* ===================================================================== *)
(** ** [app/streamlit_app.py], [render_valuation] *)

(** A trained pipeline, through its [predict] on the features of the
    comps. *)
Definition pipeline : Type := list features -> result (list pyfloat).

(** What a run of the page reads from outside.  [house_model_memo] is
    what [st.cache_resource] holds from an earlier run of
    [load_house_model_cached], if it ran: the model, or the [None] it
    returned then. *)
Record app_env : Type := {
  geo : geo_env;
  writable : disk;
  models : Predict.models_dir;
  house_model_memo : option (option Predict.estimator);
  load_historical_sales_cached : hist_frame;
  utcnow : Z;
  FOLIUM_AVAILABLE : bool
}.

(** [predict_house_price(input_data)]: the model file is loaded at every
    call. *)
Definition predict_house_price (env : app_env) (input : input_data) : result pyfloat :=
  Predict.predict_house_price (models env) (Predict.form_dict input).

(** [load_house_model_cached()]: what [st.cache_resource] kept, or else
    the same file [models/house_price_model.joblib] that
    [predict_house_price] loads; [None] when it is not there or does not
    load. *)
Definition load_house_model_cached (env : app_env) : option pipeline :=
  let loaded :=
    match house_model_memo env with
    | Some kept => kept
    | None => Predict.house_price_model (models env)
    end in
  match loaded with
  | Some model => Some (fun X => model (map Predict.feat_frame X))
  | None => None
  end.

Inductive Confidence : Type :=
| High
| Medium
| Low.

(** ["High" if len(comps) >= 10 else "Medium" if len(comps) >= 5 else "Low"] *)
Definition confidence_of (comp_count : nat) : Confidence :=
  if (10 <=? comp_count)%nat then High
  else if (5 <=? comp_count)%nat then Medium
  else Low.

Record ValuationResult : Type := {
  base_price : pyfloat;
  adjustment_factor : pyfloat;
  adjusted_price : pyfloat;
  confidence : Confidence;
  comp_count : nat;
  comps : list sale
}.

(** The three variables the comps branch assigns. *)
Record adjustment : Type := {
  factor : pyfloat;
  adjusted : pyfloat;
  used_comps : list sale
}.

Definition no_adjustment (base : pyfloat) : adjustment :=
  {| factor := Fin 1; adjusted := base; used_comps := [] |}.

(** [hist.dropna(subset=["lat", "lon", "Price", "Area", "Date"])] *)
Definition dropna_hist (hist : list sale) : list sale :=
  filter (fun r => notna (row_lat r) && notna (row_lon r) && notna (Price r)
                   && notna (Area r) && notnat (Date r)) hist.

(** [pd.Timestamp(datetime.utcnow() - timedelta(days=30*months))] *)
Definition cutoff_of (now months : Z) : Z := (now - timedelta (30 * months))%Z.

(** [(hist["Date"] >= cutoff) & (hist["dist_km"] <= radius_km)] on a row and
    its distance *)
Definition in_window (cutoff : Z) (radius_km : pyfloat) (rd : sale * pyfloat) : bool :=
  date_ge (Date (fst rd)) cutoff && fle (snd rd) radius_km.

(** [recent]: the [dist_km] column and the filter. *)
Definition recent_comps (lat lon : option pyfloat) (radius_km : pyfloat)
    (cutoff : Z) (hist : list sale) : result (list sale) :=
  dist_km <-
    DataFrame_apply
      (fun r => haversine_km lat lon (Some (row_lat r)) (Some (row_lon r)))
      nan_row hist ;;
  Ok (map fst (filter (in_window cutoff radius_km) (combine hist dist_km))).

(** [recent["Price"] / (recent["pred_price"] + 1e-9)] *)
Definition ratio_actual_pred (recent : list sale) (preds : list pyfloat) : list pyfloat :=
  map (fun rp => fdiv (Price (fst rp)) (fadd (snd rp) (Fin 1e-9))) (combine recent preds).

(** The body of the [try] once [predict] has returned. *)
Definition ratio_adjustment (base : pyfloat) (recent : list sale)
    (preds : list pyfloat) : adjustment :=
  let f := median (ratio_actual_pred recent preds) in
  if isfinite f && flt (Fin 0) f
  then {| factor := f; adjusted := fmul base f; used_comps := recent |}
  else {| factor := Fin 1; adjusted := base; used_comps := recent |}.

(** The fallback of the [except] branch and of the branch without a model. *)
Definition median_fallback (base : pyfloat) (recent : list sale) : adjustment :=
  let med := median (map Price recent) in
  if truthy med && truthy base
  then {| factor := fdiv med base;
          adjusted := fmul base (fdiv med base);
          used_comps := recent |}
  else no_adjustment base.

(** The adjustment over the comps [recent]; assigning a prediction column of
    the wrong length raises inside the [try]. *)
Definition adjust_with_comps (house_pipe : option pipeline) (base : pyfloat)
    (recent : list sale) : adjustment :=
  match house_pipe with
  | Some predict =>
      match predict (map build_feat recent) with
      | Ok preds =>
          if (List.length preds =? List.length recent)%nat
          then ratio_adjustment base recent preds
          else median_fallback base recent
      | Raise _ => median_fallback base recent
      end
  | None => median_fallback base recent
  end.

(** From [hist = load_historical_sales_cached()] to the end of the comps
    branch, for a base prediction that is not [None]. *)
Definition local_comps_adjustment (env : app_env) (lat lon : option pyfloat)
    (base : pyfloat) (radius_km : pyfloat) (months : Z) : result adjustment :=
  let hist := load_historical_sales_cached env in
  match lat, lon, hist_rows hist with
  | Some _, Some _, _ :: _ =>
      if required_columns hist then
        let rows := dropna_hist (hist_rows hist) in
        let cutoff := cutoff_of (utcnow env) months in
        recent <- recent_comps lat lon radius_km cutoff rows ;;
        match recent with
        | [] => Ok (no_adjustment base)
        | _ => Ok (adjust_with_comps (load_house_model_cached env) base recent)
        end
      else Ok (no_adjustment base)
  | _, _, _ => Ok (no_adjustment base)
  end.

(** The map of the page, drawn for a located address after the results:
    [folium.Map] refuses a NaN with a ValueError, [st.map] with a
    StreamlitAPIException (an [OtherError]); neither call is inside a
    [try]. *)
Definition draw_map (folium : bool) (lat lon : option pyfloat) : result unit :=
  match lat, lon with
  | Some la, Some lo =>
      if isna la || isna lo
      then Raise (if folium then ValueError else OtherError)
      else Ok tt
  | _, _ => Ok tt
  end.

(** A submitted form: the new state of the cache file and the result shown,
    [None] when the base prediction failed.  The call of [cached_geocode]
    is a run of its body: the decorator holds no answer for the address. *)
Definition render_valuation (env : app_env) (f : cache_file) (a : string)
    (input : input_data) (radius_km : pyfloat) (months : Z)
  : result (cache_file * option ValuationResult) :=
  located <-
    (if is_blank a then Ok (f, (None, None))
     else cached_geocode (geocode_address (geo env)) (writable env) f a) ;;
  let '(f', (lat, lon)) := located in
  match predict_house_price env input with
  | Raise _ =>
      drawn <- draw_map (FOLIUM_AVAILABLE env) lat lon ;;
      Ok (f', None)
  | Ok base =>
      adj <- local_comps_adjustment env lat lon base radius_km months ;;
      drawn <- draw_map (FOLIUM_AVAILABLE env) lat lon ;;
      Ok (f', Some {| base_price := base;
                      adjustment_factor := factor adj;
                      adjusted_price := adjusted adj;
                      confidence := confidence_of (List.length (used_comps adj));
                      comp_count := List.length (used_comps adj);
                      comps := used_comps adj |})
  end.

(* ===================================================================== *)
(** ** Closed forms used in the statements *)

(** The haversine of the central angle between two points given in
    degrees: the value of [a] in the two distance functions. *)
Definition hav (lat1 lon1 lat2 lon2 : R) : R :=
  let dlon := lon2 * (PI / 180) - lon1 * (PI / 180) in
  let dlat := lat2 * (PI / 180) - lat1 * (PI / 180) in
  sin (dlat / 2) * sin (dlat / 2)
  + cos (lat1 * (PI / 180)) * cos (lat2 * (PI / 180))
    * (sin (dlon / 2) * sin (dlon / 2)).

Definition great_circle_km (lat1 lon1 lat2 lon2 : R) : R :=
  6371 * (2 * asin (sqrt (hav lat1 lon1 lat2 lon2))).

(** Whether the comps branch ends in the fallback: no model, a [predict]
    that raises, or predictions of the wrong length. *)
Definition fallback_taken (house_pipe : option pipeline) (recent : list sale) : bool :=
  match house_pipe with
  | Some predict =>
      match predict (map build_feat recent) with
      | Ok preds => negb (List.length preds =? List.length recent)%nat
      | Raise _ => true
      end
  | None => true
  end.

(** [np.isfinite(factor) and factor > 0] *)
Definition gate_ok (x : pyfloat) : Prop :=
  isfinite x = true /\ flt (Fin 0) x = true.

(** A finite value of the interval from [lo] up to, not including, [hi]. *)
Definition between (lo hi : R) (x : pyfloat) : Prop :=
  exists v, x = Fin v /\ lo <= v < hi.

(** The rows of the cache that carry the address [a]. *)
Definition entries (f : cache_file) (a : string) : list df_row :=
  match select_address (_read_geocode_cache_df f) a with
  | Ok l => l
  | Raise _ => []
  end.

(** An address that [to_csv] writes on one line: it is quoted or holds no
    carriage return. *)
Definition one_line (a : string) : bool := quoted a || negb (has CR a).

(** The rows of the cache file; none for a file that is absent or cannot
    be read. *)
Definition csv_rows (f : cache_file) : list csv_row :=
  match f with
  | Csv rows => rows
  | _ => []
  end.

(** A file in which every address is on one line, as in every file that
    [to_csv] wrote. *)
Definition plain_file (f : cache_file) : bool :=
  forallb (fun r => one_line (csv_address r)) (csv_rows f).

(** The geocoder fails on [a]: no API key, a failed request, or a status
    other than OK. *)
Definition geocoder_fails (env : geo_env) (a : string) : Prop :=
  GOOGLE_API_KEY env = None \/
  GOOGLE_API_KEY env = Some EmptyString \/
  maps_api env a = RequestFailed \/
  exists status results,
    maps_api env a = Reply status results /\ status <> "OK"%string.

(* ===================================================================== *)
(** ** The ratio of one comp in IEEE-754 binary64

    The ratio of the re-ranker on a comp that the model predicts exactly,
    computed with the rounding of doubles, to compare with the exact
    arithmetic of [pyfloat]. *)

Module Binary64.
Definition of_Z (z : Z) : spec_float := binary_normalize 53 1024 z 0 false.
Definition add : spec_float -> spec_float -> spec_float := SFadd 53 1024.
Definition mul : spec_float -> spec_float -> spec_float := SFmul 53 1024.
Definition div : spec_float -> spec_float -> spec_float := SFdiv 53 1024.

(** The literal [1e-9]: the double nearest to 1/10^9. *)
Definition eps : spec_float := div (of_Z 1) (of_Z 1000000000).

(** [price / (price + 1e-9)] for an integral price *)
Definition exact_ratio (price : Z) : spec_float :=
  div (of_Z price) (add (of_Z price) eps).
End Binary64.

(* ===================================================================== *)
(** ** Sample data for the concrete runs *)

(** A sale with the given date, price and position; area 1000, three
    bedrooms, two bathrooms, five years old. *)
Definition sale_at (date : option Z) (price la lo : pyfloat) : sale :=
  {| Date := date; Price := price; Area := Fin 1000;
     row_lat := la; row_lon := lo;
     Bedrooms := Fin 3; Bathrooms := Fin 2; Age := Fin 5;
     Property_Type := "House"; Location := "Center" |}.

(** Midnight at the start of a calendar day. *)
Definition midnight (y m d : Z) : Z := (days_from_civil y m d * ns_per_day)%Z.

Definition sample_address : string := "12 Main St".

(** A cache file that holds the sample address at (12.9, 77.6). *)
Definition sample_cache : cache_file :=
  Csv [ {| csv_address := sample_address;
           csv_lat := Num (Fin 12.9);
           csv_lon := Num (Fin 77.6) |} ].

Definition sample_input : input_data :=
  {| in_Area := Fin 1500; in_Bedrooms := Fin 3; in_Bathrooms := Fin 2;
     in_Age := Fin 5; in_Property_Type := "House" |}.

(** A geocoding service that cannot be reached. *)
Definition geo_down : geo_env :=
  {| GOOGLE_API_KEY := Some "key"%string; maps_api := fun _ => RequestFailed |}.

(** The metadata that [train_models.py] writes for training data with all
    the columns. *)
Definition sample_meta : Predict.metadata :=
  {| Predict.numeric := ["Area"; "Bedrooms"; "Bathrooms"; "Age"]%string;
     Predict.categorical := ["Location"; "Property_Type"]%string |}.

(** A model that predicts [price] for every row. *)
Definition constant_model (price : pyfloat) : Predict.estimator :=
  fun X => Ok (map (fun _ => price) X).

(** Whether a row holds a NaN. *)
Definition has_nan (row : Predict.frame) : bool :=
  existsb (fun kv => match snd kv with
                     | Some (Predict.Number x) => isna x
                     | _ => false
                     end) row.

(** A pipeline without an imputer: its [predict] raises ValueError on a
    frame that holds a NaN and predicts [price] for every row otherwise. *)
Definition strict_model (price : pyfloat) : Predict.estimator :=
  fun X => if existsb has_nan X then Raise ValueError
           else Ok (map (fun _ => price) X).

(** A sale from a history without the optional columns. *)
Definition bare_sale (date : option Z) (price la lo : pyfloat) : sale :=
  {| Date := date; Price := price; Area := Fin 1000;
     row_lat := la; row_lon := lo;
     Bedrooms := NaN; Bathrooms := NaN; Age := NaN;
     Property_Type := EmptyString; Location := EmptyString |}.

(** A run on 2024-03-31 with the model file [model], its metadata, and the
    historical sales [hist]; nothing is memoised. *)
Definition sample_env (model : Predict.estimator) (hist : list sale) : app_env :=
  {| geo := geo_down;
     writable := Writable;
     models := {| Predict.house_price_model := Some model;
                  Predict.house_price_metadata := Some sample_meta |};
     house_model_memo := None;
     load_historical_sales_cached :=
       {| required_columns := true; hist_rows := hist |};
     utcnow := midnight 2024 3 31;
     FOLIUM_AVAILABLE := true |}.

(* ===================================================================== *)
(** ** The ratio under a rounding [rnd] *)

(** [price / (price + 1e-9)] with every operation rounded *)
Definition rounded_ratio (rnd : R -> R) (price : R) : R :=
  rnd (price / rnd (price + rnd 1e-9)).

(** The mean of the two middle ratios, as the median of an even number of
    comps takes it. *)
Definition rounded_mean (rnd : R -> R) (a b : R) : R := rnd (rnd (a + b) / 2).

(* ===================================================================== *)
(** ** Further definitions for the statements *)

(** What [cached_geocode] takes from the geocoder. *)
Definition geocoded (geocoder : string -> result coords) (a : string) : coords :=
  match geocoder a with
  | Ok c => c
  | Raise _ => (None, None)
  end.

(** The result shown when no local adjustment is made. *)
Definition neutral_result (base : pyfloat) : ValuationResult :=
  {| base_price := base;
     adjustment_factor := Fin 1;
     adjusted_price := base;
     confidence := Low;
     comp_count := 0;
     comps := [] |}.

(** A row that [hist.dropna] keeps. *)
Definition complete_row (r : sale) : bool :=
  notna (row_lat r) && notna (row_lon r) && notna (Price r)
  && notna (Area r) && notnat (Date r).

(** A sale [r] at the position of the sample address, sixteen days before
    the run of [sample_env]. *)
Definition near_sample (r : sale) : Prop :=
  complete_row r = true /\
  row_lat r = Fin 12.9 /\ row_lon r = Fin 77.6 /\
  Date r = Some (midnight 2024 3 15).

(* ===================================================================== *)
(** ** [app/streamlit_app.py], [render_dashboard]: the two computed KPIs *)

(** [int(x)] on a real: truncation toward zero. *)
Definition trunc (x : R) : Z :=
  if Rle_dec 0 x then Int_part x else (- Int_part (- x))%Z.

(** [int(x)] on a float: ValueError on NaN, OverflowError (an [OtherError])
    on an infinity. *)
Definition py_int (a : pyfloat) : result Z :=
  match a with
  | Fin x => Ok (trunc x)
  | NaN => Raise ValueError
  | _ => Raise OtherError
  end.

(** [Series.sum()]: NaN skipped, 0.0 for an empty series. *)
Definition series_sum (l : list pyfloat) : pyfloat :=
  fold_left fadd (skipna l) (Fin 0).

(** [int(v) if v else placeholder] for [v] a float or None *)
Definition kpi_or (v : option pyfloat) (placeholder : Z) : result Z :=
  match v with
  | Some x => if truthy x then py_int x else Ok placeholder
  | None => Ok placeholder
  end.

(** The rows of the last thirty days:
    [hist[hist["Date"] >= pd.Timestamp(datetime.utcnow() - timedelta(days=30))]] *)
Definition last_30_days (now : Z) (rows : list sale) : list sale :=
  filter (fun r => date_ge (Date r) (now - timedelta 30)%Z) rows.

(** [val_num] and [sales_num] of [render_dashboard], for a history with a
    numeric [Price] column ([has_Price]) and a parsed [Date] column
    ([has_Date]) when it has them. *)
Definition dashboard_kpis (now : Z) (has_Price has_Date : bool) (rows : list sale)
  : result (Z * Z) :=
  let with_prices := match rows with [] => false | _ :: _ => has_Price end in
  let valuation_est :=
    if with_prices then Some (median (map Price rows)) else None in
  let monthly_sales :=
    if with_prices && has_Date
    then Some (series_sum (map Price (last_30_days now rows)))
    else None in
  val_num <- kpi_or valuation_est 20000000 ;;
  sales_num <- kpi_or monthly_sales 1200000 ;;
  Ok (val_num, sales_num).

(* ===================================================================== *)
(** ** [scripts/ingest_recent_sales.py], [ingest] *)

Module Ingest.

(** The columns [Address] and [Date] of a row, as [pd.read_csv] and
    [pd.to_datetime] give them: a missing address or date is [None], and
    [drop_duplicates] takes two missing values for equal. *)
Definition key : Type := (option string * option Z)%type.

Definition address_eqb (a b : option string) : bool :=
  match a, b with
  | Some x, Some y => String.eqb x y
  | None, None => true
  | _, _ => false
  end.

Definition date_eqb (a b : option Z) : bool :=
  match a, b with
  | Some x, Some y => Z.eqb x y
  | None, None => true
  | _, _ => false
  end.

Definition key_eqb (k1 k2 : key) : bool :=
  address_eqb (fst k1) (fst k2) && date_eqb (snd k1) (snd k2).

(** A row: its key and the rest of its columns. *)
Definition row (A : Type) : Type := (key * A)%type.

Definition has_key {A : Type} (k : key) (rows : list (row A)) : bool :=
  existsb (fun r => key_eqb (fst r) k) rows.

(** [drop_duplicates(subset=['Address', 'Date'], keep='last')]: a row
    stays when no later row has its key. *)
Fixpoint drop_duplicates_last {A : Type} (rows : list (row A)) : list (row A) :=
  match rows with
  | [] => []
  | r :: rest =>
      if has_key (fst r) rest then drop_duplicates_last rest
      else r :: drop_duplicates_last rest
  end.

(** The rows written to [historical_sales.csv]; [hist] is [None] when
    the file does not exist yet.  Both frames have the columns [Address]
    and [Date]. *)
Definition ingest {A : Type} (hist : option (list (row A))) (df_new : list (row A))
  : list (row A) :=
  match hist with
  | Some df_hist => drop_duplicates_last (df_hist ++ df_new)
  | None => df_new
  end.

End Ingest.

(* ===================================================================== *)
(** ** [src/cleaning.py], [clean_sales] and [clean_house] *)

Module Cleaning.

(** [pd.to_numeric(c, errors='coerce')] on a cell: text that is not a
    number becomes NaN. *)
Definition to_numeric (c : cell) : cell :=
  match c with
  | Num x => Num x
  | Junk => Num NaN
  end.

(** The float of a numeric cell. *)
Definition number (c : cell) : pyfloat :=
  match c with
  | Num x => x
  | Junk => NaN
  end.

(** [x.fillna(0)] *)
Definition fillna0 (x : pyfloat) : pyfloat := if isna x then Fin 0 else x.

(** A row of the sales data.  [s_Date] is the date as
    [pd.to_datetime(errors='coerce')] gives it, [None] for NaT; a missing
    product is [None]. *)
Record sales_row : Type := {
  s_Date : option Z;
  s_Product : option string;
  s_Price : cell;
  s_Quantity : cell;
  s_Total_Sales : cell
}.

(** The sales frame: which of the columns it has (after the column names
    are stripped), and its rows. *)
Record sales_frame : Type := {
  has_Date : bool;
  has_Product : bool;
  has_Price : bool;
  has_Quantity : bool;
  has_Total_Sales : bool;
  sales_rows : list sales_row
}.

Definition when (present : bool) (f : cell -> cell) (c : cell) : cell :=
  if present then f c else c.

(** The loop [for c in ['Price','Quantity','Total_Sales']], on one row *)
Definition numeric_sales (df : sales_frame) (r : sales_row) : sales_row :=
  {| s_Date := s_Date r;
     s_Product := s_Product r;
     s_Price := when (has_Price df) to_numeric (s_Price r);
     s_Quantity := when (has_Quantity df) to_numeric (s_Quantity r);
     s_Total_Sales := when (has_Total_Sales df) to_numeric (s_Total_Sales r) |}.

Section Product.

(** The product of a price and a quantity as the dtypes of the two columns
    compute it: [int64] wraps around, [float64] rounds and overflows. *)
Variable product : pyfloat -> pyfloat -> pyfloat.

(** [df['Price'].fillna(0) * df['Quantity'].fillna(0)], on one row *)
Definition with_total (r : sales_row) : sales_row :=
  {| s_Date := s_Date r;
     s_Product := s_Product r;
     s_Price := s_Price r;
     s_Quantity := s_Quantity r;
     s_Total_Sales :=
       Num (product (fillna0 (number (s_Price r))) (fillna0 (number (s_Quantity r)))) |}.

(** ['Total_Sales' not in df.columns or df['Total_Sales'].isna().any()] *)
Definition total_missing (has_total : bool) (rows : list sales_row) : bool :=
  negb has_total || existsb (fun r => isna (number (s_Total_Sales r))) rows.

(** The rows that [dropna(subset=['Date','Product'])] keeps *)
Definition dated_product (r : sales_row) : bool :=
  match s_Date r, s_Product r with
  | Some _, Some _ => true
  | _, _ => false
  end.

Definition clean_sales (df : sales_frame) : result sales_frame :=
  let rows := map (numeric_sales df) (sales_rows df) in
  let recompute :=
    total_missing (has_Total_Sales df) rows && has_Price df && has_Quantity df in
  let rows' := if recompute then map with_total rows else rows in
  if has_Date df && has_Product df
  then Ok {| has_Date := true;
             has_Product := true;
             has_Price := has_Price df;
             has_Quantity := has_Quantity df;
             has_Total_Sales := has_Total_Sales df || recompute;
             sales_rows := filter dated_product rows' |}
  else Raise KeyError.

End Product.

(** A row of the house data. *)
Record house_row : Type := {
  h_Area : cell;
  h_Bedrooms : cell;
  h_Bathrooms : cell;
  h_Age : cell;
  h_Price : cell
}.

Record house_frame : Type := {
  has_Area : bool;
  has_Bedrooms : bool;
  has_Bathrooms : bool;
  has_Age : bool;
  has_house_Price : bool;
  house_rows : list house_row
}.

Definition numeric_house (df : house_frame) (r : house_row) : house_row :=
  {| h_Area := when (has_Area df) to_numeric (h_Area r);
     h_Bedrooms := when (has_Bedrooms df) to_numeric (h_Bedrooms r);
     h_Bathrooms := when (has_Bathrooms df) to_numeric (h_Bathrooms r);
     h_Age := when (has_Age df) to_numeric (h_Age r);
     h_Price := when (has_house_Price df) to_numeric (h_Price r) |}.

(** The rows that [dropna(subset=['Area','Price'])] keeps *)
Definition area_price (r : house_row) : bool :=
  notna (number (h_Area r)) && notna (number (h_Price r)).

Definition clean_house (df : house_frame) : result house_frame :=
  let rows := map (numeric_house df) (house_rows df) in
  if has_Area df && has_house_Price df
  then Ok {| has_Area := true;
             has_Bedrooms := has_Bedrooms df;
             has_Bathrooms := has_Bathrooms df;
             has_Age := has_Age df;
             has_house_Price := true;
             house_rows := filter area_price rows |}
  else Raise KeyError.

End Cleaning.

(* ===================================================================== *)
(** * Properties *)

Lemma Req_bool_true (x y : R) : x = y -> Req_bool x y = true.
Proof. intros H. unfold Req_bool. destruct (Req_dec_T x y); congruence. Qed.

Lemma Req_bool_false (x y : R) : x <> y -> Req_bool x y = false.
Proof. intros H. unfold Req_bool. destruct (Req_dec_T x y); congruence. Qed.

Lemma Rle_bool_true (x y : R) : x <= y -> Rle_bool x y = true.
Proof. intros H. unfold Rle_bool. destruct (Rle_dec x y); [reflexivity | contradiction]. Qed.

Lemma Rle_bool_false (x y : R) : y < x -> Rle_bool x y = false.
Proof. intros H. unfold Rle_bool. destruct (Rle_dec x y); [lra | reflexivity]. Qed.

Lemma Rlt_bool_true (x y : R) : x < y -> Rlt_bool x y = true.
Proof. intros H. unfold Rlt_bool. destruct (Rlt_dec x y); [reflexivity | contradiction]. Qed.

Lemma Rlt_bool_false (x y : R) : y <= x -> Rlt_bool x y = false.
Proof. intros H. unfold Rlt_bool. destruct (Rlt_dec x y); [lra | reflexivity]. Qed.

(** *** Floats *)

Lemma fmul_1_r (a : pyfloat) : fmul a (Fin 1) = a.
Proof.
  destruct a; simpl; try reflexivity.
  - f_equal. lra.
  - rewrite (Req_bool_false 1 0) by lra. rewrite (Rlt_bool_true 0 1) by lra. reflexivity.
  - rewrite (Req_bool_false 1 0) by lra. rewrite (Rlt_bool_true 0 1) by lra. reflexivity.
Qed.

Lemma fle_NaN_l (b : pyfloat) : fle NaN b = false.
Proof. reflexivity. Qed.

Lemma fle_Fin (x y : R) : fle (Fin x) (Fin y) = true <-> x <= y.
Proof.
  simpl. unfold Rle_bool. destruct (Rle_dec x y); split; intros; auto; discriminate.
Qed.

Lemma flt_Fin (x y : R) : flt (Fin x) (Fin y) = true <-> x < y.
Proof.
  simpl. unfold Rlt_bool. destruct (Rlt_dec x y); split; intros; auto; discriminate.
Qed.

Lemma fdiv_Fin (x y : R) : y <> 0 -> fdiv (Fin x) (Fin y) = Fin (x / y).
Proof. intros H. simpl. rewrite Req_bool_false by assumption. reflexivity. Qed.

(** *** The haversine distance *)

Lemma sin_half_sq (x : R) : sin (x / 2) * sin (x / 2) = (1 - cos x) / 2.
Proof.
  replace x with (2 * (x / 2)) at 3 by lra.
  rewrite cos_2a_sin. lra.
Qed.

Lemma hav_bounds (lat1 lon1 lat2 lon2 : R) : 0 <= hav lat1 lon1 lat2 lon2 <= 1.
Proof.
  unfold hav.
  set (a := lat1 * (PI / 180)). set (b := lat2 * (PI / 180)).
  set (d := (lon2 * (PI / 180) - lon1 * (PI / 180)) / 2).
  rewrite (sin_half_sq (b - a)).
  rewrite cos_minus.
  pose proof (cos_plus a b) as Hp.
  pose proof (COS_bound (a + b)) as [Hp1 Hp2].
  pose proof (cos_minus b a) as Hm.
  pose proof (COS_bound (b - a)) as [Hm1 Hm2].
  pose proof (SIN_bound d) as [Hd1 Hd2].
  assert (Hu0 : 0 <= sin d * sin d) by nra.
  assert (Hu1 : sin d * sin d <= 1) by nra.
  set (u := sin d * sin d) in *.
  rewrite Hp in *. rewrite Hm in *.
  set (ca := cos a) in *. set (cb := cos b) in *.
  set (sa := sin a) in *. set (sb := sin b) in *.
  split; nra.
Qed.

Lemma hav_same (lat lon : R) : hav lat lon lat lon = 0.
Proof.
  unfold hav.
  replace ((lat * (PI / 180) - lat * (PI / 180)) / 2) with 0 by lra.
  replace ((lon * (PI / 180) - lon * (PI / 180)) / 2) with 0 by lra.
  rewrite sin_0. lra.
Qed.

Lemma hav_sym (lat1 lon1 lat2 lon2 : R) :
  hav lat1 lon1 lat2 lon2 = hav lat2 lon2 lat1 lon1.
Proof.
  unfold hav.
  replace ((lat1 * (PI / 180) - lat2 * (PI / 180)) / 2)
    with (- ((lat2 * (PI / 180) - lat1 * (PI / 180)) / 2)) by lra.
  replace ((lon1 * (PI / 180) - lon2 * (PI / 180)) / 2)
    with (- ((lon2 * (PI / 180) - lon1 * (PI / 180)) / 2)) by lra.
  rewrite !sin_neg. lra.
Qed.

Lemma great_circle_km_same (lat lon : R) : great_circle_km lat lon lat lon = 0.
Proof.
  unfold great_circle_km. rewrite hav_same, sqrt_0, asin_0. lra.
Qed.

Lemma great_circle_km_sym (lat1 lon1 lat2 lon2 : R) :
  great_circle_km lat1 lon1 lat2 lon2 = great_circle_km lat2 lon2 lat1 lon1.
Proof. unfold great_circle_km. rewrite hav_sym. reflexivity. Qed.

Lemma sqrt_unit (x : R) : 0 <= x <= 1 -> 0 <= sqrt x <= 1.
Proof.
  intros [H0 H1]. split.
  - apply sqrt_pos.
  - rewrite <- sqrt_1. apply sqrt_le_1; lra.
Qed.

(** On finite coordinates [haversine] returns, and returns the closed form. *)
Lemma haversine_finite (lat1 lon1 lat2 lon2 : R) :
  haversine (Some (Fin lat1)) (Some (Fin lon1)) (Some (Fin lat2)) (Some (Fin lon2))
  = Ok (Fin (great_circle_km lat1 lon1 lat2 lon2)).
Proof.
  pose proof (hav_bounds lat1 lon1 lat2 lon2) as Hb.
  pose proof (sqrt_unit _ Hb) as Hs.
  unfold great_circle_km. unfold hav in *.
  unfold haversine, fsub. simpl.
  rewrite (Req_bool_false 2 0) by lra. simpl.
  unfold Rminus in *.
  rewrite Rlt_bool_false by lra. simpl.
  rewrite (Rlt_bool_false _ (-1)) by lra.
  rewrite (Rlt_bool_false 1) by lra. simpl.
  reflexivity.
Qed.

Lemma haversine_km_finite (lat1 lon1 lat2 lon2 : R) :
  haversine_km (Some (Fin lat1)) (Some (Fin lon1)) (Some (Fin lat2)) (Some (Fin lon2))
  = Ok (Fin (great_circle_km lat1 lon1 lat2 lon2)).
Proof.
  rewrite <- haversine_finite. reflexivity.
Qed.

Lemma asin_nonneg (y : R) : 0 <= y <= 1 -> 0 <= asin y.
Proof.
  intros [H0 H1].
  destruct (Rle_dec 0 (asin y)) as [H | H]; [assumption | exfalso].
  pose proof (asin_bound y) as [Hl Hu].
  assert (Hlt : sin (asin y) < sin 0).
  { pose proof PI_RGT_0. apply sin_increasing_1; lra. }
  rewrite sin_asin in Hlt by lra. rewrite sin_0 in Hlt. lra.
Qed.

Lemma great_circle_km_nonneg (lat1 lon1 lat2 lon2 : R) :
  0 <= great_circle_km lat1 lon1 lat2 lon2.
Proof.
  unfold great_circle_km.
  pose proof (asin_nonneg _ (sqrt_unit _ (hav_bounds lat1 lon1 lat2 lon2))).
  lra.
Qed.

Lemma haversine_km_missing (lat1 lon1 lat2 lon2 : option pyfloat) :
  existsb missing [lat1; lon1; lat2; lon2] = true ->
  haversine_km lat1 lon1 lat2 lon2 = Ok NaN.
Proof. intros H. unfold haversine_km. rewrite H. reflexivity. Qed.

Lemma haversine_km_row_missing (lat lon : option pyfloat) (r : sale) :
  isna (row_lat r) || isna (row_lon r) = true ->
  haversine_km lat lon (Some (row_lat r)) (Some (row_lon r)) = Ok NaN.
Proof.
  intros H. apply haversine_km_missing. simpl.
  destruct (missing lat), (missing lon); simpl; try reflexivity.
  rewrite orb_false_r. exact H.
Qed.

(** *** Maps that can raise *)

Section MapM.
Context {A B : Type} (f : A -> result B).

Lemma mapM_length (l : list A) (ds : list B) :
  mapM f l = Ok ds -> List.length ds = List.length l.
Proof.
  revert ds. induction l as [| a l IH]; simpl; intros ds H.
  - injection H as <-. reflexivity.
  - destruct (f a) as [b |]; simpl in H; [| discriminate].
    destruct (mapM f l) as [bs |]; simpl in H; [| discriminate].
    injection H as <-. simpl. f_equal. apply IH. reflexivity.
Qed.

Lemma mapM_app_ok (l1 l2 : list A) (d1 d2 : list B) :
  mapM f l1 = Ok d1 -> mapM f l2 = Ok d2 -> mapM f (l1 ++ l2) = Ok (d1 ++ d2).
Proof.
  revert d1. induction l1 as [| a l1 IH]; simpl; intros d1 H1 H2.
  - injection H1 as <-. exact H2.
  - destruct (f a) as [b |]; simpl in *; [| discriminate].
    destruct (mapM f l1) as [bs |]; simpl in *; [| discriminate].
    injection H1 as <-. rewrite (IH bs eq_refl H2). reflexivity.
Qed.

Lemma mapM_app_inv (l1 l2 : list A) (ds : list B) :
  mapM f (l1 ++ l2) = Ok ds ->
  exists d1 d2, mapM f l1 = Ok d1 /\ mapM f l2 = Ok d2 /\ ds = d1 ++ d2.
Proof.
  revert ds. induction l1 as [| a l1 IH]; simpl; intros ds H.
  - exists [], ds. auto.
  - destruct (f a) as [b |]; simpl in *; [| discriminate].
    destruct (mapM f (l1 ++ l2)) as [bs |] eqn:E; simpl in *; [| discriminate].
    injection H as <-.
    destruct (IH bs eq_refl) as (d1 & d2 & H1 & H2 & ->).
    exists (b :: d1), d2. rewrite H1. simpl. auto.
Qed.

Lemma mapM_In_combine (l : list A) (ds : list B) (x : A) (d : B) :
  mapM f l = Ok ds -> In (x, d) (combine l ds) -> f x = Ok d.
Proof.
  revert ds. induction l as [| a l IH]; simpl; intros ds H Hin.
  - contradiction.
  - destruct (f a) as [b |] eqn:Ea; simpl in H; [| discriminate].
    destruct (mapM f l) as [bs |]; simpl in H; [| discriminate].
    injection H as <-. simpl in Hin. destruct Hin as [Heq | Hin].
    + injection Heq as <- <-. exact Ea.
    + apply (IH bs eq_refl Hin).
Qed.

Lemma mapM_combine_In (l : list A) (ds : list B) (x : A) :
  mapM f l = Ok ds -> In x l -> exists d, f x = Ok d /\ In (x, d) (combine l ds).
Proof.
  revert ds. induction l as [| a l IH]; simpl; intros ds H Hin.
  - contradiction.
  - destruct (f a) as [b |] eqn:Ea; simpl in H; [| discriminate].
    destruct (mapM f l) as [bs |]; simpl in H; [| discriminate].
    injection H as <-. destruct Hin as [-> | Hin].
    + exists b. split; [exact Ea | left; reflexivity].
    + destruct (IH bs eq_refl Hin) as (d & Hd & Hc).
      exists d. split; [exact Hd | right; exact Hc].
Qed.
End MapM.

Lemma DataFrame_apply_ok {A B : Type} (f : A -> result B) (nan : A)
    (rows : list A) (ds : list B) :
  DataFrame_apply f nan rows = Ok ds -> mapM f rows = Ok ds.
Proof.
  destruct rows as [| a rows]; [| exact (fun H => H)].
  cbn [DataFrame_apply mapM]. destruct (f nan); [exact (fun H => H) | discriminate].
Qed.

Lemma DataFrame_apply_mapM {A B : Type} (f : A -> result B) (nan : A)
    (rows : list A) (b : B) :
  f nan = Ok b -> DataFrame_apply f nan rows = mapM f rows.
Proof.
  intros H. destruct rows as [| a rows]; [| reflexivity].
  cbn [DataFrame_apply mapM]. rewrite H. reflexivity.
Qed.

Lemma combine_app_same {A B : Type} (l1 l2 : list A) (d1 d2 : list B) :
  List.length l1 = List.length d1 ->
  combine (l1 ++ l2) (d1 ++ d2) = combine l1 d1 ++ combine l2 d2.
Proof.
  revert d1. induction l1 as [| a l1 IH]; intros [| b d1] H; simpl in *;
    try discriminate; try reflexivity.
  f_equal. apply IH. lia.
Qed.

(** *** The distance/time filter of [render_valuation] *)

(** On the row of NaN [haversine_km] returns, so the distance column of
    [render_valuation] is a plain map, also over a frame without rows. *)
Lemma recent_comps_mapM (lat lon : option pyfloat) (radius_km : pyfloat)
    (cutoff : Z) (hist : list sale) :
  recent_comps lat lon radius_km cutoff hist
  = (dist_km <-
       mapM (fun r => haversine_km lat lon (Some (row_lat r)) (Some (row_lon r))) hist ;;
     Ok (map fst (filter (in_window cutoff radius_km) (combine hist dist_km)))).
Proof.
  unfold recent_comps.
  rewrite (DataFrame_apply_mapM _ nan_row hist NaN); [reflexivity |].
  apply haversine_km_row_missing. reflexivity.
Qed.

Lemma recent_comps_In (lat lon : option pyfloat) (radius_km : pyfloat)
    (cutoff : Z) (hist out : list sale) (r : sale) :
  recent_comps lat lon radius_km cutoff hist = Ok out ->
  (In r out <->
   In r hist /\ date_ge (Date r) cutoff = true /\
   exists d, haversine_km lat lon (Some (row_lat r)) (Some (row_lon r)) = Ok d
             /\ fle d radius_km = true).
Proof.
  rewrite recent_comps_mapM. intros H.
  destruct (mapM _ hist) as [ds |] eqn:E; simpl in H; [| discriminate].
  injection H as <-. rewrite in_map_iff. split.
  - intros ([r' d] & Hfst & Hin). simpl in Hfst. subst r'.
    apply filter_In in Hin. destruct Hin as [Hin Hw].
    unfold in_window in Hw. simpl in Hw. apply andb_true_iff in Hw.
    destruct Hw as [Hd Hr].
    split; [eapply in_combine_l; exact Hin |].
    split; [exact Hd |].
    exists d. split; [| exact Hr].
    apply (mapM_In_combine _ _ _ _ _ E Hin).
  - intros (Hin & Hd & d & Hk & Hr).
    destruct (mapM_combine_In _ _ _ _ E Hin) as (d' & Hk' & Hc).
    rewrite Hk in Hk'. injection Hk' as <-.
    exists (r, d). split; [reflexivity |].
    apply filter_In. split; [exact Hc |].
    unfold in_window. simpl. rewrite Hd, Hr. reflexivity.
Qed.

Lemma recent_comps_skip_missing (lat lon : option pyfloat) (radius_km : pyfloat)
    (cutoff : Z) (l1 l2 out : list sale) (r : sale) :
  isna (row_lat r) || isna (row_lon r) = true ->
  recent_comps lat lon radius_km cutoff (l1 ++ l2) = Ok out ->
  recent_comps lat lon radius_km cutoff (l1 ++ r :: l2) = Ok out.
Proof.
  intros Hna. rewrite !recent_comps_mapM. intros H.
  destruct (mapM _ (l1 ++ l2)) as [ds |] eqn:E; simpl in H; [| discriminate].
  injection H as <-.
  destruct (mapM_app_inv _ _ _ _ E) as (d1 & d2 & H1 & H2 & ->).
  assert (Hr : mapM (fun r0 => haversine_km lat lon (Some (row_lat r0)) (Some (row_lon r0)))
                 (r :: l2) = Ok (NaN :: d2)).
  { simpl. rewrite (haversine_km_row_missing lat lon r Hna). simpl.
    rewrite H2. reflexivity. }
  rewrite (mapM_app_ok _ _ _ _ _ H1 Hr). simpl.
  pose proof (mapM_length _ _ _ H1) as Hlen.
  rewrite !combine_app_same by (symmetry; exact Hlen).
  simpl. rewrite !filter_app. simpl.
  unfold in_window at 2. simpl. rewrite andb_false_r. reflexivity.
Qed.

(** *** The distance/time filter of [local_adjustment] *)

Lemma local_comps_In (now : Z) (lat lon : option pyfloat) (radius_km : pyfloat)
    (months : Z) (rows out : list sale) (r : sale) :
  local_comps now lat lon radius_km months rows = Ok out ->
  (In r out <->
   In r (dropna_local rows) /\
   date_ge (Date r) (sub_DateOffset_months now months) = true /\
   exists d, haversine lat lon (Some (row_lat r)) (Some (row_lon r)) = Ok d
             /\ fle d radius_km = true).
Proof.
  unfold local_comps. intros H.
  destruct (DataFrame_apply _ nan_row (dropna_local rows)) as [ds |] eqn:E0;
    simpl in H; [| discriminate].
  pose proof (DataFrame_apply_ok _ _ _ _ E0) as E.
  injection H as <-. rewrite in_map_iff. split.
  - intros ([r' d] & Hfst & Hin). simpl in Hfst. subst r'.
    apply filter_In in Hin. destruct Hin as [Hin Hw].
    simpl in Hw. apply andb_true_iff in Hw. destruct Hw as [Hr Hd].
    split; [eapply in_combine_l; exact Hin |].
    split; [exact Hd |].
    exists d. split; [| exact Hr].
    apply (mapM_In_combine _ _ _ _ _ E Hin).
  - intros (Hin & Hd & d & Hk & Hr).
    destruct (mapM_combine_In _ _ _ _ E Hin) as (d' & Hk' & Hc).
    rewrite Hk in Hk'. injection Hk' as <-.
    exists (r, d). split; [reflexivity |].
    apply filter_In. split; [exact Hc |].
    simpl. rewrite Hd, Hr. reflexivity.
Qed.

Lemma dropna_local_In (rows : list sale) (r : sale) :
  In r (dropna_local rows) -> In r rows.
Proof. unfold dropna_local. intros H. apply filter_In in H. tauto. Qed.

Lemma dropna_hist_In (rows : list sale) (r : sale) :
  In r (dropna_hist rows) -> In r rows.
Proof. unfold dropna_hist. intros H. apply filter_In in H. tauto. Qed.

(** *** Which comps an adjustment keeps *)

Lemma median_fallback_used (base : pyfloat) (recent : list sale) :
  used_comps (median_fallback base recent) = recent \/
  used_comps (median_fallback base recent) = [].
Proof.
  unfold median_fallback.
  destruct (truthy _ && truthy base); simpl; auto.
Qed.

Lemma ratio_adjustment_used (base : pyfloat) (recent : list sale) (preds : list pyfloat) :
  used_comps (ratio_adjustment base recent preds) = recent.
Proof.
  unfold ratio_adjustment.
  destruct (isfinite _ && flt (Fin 0) _); reflexivity.
Qed.

Lemma adjust_with_comps_used (hp : option pipeline) (base : pyfloat) (recent : list sale) :
  used_comps (adjust_with_comps hp base recent) = recent \/
  used_comps (adjust_with_comps hp base recent) = [].
Proof.
  unfold adjust_with_comps.
  destruct hp as [predict |]; [| apply median_fallback_used].
  destruct (predict _) as [preds |]; [| apply median_fallback_used].
  destruct (_ =? _)%nat; [| apply median_fallback_used].
  left. apply ratio_adjustment_used.
Qed.

Lemma local_comps_adjustment_used (env : app_env) (lat lon : option pyfloat)
    (base radius_km : pyfloat) (months : Z) (adj : adjustment) (r : sale) :
  local_comps_adjustment env lat lon base radius_km months = Ok adj ->
  In r (used_comps adj) ->
  exists recent,
    recent_comps lat lon radius_km (cutoff_of (utcnow env) months)
      (dropna_hist (hist_rows (load_historical_sales_cached env))) = Ok recent
    /\ In r recent.
Proof.
  unfold local_comps_adjustment. intros H Hin.
  destruct lat as [la |]; [| injection H as <-; contradiction].
  destruct lon as [lo |]; [| injection H as <-; contradiction].
  destruct (hist_rows _) as [| h0 hs] eqn:Eh; [injection H as <-; contradiction |].
  destruct (required_columns _); [| injection H as <-; contradiction].
  destruct (recent_comps _ _ _ _ _) as [recent |] eqn:E; simpl in H; [| discriminate].
  exists recent. split; [reflexivity |].
  destruct recent as [| c cs]; [injection H as <-; contradiction |].
  injection H as <-.
  destruct (adjust_with_comps_used (load_house_model_cached env) base (c :: cs)) as [Hu | Hu];
    rewrite Hu in Hin; [exact Hin | contradiction].
Qed.

(** *** Evaluating comparisons of concrete reals *)

Ltac real_tests :=
  repeat first
    [ rewrite Rle_bool_true by lra
    | rewrite Rle_bool_false by lra
    | rewrite Rlt_bool_true by lra
    | rewrite Rlt_bool_false by lra
    | rewrite Req_bool_true by lra
    | rewrite Req_bool_false by lra ].

(** *** Calendar months against thirty-day months *)

(** The two calendar conversions are inverse to each other, and the day
    and the month are in range, on every day from 2000-01-01 to
    2049-12-31. *)
Lemma civil_round_trip_2000_2049 :
  days_from_civil 2000 1 1 = 10957%Z /\
  days_from_civil 2049 12 31 = (10957 + 18263 - 1)%Z /\
  all_days civil_day_ok (Z.to_nat 18263) 10957 = true.
Proof. vm_compute. repeat split. Qed.

Lemma one_month_before_march_31 :
  sub_DateOffset_months (midnight 2024 3 31) 1 = midnight 2024 2 29.
Proof. vm_compute. reflexivity. Qed.

Lemma thirty_days_before_march_31 :
  cutoff_of (midnight 2024 3 31) 1 = midnight 2024 3 1.
Proof. vm_compute. reflexivity. Qed.

Lemma local_comps_march_31 :
  let r := sale_at (Some (midnight 2024 2 29)) (Fin 5000000) (Fin 0) (Fin 0) in
  local_comps (midnight 2024 3 31) (Some (Fin 0)) (Some (Fin 0)) (Fin 2) 1 [r] = Ok [r].
Proof.
  intros r. unfold local_comps, dropna_local, r.
  cbn [filter sale_at row_lat row_lon Price Date notna notnat isna negb andb
       DataFrame_apply mapM].
  rewrite haversine_finite, great_circle_km_same.
  cbn [bind combine filter snd fst Date sale_at fle map].
  rewrite one_month_before_march_31.
  real_tests. cbn [andb date_ge].
  rewrite Z.leb_refl. reflexivity.
Qed.

(** C3, as stated, fails on the path of [local_adjustment]: on 2024-03-31
    with a lookback of one month its cutoff is 2024-02-29, not thirty days
    back (2024-03-01), and a sale of 2024-02-29 at the query point is
    retained although it is older than thirty days. *)
Lemma local_adjustment_cutoff_not_30_days :
  let now := midnight 2024 3 31 in
  let r := sale_at (Some (midnight 2024 2 29)) (Fin 5000000) (Fin 0) (Fin 0) in
  sub_DateOffset_months now 1 <> (now - 30 * 1 * ns_per_day)%Z /\
  local_comps now (Some (Fin 0)) (Some (Fin 0)) (Fin 2) 1 [r] = Ok [r] /\
  date_ge (Date r) (now - 30 * 1 * ns_per_day)%Z = false.
Proof.
  split; [| split].
  - vm_compute. discriminate.
  - apply local_comps_march_31.
  - vm_compute. reflexivity.
Qed.

(** C3, amended: on the path of [render_valuation] the cutoff is the current
    time minus exactly 30 x months days, on the path of [local_adjustment]
    it is the current time minus months calendar months; on both paths a
    record is retained only if its date is at or after the cutoff of that
    path and its haversine distance to the query point is at most
    [radius_km]. *)
Theorem comps_cutoff_and_window :
  (forall (env : app_env) (lat lon : option pyfloat) (base radius_km : pyfloat)
          (months : Z) (adj : adjustment) (r : sale),
      local_comps_adjustment env lat lon base radius_km months = Ok adj ->
      In r (used_comps adj) ->
      In r (hist_rows (load_historical_sales_cached env)) /\
      date_ge (Date r) (utcnow env - 30 * months * ns_per_day)%Z = true /\
      exists d, haversine_km lat lon (Some (row_lat r)) (Some (row_lon r)) = Ok d
                /\ fle d radius_km = true)
  /\
  (forall (now : Z) (lat lon : option pyfloat) (radius_km : pyfloat)
          (months : Z) (rows out : list sale) (r : sale),
      local_comps now lat lon radius_km months rows = Ok out ->
      In r out ->
      In r rows /\
      date_ge (Date r) (sub_DateOffset_months now months) = true /\
      exists d, haversine lat lon (Some (row_lat r)) (Some (row_lon r)) = Ok d
                /\ fle d radius_km = true).
Proof.
  split.
  - intros env lat lon base radius_km months adj r H Hin.
    destruct (local_comps_adjustment_used _ _ _ _ _ _ _ _ H Hin) as (recent & Hrec & Hr).
    apply (recent_comps_In _ _ _ _ _ _ r Hrec) in Hr.
    destruct Hr as (Hh & Hd & Hk).
    split; [apply dropna_hist_In; exact Hh |].
    split; [| exact Hk].
    unfold cutoff_of, timedelta in Hd. exact Hd.
  - intros now lat lon radius_km months rows out r H Hin.
    apply (local_comps_In _ _ _ _ _ _ _ r H) in Hin.
    destruct Hin as (Hh & Hd & Hk).
    split; [apply dropna_local_In; exact Hh |].
    split; [exact Hd | exact Hk].
Qed.

(** *** Concrete runs *)

Lemma median_single (x : pyfloat) : isna x = false -> median [x] = x.
Proof. intros H. unfold median, skipna. simpl. rewrite H. reflexivity. Qed.

Lemma recent_comps_same_point (la lo rad : R) (cutoff t : Z) (p : pyfloat) :
  0 <= rad -> (cutoff <= t)%Z ->
  recent_comps (Some (Fin la)) (Some (Fin lo)) (Fin rad) cutoff
    [sale_at (Some t) p (Fin la) (Fin lo)]
  = Ok [sale_at (Some t) p (Fin la) (Fin lo)].
Proof.
  intros Hr Ht. rewrite recent_comps_mapM.
  cbn [mapM sale_at row_lat row_lon].
  rewrite haversine_km_finite, great_circle_km_same.
  cbn [bind combine filter]. unfold in_window.
  cbn [fst snd Date sale_at date_ge fle].
  rewrite Rle_bool_true by exact Hr.
  apply Z.leb_le in Ht. rewrite Ht. reflexivity.
Qed.

Lemma sample_lookup :
  cache_lookup sample_cache sample_address = Ok (Some (Fin 12.9, Fin 77.6)).
Proof. reflexivity. Qed.

Lemma sample_geocode (g : string -> result coords) (w : disk) :
  cached_geocode g w sample_cache sample_address
  = Ok (sample_cache, (Some (Fin 12.9), Some (Fin 77.6))).
Proof. reflexivity. Qed.

(** *** The validity gate *)

Lemma gate_ok_one : gate_ok (Fin 1).
Proof. split; [reflexivity |]. apply flt_Fin. lra. Qed.

Lemma ratio_adjustment_gate (base : pyfloat) (recent : list sale) (preds : list pyfloat) :
  gate_ok (factor (ratio_adjustment base recent preds)) /\
  adjusted (ratio_adjustment base recent preds)
  = fmul base (factor (ratio_adjustment base recent preds)).
Proof.
  unfold ratio_adjustment.
  destruct (isfinite _ && flt (Fin 0) _) eqn:E; simpl.
  - apply andb_true_iff in E. split; [exact E | reflexivity].
  - split; [apply gate_ok_one | symmetry; apply fmul_1_r].
Qed.

Lemma median_fallback_factor (base : pyfloat) (recent : list sale) :
  adjusted (median_fallback base recent)
  = fmul base (factor (median_fallback base recent)) /\
  (factor (median_fallback base recent) = Fin 1 \/
   truthy (median (map Price recent)) = true /\ truthy base = true /\
   factor (median_fallback base recent) = fdiv (median (map Price recent)) base /\
   used_comps (median_fallback base recent) = recent).
Proof.
  unfold median_fallback.
  destruct (truthy (median _) && truthy base) eqn:E; simpl.
  - apply andb_true_iff in E. destruct E as [E1 E2].
    split; [reflexivity |]. right. repeat split; assumption.
  - split; [symmetry; apply fmul_1_r | left; reflexivity].
Qed.

Lemma adjust_with_comps_factor (hp : option pipeline) (base : pyfloat) (recent : list sale) :
  adjusted (adjust_with_comps hp base recent)
  = fmul base (factor (adjust_with_comps hp base recent)) /\
  (gate_ok (factor (adjust_with_comps hp base recent)) \/
   fallback_taken hp recent = true /\
   truthy (median (map Price recent)) = true /\ truthy base = true /\
   factor (adjust_with_comps hp base recent) = fdiv (median (map Price recent)) base /\
   used_comps (adjust_with_comps hp base recent) = recent).
Proof.
  assert (Hfb : fallback_taken hp recent = true ->
                adjust_with_comps hp base recent = median_fallback base recent ->
                adjusted (adjust_with_comps hp base recent)
                = fmul base (factor (adjust_with_comps hp base recent)) /\
                (gate_ok (factor (adjust_with_comps hp base recent)) \/
                 fallback_taken hp recent = true /\
                 truthy (median (map Price recent)) = true /\ truthy base = true /\
                 factor (adjust_with_comps hp base recent)
                 = fdiv (median (map Price recent)) base /\
                 used_comps (adjust_with_comps hp base recent) = recent)).
  { intros Ht ->. destruct (median_fallback_factor base recent) as [Ha [H1 | H]].
    - split; [exact Ha |]. left. rewrite H1. apply gate_ok_one.
    - split; [exact Ha |]. right. tauto. }
  unfold adjust_with_comps, fallback_taken in *.
  destruct hp as [predict |]; [| apply Hfb; reflexivity].
  destruct (predict _) as [preds |]; [| apply Hfb; reflexivity].
  destruct (_ =? _)%nat; [| apply Hfb; reflexivity].
  destruct (ratio_adjustment_gate base recent preds) as [Hg Ha].
  split; [exact Ha | left; exact Hg].
Qed.

Lemma no_adjustment_factor (base : pyfloat) :
  adjusted (no_adjustment base) = fmul base (factor (no_adjustment base)) /\
  gate_ok (factor (no_adjustment base)).
Proof. simpl. split; [symmetry; apply fmul_1_r | apply gate_ok_one]. Qed.

Lemma local_comps_adjustment_factor (env : app_env) (lat lon : option pyfloat)
    (base radius_km : pyfloat) (months : Z) (adj : adjustment) :
  local_comps_adjustment env lat lon base radius_km months = Ok adj ->
  adjusted adj = fmul base (factor adj) /\
  (gate_ok (factor adj) \/
   fallback_taken (load_house_model_cached env) (used_comps adj) = true /\
   truthy (median (map Price (used_comps adj))) = true /\ truthy base = true /\
   factor adj = fdiv (median (map Price (used_comps adj))) base).
Proof.
  unfold local_comps_adjustment. intros H.
  pose proof (no_adjustment_factor base) as [Hn1 Hn2].
  destruct lat as [la |]; [| injection H as <-; auto].
  destruct lon as [lo |]; [| injection H as <-; auto].
  destruct (hist_rows _) as [| h0 hs]; [injection H as <-; auto |].
  destruct (required_columns _); [| injection H as <-; auto].
  destruct (recent_comps _ _ _ _ _) as [recent |]; simpl in H; [| discriminate].
  destruct recent as [| c cs]; [injection H as <-; auto |].
  injection H as <-.
  destruct (adjust_with_comps_factor (load_house_model_cached env) base (c :: cs))
    as [Ha [Hg | Hf]].
  - auto.
  - split; [exact Ha |]. right.
    destruct Hf as (H1 & H2 & H3 & H4 & H5). rewrite H5. auto.
Qed.

(** What a run that shows a result went through. *)
Lemma render_valuation_inv (env : app_env) (f : cache_file) (a : string)
    (input : input_data) (radius_km : pyfloat) (months : Z)
    (f' : cache_file) (v : ValuationResult) :
  render_valuation env f a input radius_km months = Ok (f', Some v) ->
  exists lat lon adj,
    (if is_blank a then Ok (f, (None, None))
     else cached_geocode (geocode_address (geo env)) (writable env) f a)
    = Ok (f', (lat, lon)) /\
    predict_house_price env input = Ok (base_price v) /\
    local_comps_adjustment env lat lon (base_price v) radius_km months = Ok adj /\
    draw_map (FOLIUM_AVAILABLE env) lat lon = Ok tt /\
    v = {| base_price := base_price v;
           adjustment_factor := factor adj;
           adjusted_price := adjusted adj;
           confidence := confidence_of (List.length (used_comps adj));
           comp_count := List.length (used_comps adj);
           comps := used_comps adj |}.
Proof.
  unfold render_valuation. intros H.
  destruct (if is_blank a then _ else _) as [[f1 [lat lon]] |]; cbn [bind] in H;
    [| discriminate].
  destruct (predict_house_price env input) as [base |].
  - destruct (local_comps_adjustment env lat lon base radius_km months) as [adj |] eqn:E;
      cbn [bind] in H; [| discriminate].
    destruct (draw_map (FOLIUM_AVAILABLE env) lat lon) as [[] |] eqn:Ed;
      cbn [bind] in H; [| discriminate].
    injection H as <- <-. cbn [base_price].
    exists lat, lon, adj. auto.
  - destruct (draw_map (FOLIUM_AVAILABLE env) lat lon); cbn [bind] in H; discriminate.
Qed.

Lemma render_valuation_result (env : app_env) (f : cache_file) (a : string)
    (input : input_data) (radius_km : pyfloat) (months : Z)
    (f' : cache_file) (v : ValuationResult) :
  render_valuation env f a input radius_km months = Ok (f', Some v) ->
  exists lat lon adj,
    predict_house_price env input = Ok (base_price v) /\
    local_comps_adjustment env lat lon (base_price v) radius_km months = Ok adj /\
    adjustment_factor v = factor adj /\
    adjusted_price v = adjusted adj /\
    comps v = used_comps adj /\
    comp_count v = List.length (used_comps adj) /\
    confidence v = confidence_of (List.length (used_comps adj)).
Proof.
  intros H.
  destruct (render_valuation_inv _ _ _ _ _ _ _ _ H)
    as (lat & lon & adj & _ & Hbase & Hadj & _ & Hv).
  exists lat, lon, adj. rewrite Hv. cbn. auto 10.
Qed.

(** *** The sample runs *)

Lemma recent_comps_at_point (la lo rad : R) (cutoff t : Z) (r : sale) :
  0 <= rad -> (cutoff <= t)%Z ->
  row_lat r = Fin la -> row_lon r = Fin lo -> Date r = Some t ->
  recent_comps (Some (Fin la)) (Some (Fin lo)) (Fin rad) cutoff [r] = Ok [r].
Proof.
  intros Hr Ht Hla Hlo Hd. rewrite recent_comps_mapM.
  cbn [mapM]. rewrite Hla, Hlo.
  rewrite haversine_km_finite, great_circle_km_same.
  cbn [bind combine filter]. unfold in_window.
  cbn [fst snd fle]. rewrite Hd. cbn [date_ge].
  rewrite Rle_bool_true by exact Hr.
  apply Z.leb_le in Ht. rewrite Ht. reflexivity.
Qed.

Lemma sale_at_near_sample (p : pyfloat) :
  isna p = false ->
  near_sample (sale_at (Some (midnight 2024 3 15)) p (Fin 12.9) (Fin 77.6)).
Proof.
  intros Hp. unfold near_sample, complete_row, notna.
  cbn [sale_at row_lat row_lon Price Area Date isna notnat negb andb].
  rewrite Hp. auto.
Qed.

Lemma bare_sale_near_sample (p : pyfloat) :
  isna p = false ->
  near_sample (bare_sale (Some (midnight 2024 3 15)) p (Fin 12.9) (Fin 77.6)).
Proof.
  intros Hp. unfold near_sample, complete_row, notna.
  cbn [bare_sale row_lat row_lon Price Area Date isna notnat negb andb].
  rewrite Hp. auto.
Qed.

Lemma sample_env_adjustment (model : Predict.estimator) (base : pyfloat) (r : sale) :
  near_sample r ->
  local_comps_adjustment (sample_env model [r])
    (Some (Fin 12.9)) (Some (Fin 77.6)) base (Fin 2) 3
  = Ok (adjust_with_comps (load_house_model_cached (sample_env model [r])) base [r]).
Proof.
  intros (Hc & Hla & Hlo & Hd). unfold local_comps_adjustment.
  cbn [sample_env load_historical_sales_cached hist_rows required_columns utcnow].
  assert (Hdrop : dropna_hist [r] = [r]).
  { unfold dropna_hist. cbn [filter]. unfold complete_row in Hc. rewrite Hc. reflexivity. }
  rewrite Hdrop.
  rewrite (recent_comps_at_point 12.9 77.6 2 _ (midnight 2024 3 15) r);
    [reflexivity | lra | | assumption | assumption | assumption].
  apply Z.leb_le. vm_compute. reflexivity.
Qed.

Lemma sample_env_run (model : Predict.estimator) (base : pyfloat) (r : sale) :
  near_sample r ->
  predict_house_price (sample_env model [r]) sample_input = Ok base ->
  let adj :=
    adjust_with_comps (load_house_model_cached (sample_env model [r])) base [r] in
  render_valuation (sample_env model [r]) sample_cache sample_address
    sample_input (Fin 2) 3
  = Ok (sample_cache,
        Some {| base_price := base;
                adjustment_factor := factor adj;
                adjusted_price := adjusted adj;
                confidence := confidence_of (List.length (used_comps adj));
                comp_count := List.length (used_comps adj);
                comps := used_comps adj |}).
Proof.
  intros Hr Hbase adj. subst adj. unfold render_valuation.
  change (is_blank sample_address) with false. cbv iota.
  rewrite sample_geocode. cbn [bind].
  rewrite Hbase. rewrite (sample_env_adjustment model base r Hr).
  cbn [bind draw_map sample_env FOLIUM_AVAILABLE isna orb]. reflexivity.
Qed.

(** The base prediction of the two sample models. *)
Lemma constant_model_base (price : pyfloat) (hist : list sale) :
  predict_house_price (sample_env (constant_model price) hist) sample_input = Ok price.
Proof. reflexivity. Qed.

Lemma strict_model_base (price : pyfloat) (hist : list sale) :
  predict_house_price (sample_env (strict_model price) hist) sample_input = Ok price.
Proof. reflexivity. Qed.

(** The re-prediction of the constant model returns, and the ratios are
    those of the prices to the constant. *)
Lemma constant_model_adjustment (price base : pyfloat) (hist recent : list sale) :
  adjust_with_comps (load_house_model_cached (sample_env (constant_model price) hist))
    base recent
  = ratio_adjustment base recent (map (fun _ => price) recent).
Proof.
  unfold adjust_with_comps, load_house_model_cached, constant_model.
  cbn [sample_env house_model_memo models Predict.house_price_model].
  rewrite !length_map, Nat.eqb_refl. rewrite !map_map. reflexivity.
Qed.

(** The run of the constant model over one sale near the sample address. *)
Lemma constant_model_run (price p : pyfloat) :
  isna p = false ->
  let r := sale_at (Some (midnight 2024 3 15)) p (Fin 12.9) (Fin 77.6) in
  let adj := ratio_adjustment price [r] [price] in
  render_valuation (sample_env (constant_model price) [r]) sample_cache sample_address
    sample_input (Fin 2) 3
  = Ok (sample_cache,
        Some {| base_price := price;
                adjustment_factor := factor adj;
                adjusted_price := adjusted adj;
                confidence := confidence_of (List.length (used_comps adj));
                comp_count := List.length (used_comps adj);
                comps := used_comps adj |}).
Proof.
  intros Hp r adj. subst adj.
  rewrite (sample_env_run (constant_model price) price r
             (sale_at_near_sample p Hp) (constant_model_base price [r])).
  rewrite constant_model_adjustment. reflexivity.
Qed.

(** The re-prediction of the strict model raises on comps without the
    optional columns, and the [except] branch takes over. *)
Lemma strict_model_raises (price : pyfloat) (hist : list sale) (date : option Z)
    (p la lo : pyfloat) :
  exists predict : pipeline,
    load_house_model_cached (sample_env (strict_model price) hist) = Some predict /\
    predict (map build_feat [bare_sale date p la lo]) = Raise ValueError.
Proof. eexists. split; reflexivity. Qed.

Lemma strict_model_adjustment (price base : pyfloat) (hist : list sale)
    (date : option Z) (p la lo : pyfloat) :
  adjust_with_comps (load_house_model_cached (sample_env (strict_model price) hist))
    base [bare_sale date p la lo]
  = median_fallback base [bare_sale date p la lo].
Proof. reflexivity. Qed.

(** X14: in every result adjusted_price = base_price x factor, and the
    factor is gated unless the fallback was taken: after the median of
    the predicted ratios it is reset to 1.0 when it is not finite or not
    positive, and without comps it is 1.0; on the fallback (no model, a
    re-prediction that raises, predictions of the wrong length) it is
    median(price) / base_price, both being non-zero. *)
Theorem applied_factor_gated_or_fallback (env : app_env) (f : cache_file)
    (a : string) (input : input_data) (radius_km : pyfloat) (months : Z)
    (f' : cache_file) (v : ValuationResult) :
  render_valuation env f a input radius_km months = Ok (f', Some v) ->
  adjusted_price v = fmul (base_price v) (adjustment_factor v) /\
  (gate_ok (adjustment_factor v) \/
   fallback_taken (load_house_model_cached env) (comps v) = true /\
   truthy (median (map Price (comps v))) = true /\
   truthy (base_price v) = true /\
   adjustment_factor v = fdiv (median (map Price (comps v))) (base_price v)).
Proof.
  intros H.
  destruct (render_valuation_result _ _ _ _ _ _ _ _ H)
    as (lat & lon & adj & _ & Hadj & Hf & Ha & Hc & _).
  rewrite Hf, Ha, Hc.
  apply (local_comps_adjustment_factor _ _ _ _ _ _ _ Hadj).
Qed.

Lemma applied_factor_gated_or_fallback_witness :
  let r := sale_at (Some (midnight 2024 3 15)) (Fin 5200000) (Fin 12.9) (Fin 77.6) in
  exists v,
    render_valuation (sample_env (constant_model (Fin 5000000)) [r]) sample_cache
      sample_address sample_input (Fin 2) 3 = Ok (sample_cache, Some v) /\
    adjusted_price v = fmul (base_price v) (adjustment_factor v).
Proof.
  intros r. eexists. split.
  - apply (constant_model_run (Fin 5000000) (Fin 5200000)). reflexivity.
  - apply (applied_factor_gated_or_fallback
             (sample_env (constant_model (Fin 5000000)) [r]) sample_cache
             sample_address sample_input (Fin 2) 3 sample_cache).
    apply (constant_model_run (Fin 5000000) (Fin 5200000)). reflexivity.
Defined.

(** C1, the failing input.  The model file holds a pipeline without an
    imputer and predicts 5,000,000 for the form; the history has one sale,
    sixteen days old, at the cached position of the address, with a
    recorded price of -5,000,000 and no optional columns.  The
    re-prediction raises on the NaN of the comp, the [except] branch
    divides the median price by the base price, and the factor -1 is
    applied as it is: the result shows the adjusted price -5,000,000.  On
    the same comp the [try] branch resets every factor that is not finite
    and positive. *)
Theorem fallback_factor_not_gated :
  let r := bare_sale (Some (midnight 2024 3 15)) (Fin (-5000000)) (Fin 12.9) (Fin 77.6) in
  let env := sample_env (strict_model (Fin 5000000)) [r] in
  predict_house_price env sample_input = Ok (Fin 5000000) /\
  (exists predict : pipeline,
      load_house_model_cached env = Some predict /\
      predict (map build_feat [r]) = Raise ValueError) /\
  (exists v,
      render_valuation env sample_cache sample_address sample_input (Fin 2) 3
      = Ok (sample_cache, Some v) /\
      comps v = [r] /\
      adjustment_factor v = Fin (-1) /\
      adjusted_price v = Fin (-5000000) /\
      flt (Fin 0) (adjustment_factor v) = false /\
      ~ gate_ok (adjustment_factor v)) /\
  (forall preds, gate_ok (factor (ratio_adjustment (Fin 5000000) [r] preds))).
Proof.
  intros r env.
  split; [apply strict_model_base |].
  split; [apply strict_model_raises |].
  split; [| intros preds; apply ratio_adjustment_gate].
  eexists. split.
  - apply (sample_env_run (strict_model (Fin 5000000)) (Fin 5000000) r).
    + apply bare_sale_near_sample. reflexivity.
    + apply strict_model_base.
  - unfold r. rewrite strict_model_adjustment.
    unfold median_fallback. cbn [map Price bare_sale].
    rewrite median_single by reflexivity.
    cbn [truthy]. real_tests. cbn [negb andb factor adjusted used_comps fdiv fmul flt
      adjustment_factor adjusted_price comps].
    real_tests.
    assert (E1 : Fin (-5000000 / 5000000) = Fin (-1)) by (f_equal; lra).
    assert (E2 : Fin (5000000 * (-5000000 / 5000000)) = Fin (-5000000)) by (f_equal; lra).
    rewrite E1, E2. cbn [flt]. real_tests.
    repeat split; try reflexivity.
    intros [_ Hpos]. cbn [flt] in Hpos. rewrite Rlt_bool_false in Hpos by lra.
    discriminate.
Qed.

(** *** The median of a series *)

Lemma between_notna (lo hi : R) (x : pyfloat) : between lo hi x -> isna x = false.
Proof. intros (v & -> & _). reflexivity. Qed.

Lemma skipna_between (lo hi : R) (l : list pyfloat) :
  Forall (between lo hi) l -> skipna l = l.
Proof.
  induction 1 as [| x l Hx Hl IH]; [reflexivity |].
  unfold skipna in *. simpl. rewrite (between_notna _ _ _ Hx). simpl.
  rewrite IH. reflexivity.
Qed.

Lemma insert_sorted_length (x : pyfloat) (l : list pyfloat) :
  List.length (insert_sorted x l) = S (List.length l).
Proof.
  induction l as [| y l IH]; simpl; [reflexivity |].
  destruct (fle x y); simpl; [reflexivity | rewrite IH; reflexivity].
Qed.

Lemma sort_length (l : list pyfloat) : List.length (sort l) = List.length l.
Proof.
  induction l as [| x l IH]; simpl; [reflexivity |].
  rewrite insert_sorted_length, IH. reflexivity.
Qed.

Lemma insert_sorted_Forall (P : pyfloat -> Prop) (x : pyfloat) (l : list pyfloat) :
  P x -> Forall P l -> Forall P (insert_sorted x l).
Proof.
  intros Hx Hl. induction Hl as [| y l Hy Hl IH]; simpl.
  - constructor; [exact Hx | constructor].
  - destruct (fle x y).
    + constructor; [exact Hx |]. constructor; assumption.
    + constructor; assumption.
Qed.

Lemma sort_Forall (P : pyfloat -> Prop) (l : list pyfloat) :
  Forall P l -> Forall P (sort l).
Proof.
  induction 1 as [| x l Hx Hl IH]; simpl; [constructor |].
  apply insert_sorted_Forall; assumption.
Qed.

Lemma Forall_nth_lt (P : pyfloat -> Prop) (l : list pyfloat) (i : nat) :
  Forall P l -> (i < List.length l)%nat -> P (nth i l NaN).
Proof.
  intros H Hi. rewrite Forall_forall in H. apply H. apply nth_In. exact Hi.
Qed.

(** The median of a series of finite values of an interval lies in it. *)
Lemma median_between (lo hi : R) (l : list pyfloat) :
  l <> [] -> Forall (between lo hi) l -> between lo hi (median l).
Proof.
  intros Hne Hall. unfold median.
  rewrite (skipna_between lo hi l Hall).
  pose proof (sort_Forall _ _ Hall) as Hs.
  pose proof (sort_length l) as Hlen.
  set (s := sort l) in *.
  assert (Hpos : (0 < List.length s)%nat).
  { rewrite Hlen. destruct l; [contradiction | simpl; lia]. }
  destruct (List.length s) as [| n] eqn:En; [lia |].
  rewrite <- En.
  assert (Hhalf : (List.length s / 2 < List.length s)%nat)
    by (apply Nat.div_lt; lia).
  destruct (Nat.even (List.length s)).
  - assert (Hprev : (List.length s / 2 - 1 < List.length s)%nat) by lia.
    destruct (Forall_nth_lt _ _ _ Hs Hprev) as (a & -> & Ha).
    destruct (Forall_nth_lt _ _ _ Hs Hhalf) as (b & -> & Hb).
    exists ((a + b) / 2). split.
    + cbn [fadd]. apply fdiv_Fin. lra.
    + lra.
  - apply (Forall_nth_lt _ _ _ Hs Hhalf).
Qed.

(** *** Comps that the model predicts exactly *)

Lemma ratio_actual_pred_exact (recent : list sale) :
  ratio_actual_pred recent (map Price recent)
  = map (fun r => fdiv (Price r) (fadd (Price r) (Fin 1e-9))) recent.
Proof.
  unfold ratio_actual_pred.
  induction recent as [| r recent IH]; simpl; [reflexivity |].
  rewrite IH. reflexivity.
Qed.

Lemma exact_ratio_between (pmin p : R) :
  0 < pmin -> pmin <= p ->
  between (pmin / (pmin + 1e-9)) 1 (fdiv (Fin p) (fadd (Fin p) (Fin 1e-9))).
Proof.
  intros H0 Hp. exists (p / (p + 1e-9)). split.
  - cbn [fadd]. apply fdiv_Fin. lra.
  - assert (Hx : 0 < / (p + 1e-9)) by (apply Rinv_0_lt_compat; lra).
    assert (Hy : 0 < / (pmin + 1e-9)) by (apply Rinv_0_lt_compat; lra).
    assert (Hxy : / (p + 1e-9) <= / (pmin + 1e-9))
      by (apply Rinv_le_contravar; lra).
    assert (Ex : p / (p + 1e-9) = 1 - 1e-9 * / (p + 1e-9)) by (field; lra).
    assert (Ey : pmin / (pmin + 1e-9) = 1 - 1e-9 * / (pmin + 1e-9)) by (field; lra).
    rewrite Ex, Ey. split; nra.
Qed.

(** *** The ratio under rounding

    The bounds that the statements below give for exact arithmetic hold
    for every rounding to nearest: a monotone [rnd] that keeps 1 and 2 and
    has a relative error of at most [u] on the normal range, as binary64
    has with u = 2^-53. *)

Section Rounding.

Variable rnd : R -> R.
Variable u : R.
Hypothesis u_small : 0 <= u <= 1e-10.
Hypothesis rnd_mono : forall x y, x <= y -> rnd x <= rnd y.
Hypothesis rnd_1 : rnd 1 = 1.
Hypothesis rnd_2 : rnd 2 = 2.
Hypothesis rnd_error :
  forall x, 1e-300 <= x <= 1e300 -> x * (1 - u) <= rnd x <= x * (1 + u).

Lemma rounded_ratio_bounds (price : R) :
  rnd price = price -> 1 <= price <= 1e299 ->
  1 - 15e-10 <= rounded_ratio rnd price <= 1.
Proof.
  intros Hrep Hp. unfold rounded_ratio.
  destruct (rnd_error 1e-9 ltac:(lra)) as [He1 He2].
  set (e := rnd 1e-9) in *.
  assert (He : 0 < e <= 10000000001e-19) by nra.
  destruct (rnd_error (price + e) ltac:(lra)) as [_ Hs2].
  assert (Hs1 : price <= rnd (price + e)).
  { rewrite <- Hrep at 1. apply rnd_mono. lra. }
  set (s := rnd (price + e)) in *.
  assert (Hs : 0 < s) by lra.
  assert (Hi : 0 < / s) by (apply Rinv_0_lt_compat; exact Hs).
  assert (Hq1 : price / s <= 1).
  { apply (Rmult_le_reg_r s); [exact Hs |]. unfold Rdiv.
    rewrite Rmult_assoc, Rinv_l by lra. lra. }
  assert (Hq0 : 1 - 14e-10 <= price / s).
  { apply (Rmult_le_reg_r s); [exact Hs |]. unfold Rdiv.
    rewrite Rmult_assoc, Rinv_l by lra. nra. }
  split.
  - destruct (rnd_error (price / s) ltac:(lra)) as [Hr _]. nra.
  - rewrite <- rnd_1. apply rnd_mono. exact Hq1.
Qed.

Lemma rounded_mean_bounds (a b : R) :
  1 - 15e-10 <= a <= 1 -> 1 - 15e-10 <= b <= 1 ->
  1 - 2e-9 <= rounded_mean rnd a b <= 1.
Proof.
  intros Ha Hb. unfold rounded_mean.
  destruct (rnd_error (a + b) ltac:(lra)) as [Hs1 _].
  assert (Hs2 : rnd (a + b) <= 2) by (rewrite <- rnd_2; apply rnd_mono; lra).
  set (s := rnd (a + b)) in *.
  assert (Hs : 1 <= s) by nra.
  split.
  - destruct (rnd_error (s / 2) ltac:(lra)) as [Hr _]. nra.
  - rewrite <- rnd_1. apply rnd_mono. lra.
Qed.

End Rounding.

(** Exact arithmetic is one such rounding. *)
Lemma exact_ratio_in_bounds :
  1 - 15e-10 <= rounded_ratio (fun x => x) 5000000 <= 1.
Proof.
  apply (rounded_ratio_bounds (fun x => x) 0); try reflexivity; try lra.
  - intros x y H. exact H.
  - intros x _. lra.
Qed.

(** In doubles the ratio of a comp sold and predicted at 5,000,000 is
    0.9999999999999998 (the second double below 1.0) and the adjusted price
    of a base of 5,000,000 is 4999999.999999999. *)
Lemma binary64_exact_ratio_below_one :
  Binary64.exact_ratio 5000000 = S754_finite false 9007199254740990 (-53) /\
  SFeqb (Binary64.exact_ratio 5000000) (Binary64.of_Z 1) = false /\
  SFeqb (Binary64.mul (Binary64.of_Z 5000000) (Binary64.exact_ratio 5000000))
        (Binary64.of_Z 5000000) = false.
Proof. vm_compute. repeat split. Qed.

(** From prices of about 2^24 on the guard is rounded away: in doubles the
    ratio of a comp sold and predicted at 20,000,000 is 1.0 and the
    adjusted price is the base price. *)
Lemma binary64_guard_absorbed :
  SFeqb (Binary64.exact_ratio 20000000) (Binary64.of_Z 1) = true /\
  SFeqb (Binary64.exact_ratio 33554432) (Binary64.of_Z 1) = true /\
  SFeqb (Binary64.mul (Binary64.of_Z 5000000) (Binary64.exact_ratio 20000000))
        (Binary64.of_Z 5000000) = true.
Proof. vm_compute. repeat split. Qed.

(** C2, as stated, fails: one comp sold for 5,000,000 and predicted at
    exactly 5,000,000 gives the factor 5000000 / (5000000 + 1e-9), which is
    not 1.0, and the adjusted price is not the base price. *)
Lemma exact_prediction_factor_not_one :
  let r := sale_at (Some (midnight 2024 3 15)) (Fin 5000000) (Fin 12.9) (Fin 77.6) in
  let env := sample_env (constant_model (Fin 5000000)) [r] in
  exists v,
    render_valuation env sample_cache sample_address sample_input (Fin 2) 3
    = Ok (sample_cache, Some v) /\
    base_price v = Fin 5000000 /\
    comps v = [r] /\
    map Price (comps v) = [Fin 5000000] /\
    adjustment_factor v = Fin (5000000 / (5000000 + 1e-9)) /\
    adjustment_factor v <> Fin 1 /\
    adjusted_price v <> base_price v.
Proof.
  intros r env. eexists. split.
  - apply (sample_env_run (constant_model (Fin 5000000)) (Fin 5000000) r).
    + apply sale_at_near_sample. reflexivity.
    + apply constant_model_base.
  - rewrite constant_model_adjustment.
    unfold ratio_adjustment, ratio_actual_pred.
    cbn [combine map fst snd]. unfold r. cbn [Price sale_at fadd].
    rewrite fdiv_Fin by lra.
    rewrite median_single by reflexivity.
    cbn [isfinite flt andb]. real_tests.
    cbn [adjustment_factor adjusted_price base_price comps used_comps factor
         adjusted fmul map Price sale_at].
    repeat split; try reflexivity.
    + intros H. injection H as H. lra.
    + intros H. injection H as H. lra.
Qed.

Lemma exact_predictions_bounds (base : pyfloat) (recent : list sale) (pmin : R) :
  recent <> [] ->
  0 < pmin ->
  (forall r, In r recent -> exists p, Price r = Fin p /\ pmin <= p) ->
  exists f,
    factor (ratio_adjustment base recent (map Price recent)) = Fin f /\
    pmin / (pmin + 1e-9) <= f < 1 /\
    adjusted (ratio_adjustment base recent (map Price recent)) = fmul base (Fin f).
Proof.
  intros Hne H0 Hall.
  assert (Hr : Forall (between (pmin / (pmin + 1e-9)) 1)
                 (ratio_actual_pred recent (map Price recent))).
  { rewrite ratio_actual_pred_exact. apply Forall_forall.
    intros x Hx. apply in_map_iff in Hx. destruct Hx as (r & <- & Hin).
    destruct (Hall r Hin) as (p & -> & Hp).
    apply exact_ratio_between; assumption. }
  assert (Hne' : ratio_actual_pred recent (map Price recent) <> []).
  { rewrite ratio_actual_pred_exact. destruct recent; [contradiction | discriminate]. }
  destruct (median_between _ _ _ Hne' Hr) as (f & Hf & Hlo & Hhi).
  assert (Hpos : 0 < pmin / (pmin + 1e-9)).
  { apply Rdiv_lt_0_compat; lra. }
  exists f. unfold ratio_adjustment. rewrite Hf.
  cbn [isfinite flt andb]. rewrite Rlt_bool_true by lra.
  cbn [factor adjusted]. repeat split; assumption.
Qed.

(** Finitely many positive prices have a positive lower bound. *)
Lemma positive_prices_bounded_below (recent : list sale) :
  (forall r, In r recent -> exists p, Price r = Fin p /\ 0 < p) ->
  exists pmin, 0 < pmin /\
    forall r, In r recent -> exists p, Price r = Fin p /\ pmin <= p.
Proof.
  induction recent as [| r0 recent IH]; intros Hall.
  - exists 1. split; [lra | intros r []].
  - destruct (Hall r0 (or_introl eq_refl)) as (p0 & Hp0 & Hpos0).
    destruct IH as (m & Hm & Hrest).
    { intros r Hin. apply Hall. right. exact Hin. }
    exists (Rmin p0 m). split.
    + apply Rmin_glb_lt; assumption.
    + intros r [<- | Hin].
      * exists p0. split; [exact Hp0 | apply Rmin_l].
      * destruct (Hrest r Hin) as (p & Hp & Hle).
        exists p. split; [exact Hp |].
        apply Rle_trans with m; [apply Rmin_r | exact Hle].
Qed.

(** C2, amended: for every non-empty comp set in which each comp's
    predicted price equals its actual price, all actual prices being
    finite and positive, the adjustment factor (the median of
    actual_price / (predicted_price + 1e-9)) is finite, strictly positive
    and at most 1.0, and no less than 1 - 2e-9 when every price is at
    least 1.  It passes the validity gate, and adjusted_price equals
    base_price x factor. *)
Theorem exact_predictions_factor_near_one (base : pyfloat) (recent : list sale) :
  recent <> [] ->
  (forall r, In r recent -> exists p, Price r = Fin p /\ 0 < p) ->
  exists f,
    factor (ratio_adjustment base recent (map Price recent)) = Fin f /\
    0 < f <= 1 /\
    gate_ok (Fin f) /\
    adjusted (ratio_adjustment base recent (map Price recent)) = fmul base (Fin f) /\
    ((forall r, In r recent -> exists p, Price r = Fin p /\ 1 <= p) ->
     1 - 2e-9 <= f).
Proof.
  intros Hne Hall.
  destruct (positive_prices_bounded_below recent Hall) as (m & Hm & Hbound).
  destruct (exact_predictions_bounds base recent m Hne Hm Hbound)
    as (f & Hf & [Hlo Hhi] & Ha).
  assert (Hpos : 0 < m / (m + 1e-9)) by (apply Rdiv_lt_0_compat; lra).
  exists f. split; [exact Hf |]. split; [lra |].
  split; [split; [reflexivity | apply flt_Fin; lra] |].
  split; [exact Ha |].
  intros Hall'.
  destruct (exact_predictions_bounds base recent 1 Hne ltac:(lra) Hall')
    as (f' & Hf' & [Hlo' _] & _).
  rewrite Hf in Hf'. injection Hf' as <-.
  assert (E : 1 - 2e-9 <= 1 / (1 + 1e-9)).
  { apply (Rmult_le_reg_r (1 + 1e-9)); [lra |]. unfold Rdiv.
    rewrite Rmult_assoc, Rinv_l by lra. lra. }
  lra.
Qed.

Lemma exact_predictions_factor_near_one_witness :
  let r := sale_at (Some (midnight 2024 3 15)) (Fin 5000000) (Fin 12.9) (Fin 77.6) in
  exists f,
    factor (ratio_adjustment (Fin 5000000) [r] (map Price [r])) = Fin f /\
    0 < f <= 1 /\
    gate_ok (Fin f) /\
    adjusted (ratio_adjustment (Fin 5000000) [r] (map Price [r]))
    = fmul (Fin 5000000) (Fin f) /\
    ((forall r', In r' [r] -> exists p, Price r' = Fin p /\ 1 <= p) ->
     1 - 2e-9 <= f).
Proof.
  intros r.
  apply (exact_predictions_factor_near_one (Fin 5000000) [r]).
  - discriminate.
  - intros r' [<- | []]. exists 5000000. split; [reflexivity | lra].
Defined.

(** *** Writing and reading the cache file *)

Lemma split_cr_no_cr (s : string) : has CR s = false -> split_cr s = [s].
Proof.
  induction s as [| c s IH]; [reflexivity |].
  cbn [has split_cr]. intros H. apply orb_false_iff in H. destruct H as [Hc Hs].
  rewrite Hc, (IH Hs). reflexivity.
Qed.

Lemma split_cr_pieces (s p : string) : In p (split_cr s) -> has CR p = false.
Proof.
  revert p. induction s as [| c s IH]; intros p Hin.
  - destruct Hin as [<- | []]. reflexivity.
  - cbn [split_cr] in Hin. destruct (Ascii.eqb c CR) eqn:Ec.
    + destruct Hin as [<- | Hin]; [reflexivity | apply IH; exact Hin].
    + destruct (split_cr s) as [| q qs] eqn:Eq.
      * destruct Hin as [<- | []]. cbn [has]. rewrite Ec. reflexivity.
      * destruct Hin as [<- | Hin].
        -- cbn [has]. rewrite Ec. apply IH. left. reflexivity.
        -- apply IH. right. exact Hin.
Qed.

Lemma split_cr_not_nil (s : string) : split_cr s <> [].
Proof.
  destruct s as [| c s]; cbn [split_cr]; [discriminate |].
  destruct (Ascii.eqb c CR); [discriminate |].
  destruct (split_cr s); discriminate.
Qed.

Lemma In_removelast {A : Type} (l : list A) (x : A) : In x (removelast l) -> In x l.
Proof.
  induction l as [| a l IH]; [intros [] |].
  cbn [removelast]. destruct l as [| b l]; [intros [] |].
  intros [<- | H]; [left; reflexivity | right; apply IH; exact H].
Qed.

Lemma In_last {A : Type} (l : list A) (d : A) : l <> [] -> In (last l d) l.
Proof.
  induction l as [| a l IH]; [contradiction |]. intros _.
  cbn [last]. destruct l as [| b l]; [left; reflexivity |].
  right. apply IH. discriminate.
Qed.

(** A row whose address is on one line is written as one row. *)
Lemma write_row_one_line (a : string) (la lo : cell) :
  one_line a = true ->
  write_row {| address := Some a; lat := la; lon := lo |}
  = [ {| csv_address := a; csv_lat := la; csv_lon := lo |} ].
Proof.
  unfold one_line, write_row. cbn [address lat lon].
  destruct (quoted a); [reflexivity |].
  cbn [orb]. intros H. apply negb_true_iff in H.
  rewrite (split_cr_no_cr a H). reflexivity.
Qed.

(** Every address that [to_csv] leaves in the file is on one line. *)
Lemma write_row_plain (r : df_row) (c : csv_row) :
  In c (write_row r) -> one_line (csv_address c) = true.
Proof.
  unfold write_row. destruct (address r) as [a |].
  - destruct (quoted a) eqn:Eq.
    + intros [<- | []]. unfold one_line. cbn [csv_address]. rewrite Eq. reflexivity.
    + intros Hin. apply in_app_or in Hin.
      assert (Hp : forall p, In p (split_cr a) -> one_line p = true).
      { intros p Hp. unfold one_line. rewrite (split_cr_pieces a p Hp).
        apply orb_true_r. }
      destruct Hin as [Hin | [<- | []]].
      * apply in_map_iff in Hin. destruct Hin as (p & <- & Hin).
        apply filter_In in Hin. destruct Hin as [Hin _].
        apply Hp, In_removelast. exact Hin.
      * cbn [csv_address]. apply Hp, In_last, split_cr_not_nil.
  - intros [<- | []]. reflexivity.
Qed.

Lemma to_csv_plain (rows : list df_row) : plain_file (Csv (to_csv rows)) = true.
Proof.
  unfold plain_file, to_csv. cbn [csv_rows]. apply forallb_forall.
  intros c Hc. apply in_flat_map in Hc. destruct Hc as (r & _ & Hc).
  apply (write_row_plain r c Hc).
Qed.

Lemma to_csv_app (l1 l2 : list df_row) : to_csv (l1 ++ l2) = to_csv l1 ++ to_csv l2.
Proof. unfold to_csv. apply flat_map_app. Qed.

(** A row that was read from one line is read back as it was. *)
Lemma read_write_read (r : csv_row) :
  one_line (csv_address r) = true ->
  map read_row (write_row (read_row r)) = [read_row r].
Proof.
  intros H. unfold read_row at 2.
  destruct (is_na_value (csv_address r)) eqn:E.
  - cbn [write_row address lat lon map]. unfold read_row.
    cbn [csv_address csv_lat csv_lon]. rewrite E. reflexivity.
  - rewrite (write_row_one_line _ _ _ H). cbn [map]. unfold read_row.
    cbn [csv_address csv_lat csv_lon]. rewrite E. reflexivity.
Qed.


(** The rows of a file whose addresses are on one line are read back as
    they were. *)
Lemma read_write_frame (f : cache_file) (rows : list df_row) :
  plain_file f = true ->
  _read_geocode_cache_df f = Columns rows ->
  map read_row (to_csv rows) = rows.
Proof.
  destruct f as [| | | csv]; cbn [_read_geocode_cache_df]; intros Hp H;
    try discriminate; injection H as <-; try reflexivity.
  unfold plain_file in Hp. cbn [csv_rows] in Hp.
  induction csv as [| r csv IH]; [reflexivity |].
  cbn [forallb] in Hp. apply andb_true_iff in Hp. destruct Hp as [Hr Hp].
  cbn [map]. change (to_csv (read_row r :: map read_row csv))
    with (write_row (read_row r) ++ to_csv (map read_row csv)).
  rewrite map_app, (read_write_read r Hr), (IH Hp). reflexivity.
Qed.

Lemma address_is_eq (a : string) (r : df_row) :
  address_is a r = true -> address r = Some a.
Proof.
  unfold address_is. destruct (address r) as [b |]; [| discriminate].
  intros H. apply String.eqb_eq in H. subst. reflexivity.
Qed.

(** The strings that pandas reads as missing hold no carriage return. *)
Lemma na_value_one_line (a : string) : is_na_value a = true -> one_line a = true.
Proof.
  unfold is_na_value. intros H. apply existsb_exists in H.
  destruct H as (s & Hin & Heq). apply String.eqb_eq in Heq. subst s.
  unfold na_values in Hin. cbn [In] in Hin.
  repeat (destruct Hin as [<- | Hin]; [reflexivity |]). contradiction.
Qed.

(** What is read back where the new row was written, for an address on
    one line. *)
Lemma reread_new (a b : string) (la lo : pyfloat) :
  one_line a = true -> b <> a ->
  filter (address_is b) (map read_row (write_row (new_row a la lo))) = [].
Proof.
  intros H Hab. unfold new_row. rewrite (write_row_one_line _ _ _ H).
  cbn [map filter]. unfold address_is, read_row. cbn [address csv_address].
  destruct (is_na_value a); [reflexivity |].
  destruct (String.eqb a b) eqn:E; [| reflexivity].
  apply String.eqb_eq in E. congruence.
Qed.

(** What a store that writes leaves in the file. *)
Lemma append_written (f : cache_file) (a : string) (la lo : pyfloat) :
  select_address (_read_geocode_cache_df f) a = Ok [] ->
  exists rows,
    _read_geocode_cache_df f = Columns rows /\
    filter (address_is a) rows = [] /\
    _append_geocode_cache_df Writable f a la lo
    = (Csv (to_csv (rows ++ [new_row a la lo])), read_log f).
Proof.
  unfold _append_geocode_cache_df. intros Hsel. rewrite Hsel.
  destruct (_read_geocode_cache_df f) as [rows |] eqn:Er; [| discriminate].
  cbn [select_address] in Hsel. injection Hsel as Hsel.
  exists rows. auto.
Qed.

(** The file after such a store, read again. *)
Lemma append_reread (f : cache_file) (rows : list df_row) (a : string)
    (la lo : pyfloat) :
  plain_file f = true ->
  _read_geocode_cache_df f = Columns rows ->
  _read_geocode_cache_df (Csv (to_csv (rows ++ [new_row a la lo])))
  = Columns (rows ++ map read_row (write_row (new_row a la lo))).
Proof.
  intros Hp Er. cbn [_read_geocode_cache_df]. f_equal.
  rewrite to_csv_app, map_app, (read_write_frame f rows Hp Er).
  unfold to_csv. cbn [flat_map]. rewrite app_nil_r. reflexivity.
Qed.

(** A store of an address that has a row changes nothing and logs
    nothing. *)
Lemma append_present (w : disk) (f : cache_file) (a : string) (la lo : pyfloat) :
  entries f a <> [] ->
  _append_geocode_cache_df w f a la lo = (f, []).
Proof.
  unfold entries, _append_geocode_cache_df. intros H.
  destruct (select_address _ a) as [[| r rest] |] eqn:Es; try contradiction.
  destruct f; try reflexivity; discriminate.
Qed.

(** A store leaves the file as it was, or writes it, or breaks off. *)
Lemma append_cases (w : disk) (f : cache_file) (a : string) (la lo : pyfloat) :
  fst (_append_geocode_cache_df w f a la lo) = f \/
  select_address (_read_geocode_cache_df f) a = Ok [] /\
  (w = Writable \/
   exists remains, w = Broken remains /\
                   _append_geocode_cache_df w f a la lo
                   = (remains, read_log f ++ [FailedToAppend])).
Proof.
  unfold _append_geocode_cache_df.
  destruct (select_address _ a) as [[| r rest] |] eqn:Es; cbn [fst]; auto.
  destruct (_read_geocode_cache_df f) as [rows |]; cbn [fst]; auto.
  destruct w as [| remains]; cbn [fst]; [auto |].
  right. split; [reflexivity |]. right. exists remains. auto.
Qed.


(** The invariant of the cache, for addresses on one line: at most one
    row per address. *)
Lemma append_keeps_unique (f : cache_file) (a b : string) (la lo : pyfloat) :
  plain_file f = true -> one_line a = true ->
  (List.length (entries f b) <= 1)%nat ->
  (List.length (entries (fst (_append_geocode_cache_df Writable f a la lo)) b) <= 1)%nat.
Proof.
  intros Hp Ha Hinv.
  destruct (append_cases Writable f a la lo) as [-> | [Hsel _]]; [exact Hinv |].
  destruct (append_written f a la lo Hsel) as (rows & Er & Hnone & ->).
  cbn [fst]. unfold entries in *.
  rewrite (append_reread f rows a la lo Hp Er). rewrite Er in Hinv.
  cbn [select_address] in *. rewrite filter_app, length_app.
  destruct (String.eqb_spec b a) as [-> | Hne].
  - rewrite Hnone. unfold new_row. rewrite (write_row_one_line _ _ _ Ha).
    cbn [map filter List.length]. destruct (address_is a _); cbn [List.length]; lia.
  - rewrite (reread_new a b la lo Ha Hne). cbn [List.length]. lia.
Qed.

(** *** Store and lookup *)


(** An address that [pd.read_csv] reads back as a missing value is stored
    and not found again. *)
Lemma store_of_na_address_not_found (la lo : pyfloat) :
  _append_geocode_cache_df Writable Absent "NA" la lo
  = (Csv [ {| csv_address := "NA"; csv_lat := Num la; csv_lon := Num lo |} ], []) /\
  cache_lookup
    (Csv [ {| csv_address := "NA"; csv_lat := Num la; csv_lon := Num lo |} ]) "NA"
  = Ok None.
Proof. split; reflexivity. Qed.

(** An address with a carriage return is written on two lines: it is not
    found again, and its two halves are, the first without coordinates. *)
Lemma store_of_two_line_address_not_found (la lo : pyfloat) :
  let a := String "7" (String CR "Oak Ave") in
  _append_geocode_cache_df Writable Absent a la lo
  = (Csv [ {| csv_address := "7"; csv_lat := Num NaN; csv_lon := Num NaN |};
           {| csv_address := "Oak Ave"; csv_lat := Num la; csv_lon := Num lo |} ], []) /\
  cache_lookup (fst (_append_geocode_cache_df Writable Absent a la lo)) a = Ok None /\
  cache_lookup (fst (_append_geocode_cache_df Writable Absent a la lo)) "Oak Ave"
  = Ok (Some (la, lo)) /\
  cache_lookup (fst (_append_geocode_cache_df Writable Absent a la lo)) "7"
  = Ok (Some (NaN, NaN)).
Proof. intros a. repeat split; reflexivity. Qed.



Lemma lookup_first_entry (f : cache_file) (a : string) (r : df_row)
    (rest : list df_row) (la lo : pyfloat) :
  entries f a = r :: rest -> lat r = Num la -> lon r = Num lo ->
  cache_lookup f a = Ok (Some (la, lo)).
Proof.
  unfold entries, cache_lookup. intros He Hla Hlo.
  destruct (select_address _ a) as [l |]; [| discriminate].
  subst l. cbn [bind]. rewrite Hla, Hlo. reflexivity.
Qed.

(** A store of an address whose row the lookup sees is a no-op: the file
    is left as it was, so the lookup returns what it returned before, the
    first coordinates, and the rows of the address are the same; and in a
    file with every address on one line, no store of such an address gives
    an address a second row. *)
Lemma store_first_write_wins :
  (forall (w : disk) (f : cache_file) (a : string) (la' lo' : pyfloat),
      entries f a <> [] ->
      _append_geocode_cache_df w f a la' lo' = (f, []) /\
      cache_lookup (fst (_append_geocode_cache_df w f a la' lo')) a
      = cache_lookup f a /\
      entries (fst (_append_geocode_cache_df w f a la' lo')) a = entries f a)
  /\
  (forall (w : disk) (f : cache_file) (a : string) (la' lo' : pyfloat)
          (r : df_row) (rest : list df_row) (la lo : pyfloat),
      entries f a = r :: rest -> lat r = Num la -> lon r = Num lo ->
      cache_lookup (fst (_append_geocode_cache_df w f a la' lo')) a
      = Ok (Some (la, lo)))
  /\
  (forall (f : cache_file) (a b : string) (la lo : pyfloat),
      plain_file f = true -> one_line a = true ->
      (List.length (entries f b) <= 1)%nat ->
      (List.length (entries (fst (_append_geocode_cache_df Writable f a la lo)) b)
       <= 1)%nat).
Proof.
  split; [| split].
  - intros w f a la' lo' H.
    rewrite (append_present w f a la' lo' H). cbn [fst]. auto.
  - intros w f a la' lo' r rest la lo He Hla Hlo.
    rewrite (append_present w f a la' lo') by (rewrite He; discriminate).
    apply (lookup_first_entry f a r rest la lo He Hla Hlo).
  - apply append_keeps_unique.
Qed.

(** C5, the failing input.  The address NA is stored twice with different
    coordinates.  The first store writes its row; pandas reads the
    address of that row back as a missing value, so the second store does
    not find it: it is no no-op, it writes a second row.  Afterwards the
    file has two rows, the one under the key NA holds the second
    coordinates, and the first row has lost its address. *)
Theorem second_store_of_na_address_appends :
  let f1 := fst (_append_geocode_cache_df Writable Absent "NA" (Fin 12.9) (Fin 77.6)) in
  let second := _append_geocode_cache_df Writable f1 "NA" (Fin 13.5) (Fin 80) in
  f1 = Csv [ {| csv_address := "NA"; csv_lat := Num (Fin 12.9); csv_lon := Num (Fin 77.6) |} ] /\
  entries f1 "NA" = [] /\
  second
  = (Csv [ {| csv_address := EmptyString;
              csv_lat := Num (Fin 12.9); csv_lon := Num (Fin 77.6) |};
           {| csv_address := "NA"; csv_lat := Num (Fin 13.5); csv_lon := Num (Fin 80) |} ],
     []) /\
  fst second <> f1 /\
  cache_lookup (fst second) "NA" = Ok None.
Proof.
  intros f1 second. repeat split; try reflexivity.
  unfold second, f1. cbn. discriminate.
Qed.

(** *** A geocoder that fails *)

Lemma geocode_address_fails (env : geo_env) (a : string) :
  geocoder_fails env a -> geocode_address env a = Ok (None, None).
Proof.
  unfold geocoder_fails, geocode_address.
  intros [H | [H | [H | (status & results & H & Hs)]]].
  - rewrite H. reflexivity.
  - rewrite H. reflexivity.
  - destruct (GOOGLE_API_KEY env) as [[| c k] |]; try reflexivity.
    rewrite H. reflexivity.
  - destruct (GOOGLE_API_KEY env) as [[| c k] |]; try reflexivity.
    rewrite H. apply String.eqb_neq in Hs. rewrite Hs. reflexivity.
Qed.

(** [geocode_address] never raises. *)
Lemma geocode_address_returns (env : geo_env) (a : string) :
  exists c, geocode_address env a = Ok c.
Proof.
  unfold geocode_address.
  destruct (GOOGLE_API_KEY env) as [[| c k] |]; try (eexists; reflexivity).
  destruct (maps_api env a) as [| status results]; try (eexists; reflexivity).
  destruct (String.eqb status "OK"); try (eexists; reflexivity).
  destruct results as [| [loc |] rest]; eexists; reflexivity.
Qed.

Lemma cached_geocode_miss_failure (g : string -> result coords) (w : disk)
    (f : cache_file) (a : string) :
  cache_lookup f a = Ok None ->
  (g a = Ok (None, None) \/ exists e, g a = Raise e) ->
  cached_geocode g w f a = Ok (f, (None, None)).
Proof.
  intros Hmiss Hg. unfold cached_geocode.
  destruct (is_blank a); [reflexivity |].
  rewrite Hmiss. simpl.
  destruct Hg as [-> | [e ->]]; reflexivity.
Qed.

Lemma no_coordinates_no_adjustment (env : app_env) (base radius_km : pyfloat)
    (months : Z) :
  local_comps_adjustment env None None base radius_km months
  = Ok (no_adjustment base).
Proof. reflexivity. Qed.

(** C6: when the address misses the cache, so that the geocoder is asked,
    and the geocoder fails on it (no key, a failed request or a status
    other than OK), the cached wrapper returns (None, None) without
    raising and leaves the cache file as it was, and the valuation shows
    the base prediction with no comps and the factor 1.0. *)
Theorem geocoder_failure_degrades (env : app_env) (f : cache_file) (a : string)
    (input : input_data) (radius_km : pyfloat) (months : Z) (base : pyfloat) :
  cache_lookup f a = Ok None ->
  geocoder_fails (geo env) a ->
  predict_house_price env input = Ok base ->
  cached_geocode (geocode_address (geo env)) (writable env) f a
  = Ok (f, (None, None)) /\
  render_valuation env f a input radius_km months
  = Ok (f, Some {| base_price := base;
                   adjustment_factor := Fin 1;
                   adjusted_price := base;
                   confidence := Low;
                   comp_count := 0;
                   comps := [] |}).
Proof.
  intros Hmiss Hfail Hbase.
  assert (Hgeo : cached_geocode (geocode_address (geo env)) (writable env) f a
                 = Ok (f, (None, None))).
  { apply cached_geocode_miss_failure; [exact Hmiss |].
    left. apply geocode_address_fails. exact Hfail. }
  split; [exact Hgeo |].
  unfold render_valuation. rewrite Hgeo.
  destruct (is_blank a); cbn [bind]; rewrite Hbase;
    rewrite no_coordinates_no_adjustment; reflexivity.
Qed.

Lemma geocoder_failure_degrades_witness :
  let env := sample_env (constant_model (Fin 5000000))
               [sale_at (Some (midnight 2024 3 15)) (Fin 5200000) (Fin 12.9) (Fin 77.6)] in
  cached_geocode (geocode_address (geo env)) (writable env) Absent sample_address
  = Ok (Absent, (None, None)) /\
  render_valuation env Absent sample_address sample_input (Fin 2) 3
  = Ok (Absent, Some {| base_price := Fin 5000000;
                        adjustment_factor := Fin 1;
                        adjusted_price := Fin 5000000;
                        confidence := Low;
                        comp_count := 0;
                        comps := [] |}).
Proof.
  intros env.
  apply (geocoder_failure_degrades env Absent sample_address sample_input
           (Fin 2) 3 (Fin 5000000)).
  - reflexivity.
  - right. right. left. reflexivity.
  - reflexivity.
Defined.

(** *** A cache file that is not a cache *)

(** A cache file that [pd.read_csv] cannot read behaves as an empty
    cache: every lookup misses, the cached wrapper returns for every
    geocoder and address, and a store, which logs the failed read, writes
    a fresh file with the new row, in which an address that the file
    gives back as it is is found again. *)
Lemma unparseable_cache_behaves_empty :
  (forall a, cache_lookup Unparseable a = Ok None) /\
  (forall g w a, exists c, cached_geocode g w Unparseable a = Ok c) /\
  (forall a la lo,
      _append_geocode_cache_df Writable Unparseable a la lo
      = (Csv (to_csv [new_row a la lo]), [FailedToRead])) /\
  (forall a la lo,
      is_na_value a = false -> one_line a = true ->
      _append_geocode_cache_df Writable Unparseable a la lo
      = (Csv [ {| csv_address := a; csv_lat := Num la; csv_lon := Num lo |} ],
         [FailedToRead]) /\
      cache_lookup (fst (_append_geocode_cache_df Writable Unparseable a la lo)) a
      = Ok (Some (la, lo))).
Proof.
  split; [reflexivity |]. split; [| split].
  - intros g w a. unfold cached_geocode.
    destruct (is_blank a); [eexists; reflexivity |].
    cbn [cache_lookup _read_geocode_cache_df select_address filter bind].
    destruct (g a) as [[[la |] [lo |]] | e]; eexists; reflexivity.
  - reflexivity.
  - intros a la lo Hna Ha.
    assert (E : _append_geocode_cache_df Writable Unparseable a la lo
                = (Csv [ {| csv_address := a; csv_lat := Num la; csv_lon := Num lo |} ],
                   [FailedToRead])).
    { cbn [_append_geocode_cache_df _read_geocode_cache_df select_address filter
           read_log app to_csv flat_map].
      unfold new_row. rewrite (write_row_one_line _ _ _ Ha). reflexivity. }
    split; [exact E |]. rewrite E. cbn [fst].
    unfold cache_lookup. cbn [_read_geocode_cache_df map select_address bind filter].
    unfold address_is, read_row at 1. cbn [address csv_address]. rewrite Hna.
    rewrite String.eqb_refl. unfold read_row.
    cbn [lat lon csv_lat csv_lon float_of_cell]. reflexivity.
Qed.

(** C7, the failing input.  The cache file holds the four bytes [addr], a
    header cut short, or any other text that [pd.read_csv] takes for a
    table without an [address] column.  The read succeeds, so nothing
    makes the cache empty: the lookup of a non-blank address raises
    KeyError, outside every [try], through [cached_geocode] up to the
    page; and a store logs its failure and leaves the file as it is, so
    the state does not repair itself. *)
Theorem cache_without_address_column_raises :
  let env := sample_env (constant_model (Fin 5000000)) [] in
  _read_geocode_cache_df NoAddressColumn = OtherColumns /\
  read_log NoAddressColumn = [] /\
  cache_lookup NoAddressColumn sample_address = Raise KeyError /\
  (forall g w, cached_geocode g w NoAddressColumn sample_address = Raise KeyError) /\
  render_valuation env NoAddressColumn sample_address sample_input (Fin 2) 3
  = Raise KeyError /\
  (forall w la lo,
      _append_geocode_cache_df w NoAddressColumn sample_address la lo
      = (NoAddressColumn, [FailedToAppend])).
Proof. intros env. repeat split; reflexivity. Qed.

(** *** Distance, confidence and missing coordinates *)

(** C8: for both implementations and all points with real coordinates,
    the distance from a point to itself is 0 and the distance is
    symmetric; both functions return on such points. *)
Theorem haversine_zero_and_symmetric (lat1 lon1 lat2 lon2 : R) :
  let p := (Some (Fin lat1), Some (Fin lon1)) in
  let q := (Some (Fin lat2), Some (Fin lon2)) in
  haversine (fst p) (snd p) (fst p) (snd p) = Ok (Fin 0) /\
  haversine_km (fst p) (snd p) (fst p) (snd p) = Ok (Fin 0) /\
  (exists d, 0 <= d /\
     haversine (fst p) (snd p) (fst q) (snd q) = Ok (Fin d) /\
     haversine (fst q) (snd q) (fst p) (snd p) = Ok (Fin d)) /\
  (exists d, 0 <= d /\
     haversine_km (fst p) (snd p) (fst q) (snd q) = Ok (Fin d) /\
     haversine_km (fst q) (snd q) (fst p) (snd p) = Ok (Fin d)).
Proof.
  cbn [fst snd].
  rewrite !haversine_finite, !haversine_km_finite, great_circle_km_same.
  rewrite (great_circle_km_sym lat2 lon2 lat1 lon1).
  pose proof (great_circle_km_nonneg lat1 lon1 lat2 lon2) as Hd.
  repeat split; try reflexivity; exists (great_circle_km lat1 lon1 lat2 lon2); auto.
Qed.

Lemma confidence_of_High (n : nat) : confidence_of n = High <-> (10 <= n)%nat.
Proof.
  unfold confidence_of.
  destruct (10 <=? n)%nat eqn:E10.
  - apply Nat.leb_le in E10. tauto.
  - apply Nat.leb_gt in E10.
    destruct (5 <=? n)%nat; split; intros H; try discriminate; lia.
Qed.

Lemma confidence_of_Medium (n : nat) : confidence_of n = Medium <-> (5 <= n < 10)%nat.
Proof.
  unfold confidence_of.
  destruct (10 <=? n)%nat eqn:E10.
  - apply Nat.leb_le in E10. split; intros H; [discriminate | lia].
  - apply Nat.leb_gt in E10.
    destruct (5 <=? n)%nat eqn:E5.
    + apply Nat.leb_le in E5. split; intros H; [lia | reflexivity].
    + apply Nat.leb_gt in E5. split; intros H; [discriminate | lia].
Qed.

Lemma confidence_of_Low (n : nat) : confidence_of n = Low <-> (n < 5)%nat.
Proof.
  unfold confidence_of.
  destruct (10 <=? n)%nat eqn:E10.
  - apply Nat.leb_le in E10. split; intros H; [discriminate | lia].
  - apply Nat.leb_gt in E10.
    destruct (5 <=? n)%nat eqn:E5.
    + apply Nat.leb_le in E5. split; intros H; [discriminate | lia].
    + apply Nat.leb_gt in E5. split; intros H; [lia | reflexivity].
Qed.

(** C9: in every result of the valuation the confidence label is a
    function of the number of comps alone: High exactly from 10 comps on,
    Medium exactly from 5 to 9, Low exactly below 5. *)
Theorem confidence_from_comp_count (env : app_env) (f : cache_file) (a : string)
    (input : input_data) (radius_km : pyfloat) (months : Z)
    (f' : cache_file) (v : ValuationResult) :
  render_valuation env f a input radius_km months = Ok (f', Some v) ->
  comp_count v = List.length (comps v) /\
  confidence v = confidence_of (comp_count v) /\
  (confidence v = High <-> (10 <= comp_count v)%nat) /\
  (confidence v = Medium <-> (5 <= comp_count v < 10)%nat) /\
  (confidence v = Low <-> (comp_count v < 5)%nat).
Proof.
  intros H.
  destruct (render_valuation_result _ _ _ _ _ _ _ _ H)
    as (lat & lon & adj & _ & _ & _ & _ & Hc & Hn & Hl).
  rewrite Hl, Hn, Hc.
  split; [reflexivity |]. split; [reflexivity |].
  split; [apply confidence_of_High |].
  split; [apply confidence_of_Medium | apply confidence_of_Low].
Qed.

Lemma confidence_from_comp_count_witness :
  let r := sale_at (Some (midnight 2024 3 15)) (Fin 5200000) (Fin 12.9) (Fin 77.6) in
  exists v,
    render_valuation (sample_env (constant_model (Fin 5000000)) [r]) sample_cache
      sample_address sample_input (Fin 2) 3 = Ok (sample_cache, Some v) /\
    comp_count v = List.length (comps v) /\
    confidence v = confidence_of (comp_count v) /\
    (confidence v = High <-> (10 <= comp_count v)%nat) /\
    (confidence v = Medium <-> (5 <= comp_count v < 10)%nat) /\
    (confidence v = Low <-> (comp_count v < 5)%nat).
Proof.
  intros r. eexists. split.
  - apply (constant_model_run (Fin 5000000) (Fin 5200000)). reflexivity.
  - apply (confidence_from_comp_count (sample_env (constant_model (Fin 5000000)) [r])
             sample_cache sample_address sample_input (Fin 2) 3 sample_cache).
    apply (constant_model_run (Fin 5000000) (Fin 5200000)). reflexivity.
Defined.

(** C10: [haversine_km] returns NaN, and does not raise, whenever one of
    its four coordinates is None or NaN; NaN <= radius_km is false; so a
    row with a missing coordinate that reaches the filter is left out of
    the comps and the filter goes on as if the row were not there. *)
Theorem haversine_km_total_on_missing :
  (forall lat1 lon1 lat2 lon2,
      existsb missing [lat1; lon1; lat2; lon2] = true ->
      haversine_km lat1 lon1 lat2 lon2 = Ok NaN) /\
  (forall radius_km, fle NaN radius_km = false) /\
  (forall lat lon radius_km cutoff l1 l2 out r,
      isna (row_lat r) || isna (row_lon r) = true ->
      recent_comps lat lon radius_km cutoff (l1 ++ l2) = Ok out ->
      recent_comps lat lon radius_km cutoff (l1 ++ r :: l2) = Ok out /\
      ~ In r out).
Proof.
  split; [exact haversine_km_missing |]. split; [exact fle_NaN_l |].
  intros lat lon radius_km cutoff l1 l2 out r Hna H.
  split; [apply recent_comps_skip_missing; assumption |].
  intros Hin.
  apply (recent_comps_In _ _ _ _ _ _ r H) in Hin.
  destruct Hin as (_ & _ & d & Hd & Hle).
  rewrite (haversine_km_row_missing lat lon r Hna) in Hd.
  injection Hd as <-. discriminate.
Qed.

Lemma haversine_km_total_on_missing_witness :
  let good := sale_at (Some (midnight 2024 3 15)) (Fin 5200000) (Fin 12.9) (Fin 77.6) in
  let bad := sale_at (Some (midnight 2024 3 15)) (Fin 4800000) NaN (Fin 77.6) in
  haversine_km None (Some (Fin 77.6)) (Some (Fin 12.9)) (Some NaN) = Ok NaN /\
  recent_comps (Some (Fin 12.9)) (Some (Fin 77.6)) (Fin 2)
    (cutoff_of (midnight 2024 3 31) 3) [bad; good] = Ok [good] /\
  ~ In bad [good].
Proof.
  intros good bad.
  destruct haversine_km_total_on_missing as (Hnan & _ & Hskip).
  split; [apply Hnan; reflexivity |].
  apply (Hskip (Some (Fin 12.9)) (Some (Fin 77.6)) (Fin 2)
           (cutoff_of (midnight 2024 3 31) 3) [] [good] [good] bad).
  - reflexivity.
  - apply recent_comps_same_point; [lra |].
    apply Z.leb_le. vm_compute. reflexivity.
Defined.



Lemma comps_cutoff_and_window_witness :
  let r := sale_at (Some (midnight 2024 3 15)) (Fin 5200000) (Fin 12.9) (Fin 77.6) in
  let r' := sale_at (Some (midnight 2024 2 29)) (Fin 5000000) (Fin 0) (Fin 0) in
  date_ge (Date r) (midnight 2024 3 31 - 30 * 3 * ns_per_day)%Z = true /\
  date_ge (Date r') (sub_DateOffset_months (midnight 2024 3 31) 1) = true.
Proof.
  intros r r'.
  destruct comps_cutoff_and_window as [Hrender Hlocal].
  split.
  - assert (Hadj : local_comps_adjustment (sample_env (constant_model (Fin 5000000)) [r])
                     (Some (Fin 12.9)) (Some (Fin 77.6)) (Fin 5000000) (Fin 2) 3
                   = Ok (ratio_adjustment (Fin 5000000) [r] [Fin 5000000])).
    { rewrite (sample_env_adjustment (constant_model (Fin 5000000)) (Fin 5000000) r
                 (sale_at_near_sample (Fin 5200000) eq_refl)).
      rewrite constant_model_adjustment. reflexivity. }
    assert (Hin : In r (used_comps (ratio_adjustment (Fin 5000000) [r] [Fin 5000000]))).
    { rewrite ratio_adjustment_used. left. reflexivity. }
    destruct (Hrender _ _ _ _ _ _ _ _ Hadj Hin) as (_ & Hd & _).
    exact Hd.
  - destruct (Hlocal _ _ _ _ _ _ _ r' local_comps_march_31 (or_introl eq_refl))
      as (_ & Hd & _).
    exact Hd.
Defined.

(* ===================================================================== *)
(** * Further properties of the code *)

(** *** The cached geocoder *)



Lemma cached_geocode_unfold (g : string -> result coords) (w : disk)
    (f : cache_file) (a : string) :
  is_blank a = false ->
  cached_geocode g w f a =
  (hit <- cache_lookup f a ;;
   match hit with
   | Some (la, lo) => Ok (f, (Some la, Some lo))
   | None =>
       match geocoded g a with
       | (Some la, Some lo) =>
           Ok (fst (_append_geocode_cache_df w f a la lo), geocoded g a)
       | _ => Ok (f, geocoded g a)
       end
   end).
Proof. intros Hb. unfold cached_geocode, geocoded. rewrite Hb. reflexivity. Qed.





Lemma cache_lookup_no_rows (f : cache_file) (a : string) :
  select_address (_read_geocode_cache_df f) a = Ok [] -> cache_lookup f a = Ok None.
Proof. intros H. unfold cache_lookup. rewrite H. reflexivity. Qed.



Lemma memo_get_new (memo : list memo_entry) (a : string) (c : coords)
    (expires later : Z) :
  memo_get ({| memo_key := a; memo_value := c; memo_expires := expires |} :: memo)
    later a
  = if (later <? expires)%Z then Some c else None.
Proof.
  unfold memo_get. cbn [memo_find memo_key]. rewrite String.eqb_refl. reflexivity.
Qed.

(** X3: a row whose coordinates [float] refuses is never repaired.  In
    every run of the body the lookup misses, the geocoder is asked and its
    answer is returned, and the file stays as it is, because the store
    finds the address present.  Through the decorator the answer of a run
    is repeated for 24 hours without a run; from then on the next call
    runs the body and asks the geocoder again. *)
Theorem unreadable_row_never_repaired (g : string -> result coords) (w : disk)
    (f : cache_file) (a : string) (r : df_row) (rest : list df_row) :
  is_blank a = false ->
  entries f a = r :: rest ->
  lat r = Junk \/ lon r = Junk ->
  cached_geocode g w f a = Ok (f, geocoded g a) /\
  forall (memo : list memo_entry) (now : Z),
    memo_get memo now a = None ->
    let memo1 :=
      {| memo_key := a; memo_value := geocoded g a; memo_expires := (now + ttl)%Z |}
      :: memo in
    st_cache_data (cached_geocode g w) memo now f a = Ok (memo1, f, geocoded g a) /\
    forall (g' : string -> result coords) (w' : disk) (later : Z),
      ((later < now + ttl)%Z ->
       st_cache_data (cached_geocode g' w') memo1 later f a
       = Ok (memo1, f, geocoded g a)) /\
      ((now + ttl <= later)%Z ->
       st_cache_data (cached_geocode g' w') memo1 later f a
       = Ok ({| memo_key := a; memo_value := geocoded g' a;
                memo_expires := (later + ttl)%Z |} :: memo1,
             f, geocoded g' a)).
Proof.
  intros Hb He Hj.
  assert (Hsel : select_address (_read_geocode_cache_df f) a = Ok (r :: rest)).
  { unfold entries in He. destruct (select_address _ a) as [l |]; [| discriminate].
    subst l. reflexivity. }
  assert (Hmiss : cache_lookup f a = Ok None).
  { unfold cache_lookup. rewrite Hsel. cbn [bind].
    destruct Hj as [-> | ->]; cbn [float_of_cell];
      [reflexivity | destruct (float_of_cell (lat r)); reflexivity]. }
  assert (Hrun : forall g0 w0, cached_geocode g0 w0 f a = Ok (f, geocoded g0 a)).
  { intros g0 w0. rewrite (cached_geocode_unfold g0 w0 f a Hb). rewrite Hmiss.
    cbn [bind]. destruct (geocoded g0 a) as [[la |] [lo |]]; try reflexivity.
    rewrite append_present by (rewrite He; discriminate). reflexivity. }
  split; [apply Hrun |].
  intros memo now Hmemo memo1. split.
  - unfold st_cache_data. rewrite Hmemo, Hrun. reflexivity.
  - intros g' w' later. unfold st_cache_data, memo1. rewrite memo_get_new. split.
    + intros Hl. apply Z.ltb_lt in Hl. rewrite Hl. reflexivity.
    + intros Hl. apply Z.ltb_ge in Hl. rewrite Hl, Hrun. reflexivity.
Qed.

Lemma unreadable_row_never_repaired_witness :
  let f := Csv [ {| csv_address := sample_address; csv_lat := Junk;
                    csv_lon := Num (Fin 77.6) |} ] in
  cached_geocode (fun _ => Ok (Some (Fin 12.9), Some (Fin 77.6))) Writable f sample_address
  = Ok (f, (Some (Fin 12.9), Some (Fin 77.6))).
Proof.
  intros f.
  apply (unreadable_row_never_repaired
           (fun _ => Ok (Some (Fin 12.9), Some (Fin 77.6))) Writable f sample_address
           {| address := Some sample_address; lat := Junk; lon := Num (Fin 77.6) |} []).
  - reflexivity.
  - reflexivity.
  - left. reflexivity.
Defined.

(** X9: under the decorator a failure of the geocoder is kept for 24
    hours.  When the body runs for an address that misses the cache and
    the geocoder fails, the pair (None, None) is returned and memoised;
    until it expires every call for the address returns (None, None)
    without a run of the body, whatever the geocoder would answer by then,
    and the cache file stays as it is. *)
Theorem failed_geocode_is_memoised (g g' : string -> result coords) (w w' : disk)
    (f : cache_file) (a : string) (memo : list memo_entry) (now later : Z) :
  cache_lookup f a = Ok None ->
  (g a = Ok (None, None) \/ exists e, g a = Raise e) ->
  memo_get memo now a = None ->
  exists memo1,
    st_cache_data (cached_geocode g w) memo now f a = Ok (memo1, f, (None, None)) /\
    ((later < now + ttl)%Z ->
     st_cache_data (cached_geocode g' w') memo1 later f a
     = Ok (memo1, f, (None, None))).
Proof.
  intros Hmiss Hfail Hmemo.
  exists ({| memo_key := a; memo_value := (None, None);
             memo_expires := (now + ttl)%Z |} :: memo).
  split.
  - unfold st_cache_data. rewrite Hmemo.
    rewrite (cached_geocode_miss_failure g w f a Hmiss Hfail). reflexivity.
  - intros Hl. unfold st_cache_data. rewrite memo_get_new.
    apply Z.ltb_lt in Hl. rewrite Hl. reflexivity.
Qed.

Lemma failed_geocode_is_memoised_witness :
  exists memo1,
    st_cache_data (cached_geocode (geocode_address geo_down) Writable) []
      (midnight 2024 3 31) Absent sample_address
    = Ok (memo1, Absent, (None, None)) /\
    st_cache_data (cached_geocode (fun _ => Ok (Some (Fin 12.9), Some (Fin 77.6))) Writable)
      memo1 (midnight 2024 3 31 + 1) Absent sample_address
    = Ok (memo1, Absent, (None, None)).
Proof.
  destruct (failed_geocode_is_memoised (geocode_address geo_down)
              (fun _ => Ok (Some (Fin 12.9), Some (Fin 77.6))) Writable Writable
              Absent sample_address [] (midnight 2024 3 31)
              (midnight 2024 3 31 + 1)) as (memo1 & H1 & H2).
  - reflexivity.
  - left. reflexivity.
  - reflexivity.
  - exists memo1. split; [exact H1 |]. apply H2. unfold ttl. lia.
Defined.

(** X4: a run of the cached geocoder raises in one case only: a table
    without an [address] column and an address that is not blank; the
    error is the KeyError of the lookup.  In particular no failure of the
    geocoder or of the write reaches the caller. *)
Theorem cached_geocode_raises_iff (g : string -> result coords) (w : disk)
    (f : cache_file) (a : string) (e : exn) :
  cached_geocode g w f a = Raise e <->
  is_blank a = false /\ f = NoAddressColumn /\ e = KeyError.
Proof.
  split.
  - destruct (is_blank a) eqn:Hb.
    + unfold cached_geocode. rewrite Hb. discriminate.
    + rewrite (cached_geocode_unfold g w f a Hb).
      destruct f as [| | | rows].
      * cbn. destruct (geocoded g a) as [[la |] [lo |]]; discriminate.
      * cbn. destruct (geocoded g a) as [[la |] [lo |]]; discriminate.
      * cbn. intros H. injection H as <-. auto.
      * unfold cache_lookup. cbn [_read_geocode_cache_df select_address bind].
        destruct (filter _ _) as [| r rest].
        -- destruct (geocoded g a) as [[la |] [lo |]]; discriminate.
        -- destruct (float_of_cell (lat r)), (float_of_cell (lon r)); cbn [bind];
             try discriminate;
             destruct (geocoded g a) as [[la |] [lo |]]; discriminate.
  - intros (Hb & -> & ->). rewrite (cached_geocode_unfold g w _ a Hb). reflexivity.
Qed.

Lemma write_row_length (r : df_row) : (1 <= List.length (write_row r))%nat.
Proof.
  unfold write_row. destruct (address r) as [a |]; [| cbn; lia].
  destruct (quoted a); [cbn; lia |].
  rewrite length_app. cbn [List.length]. lia.
Qed.

Lemma to_csv_length (rows : list df_row) :
  (List.length rows <= List.length (to_csv rows))%nat.
Proof.
  induction rows as [| r rows IH]; [cbn; lia |].
  change (to_csv (r :: rows)) with (write_row r ++ to_csv rows).
  rewrite length_app. pose proof (write_row_length r). cbn [List.length]. lia.
Qed.

(** X5: an address that [pd.read_csv] reads back as a missing value is
    never found in the cache: every successful geocoding of it writes one
    more row, and the lookup still misses.  (The file grows by this one
    row when its addresses are on one line, as [to_csv] leaves them; a row
    with a carriage return that came in quotes takes more than one line
    when it is written again.) *)
Theorem na_address_grows_file (g : string -> result coords) (f : cache_file)
    (a : string) (la lo : pyfloat) :
  is_blank a = false ->
  is_na_value a = true ->
  f <> NoAddressColumn ->
  g a = Ok (Some la, Some lo) ->
  exists f1,
    cached_geocode g Writable f a = Ok (f1, (Some la, Some lo)) /\
    (S (List.length (csv_rows f)) <= List.length (csv_rows f1))%nat /\
    (plain_file f = true ->
     List.length (csv_rows f1) = S (List.length (csv_rows f))) /\
    In {| csv_address := a; csv_lat := Num la; csv_lon := Num lo |} (csv_rows f1) /\
    cache_lookup f1 a = Ok None.
Proof.
  intros Hb Hna Hf Hg.
  assert (Hrows : forall rows, filter (address_is a) (map read_row rows) = []).
  { induction rows as [| r rows IH]; [reflexivity |].
    cbn [map filter]. rewrite IH.
    unfold address_is, read_row at 1. cbn [address].
    destruct (is_na_value (csv_address r)) eqn:E; [reflexivity |].
    destruct (String.eqb (csv_address r) a) eqn:Ea; [| reflexivity].
    apply String.eqb_eq in Ea. congruence. }
  assert (Hsel : forall f0, f0 <> NoAddressColumn ->
                 select_address (_read_geocode_cache_df f0) a = Ok []).
  { intros f0 Hf0. destruct f0 as [| | | rows]; try reflexivity; [contradiction |].
    cbn [_read_geocode_cache_df select_address]. rewrite Hrows. reflexivity. }
  destruct (append_written f a la lo (Hsel f Hf)) as (rows & Er & _ & Hw).
  assert (Hlen : List.length rows = List.length (csv_rows f)).
  { destruct f as [| | | csv]; cbn in Er; try discriminate;
      injection Er as <-; [reflexivity | reflexivity |].
    cbn [csv_rows]. apply length_map. }
  assert (Hnew : write_row (new_row a la lo)
                 = [ {| csv_address := a; csv_lat := Num la; csv_lon := Num lo |} ]).
  { apply write_row_one_line, na_value_one_line. exact Hna. }
  exists (fst (_append_geocode_cache_df Writable f a la lo)).
  rewrite Hw. cbn [fst csv_rows].
  split; [| split; [| split; [| split]]].
  - rewrite (cached_geocode_unfold g Writable f a Hb).
    rewrite (cache_lookup_no_rows f a (Hsel f Hf)). cbn [bind].
    unfold geocoded. rewrite Hg, Hw. reflexivity.
  - rewrite to_csv_app, length_app. pose proof (to_csv_length rows).
    pose proof (write_row_length (new_row a la lo)).
    unfold to_csv at 2. cbn [flat_map]. rewrite app_nil_r. lia.
  - intros Hp. rewrite <- Hlen.
    rewrite <- (length_map read_row (to_csv (rows ++ [new_row a la lo]))).
    rewrite to_csv_app, map_app, (read_write_frame f rows Hp Er), length_app.
    unfold to_csv. cbn [flat_map]. rewrite app_nil_r, Hnew. cbn [map List.length]. lia.
  - rewrite to_csv_app. apply in_or_app. right.
    unfold to_csv. cbn [flat_map]. rewrite app_nil_r, Hnew. left. reflexivity.
  - apply cache_lookup_no_rows, Hsel. discriminate.
Qed.

Lemma na_address_grows_file_witness :
  exists f1,
    cached_geocode (fun _ => Ok (Some (Fin 12.9), Some (Fin 77.6))) Writable
      sample_cache "NA"
    = Ok (f1, (Some (Fin 12.9), Some (Fin 77.6))) /\
    (S (List.length (csv_rows sample_cache)) <= List.length (csv_rows f1))%nat /\
    (plain_file sample_cache = true ->
     List.length (csv_rows f1) = S (List.length (csv_rows sample_cache))) /\
    In {| csv_address := "NA"; csv_lat := Num (Fin 12.9); csv_lon := Num (Fin 77.6) |}
       (csv_rows f1) /\
    cache_lookup f1 "NA" = Ok None.
Proof.
  apply (na_address_grows_file
           (fun _ => Ok (Some (Fin 12.9), Some (Fin 77.6))) sample_cache "NA"
           (Fin 12.9) (Fin 77.6)); try reflexivity.
  discriminate.
Defined.

(** *** The geocoder *)

(** X6: [geocode_address] returns the coordinates of the first result as
    they are.  When one of them is null it returns half a pair; the body
    of the cached geocoder, run for an address that misses the cache, then
    stores nothing and returns the half pair, and the valuation is the
    base prediction, without comps. *)
Theorem half_pair_is_not_stored (env : app_env) (f : cache_file) (a : string)
    (input : input_data) (radius_km : pyfloat) (months : Z)
    (c : ascii) (k : string) (loc : coords) (rest : list (option coords))
    (base : pyfloat) :
  GOOGLE_API_KEY (geo env) = Some (String c k) ->
  maps_api (geo env) a = Reply "OK" (Some loc :: rest) ->
  fst loc = None \/ snd loc = None ->
  is_blank a = false ->
  cache_lookup f a = Ok None ->
  predict_house_price env input = Ok base ->
  geocode_address (geo env) a = Ok loc /\
  cached_geocode (geocode_address (geo env)) (writable env) f a = Ok (f, loc) /\
  render_valuation env f a input radius_km months = Ok (f, Some (neutral_result base)).
Proof.
  intros Hkey Hreply Hhalf Hb Hmiss Hbase.
  assert (Hgeo : geocode_address (geo env) a = Ok loc).
  { unfold geocode_address. rewrite Hkey, Hreply. reflexivity. }
  assert (Hrun : cached_geocode (geocode_address (geo env)) (writable env) f a
                 = Ok (f, loc)).
  { rewrite (cached_geocode_unfold _ _ f a Hb), Hmiss. cbn [bind].
    unfold geocoded. rewrite Hgeo.
    destruct loc as [[la |] [lo |]]; try reflexivity.
    destruct Hhalf; discriminate. }
  split; [exact Hgeo |]. split; [exact Hrun |].
  unfold render_valuation. rewrite Hb, Hrun. cbn [bind]. rewrite Hbase.
  destruct loc as [[la |] [lo |]]; cbn [fst snd] in Hhalf;
    try (destruct Hhalf; discriminate); reflexivity.
Qed.

Lemma half_pair_is_not_stored_witness :
  let half : coords := (None, Some (Fin 77.6)) in
  let env :=
    {| geo := {| GOOGLE_API_KEY := Some "key"%string;
                 maps_api := fun _ => Reply "OK" [Some half] |};
       writable := Writable;
       models := models (sample_env (constant_model (Fin 5000000)) []);
       house_model_memo := None;
       load_historical_sales_cached :=
         load_historical_sales_cached (sample_env (constant_model (Fin 5000000)) []);
       utcnow := midnight 2024 3 31;
       FOLIUM_AVAILABLE := true |} in
  geocode_address (geo env) "7 Oak Ave" = Ok half /\
  cached_geocode (geocode_address (geo env)) (writable env) sample_cache "7 Oak Ave"
  = Ok (sample_cache, half) /\
  render_valuation env sample_cache "7 Oak Ave" sample_input (Fin 2) 3
  = Ok (sample_cache, Some (neutral_result (Fin 5000000))).
Proof.
  intros half env.
  apply (half_pair_is_not_stored env sample_cache "7 Oak Ave" sample_input (Fin 2) 3
           "k"%char "ey"%string half [] (Fin 5000000)).
  - reflexivity.
  - reflexivity.
  - left. reflexivity.
  - reflexivity.
  - reflexivity.
  - reflexivity.
Defined.

(** *** The two distance functions *)

Lemma PI180_pos : 0 < PI / 180.
Proof. pose proof PI_RGT_0. lra. Qed.

Lemma to_radians (x : pyfloat) :
  fmul x (Fin (PI / 180))
  = match x with Fin r => Fin (r * (PI / 180)) | y => y end.
Proof.
  pose proof PI180_pos. destruct x; cbn [fmul]; try reflexivity;
    rewrite Req_bool_false by lra; rewrite Rlt_bool_true by lra; reflexivity.
Qed.

Lemma fdiv_two (x : pyfloat) :
  fdiv x (Fin 2) = match x with Fin r => Fin (r / 2) | y => y end.
Proof.
  destruct x; cbn [fdiv]; try reflexivity.
  - rewrite Req_bool_false by lra. reflexivity.
  - rewrite Rle_bool_true by lra. reflexivity.
  - rewrite Rle_bool_true by lra. reflexivity.
Qed.

Ltac run_haversine :=
  unfold haversine, radians; cbn [bind]; rewrite ?to_radians;
  cbn [fsub fneg fadd]; rewrite ?fdiv_two;
  cbn [math_sin math_cos math_sqrt math_asin bind sq fmul fadd].

(** With a NaN among its coordinates [haversine] returns NaN, unless it
    raises ValueError. *)
Lemma haversine_nan (lat1 lon1 lat2 lon2 : pyfloat) :
  existsb isna [lat1; lon1; lat2; lon2] = true ->
  haversine (Some lat1) (Some lon1) (Some lat2) (Some lon2) = Ok NaN \/
  haversine (Some lat1) (Some lon1) (Some lat2) (Some lon2) = Raise ValueError.
Proof.
  intros H.
  destruct lat1, lon1, lat2, lon2; try discriminate H; run_haversine; auto.
Qed.

(** With an infinite latitude [haversine] raises ValueError. *)
Lemma haversine_infinite_latitude (lat1 lon1 lat2 lon2 : pyfloat) :
  isna lat1 = false -> isna lat2 = false ->
  isfinite lat1 = false \/ isfinite lat2 = false ->
  haversine (Some lat1) (Some lon1) (Some lat2) (Some lon2) = Raise ValueError.
Proof.
  intros H1 H2 H.
  destruct lat1, lat2; try discriminate; try (destruct H; discriminate);
    destruct lon1, lon2; run_haversine; reflexivity.
Qed.

(** X7: the two distance functions compared on every input.  Where
    [haversine] returns a distance, [haversine_km] returns the same, and
    where no coordinate is None or NaN the two return or raise the same.
    They differ only where [haversine] raises and a coordinate is None or
    NaN; there [haversine_km] returns NaN.  With a coordinate that is None
    [haversine] raises TypeError.  With none that is None and one that is
    NaN it returns NaN or raises ValueError, and it raises when a latitude
    is infinite. *)
Theorem haversine_versus_haversine_km (lat1 lon1 lat2 lon2 : option pyfloat) :
  (forall d, haversine lat1 lon1 lat2 lon2 = Ok d ->
             haversine_km lat1 lon1 lat2 lon2 = Ok d)
  /\
  (existsb missing [lat1; lon1; lat2; lon2] = false ->
   haversine_km lat1 lon1 lat2 lon2 = haversine lat1 lon1 lat2 lon2)
  /\
  (existsb missing [lat1; lon1; lat2; lon2] = true ->
   haversine_km lat1 lon1 lat2 lon2 = Ok NaN)
  /\
  (lat1 = None \/ lon1 = None \/ lat2 = None \/ lon2 = None ->
   haversine lat1 lon1 lat2 lon2 = Raise TypeError)
  /\
  (forall y1 x1 y2 x2 : pyfloat,
      lat1 = Some y1 -> lon1 = Some x1 -> lat2 = Some y2 -> lon2 = Some x2 ->
      existsb isna [y1; x1; y2; x2] = true ->
      (haversine lat1 lon1 lat2 lon2 = Ok NaN \/
       haversine lat1 lon1 lat2 lon2 = Raise ValueError) /\
      (isna y1 = false -> isna y2 = false ->
       isfinite y1 = false \/ isfinite y2 = false ->
       haversine lat1 lon1 lat2 lon2 = Raise ValueError)).
Proof.
  assert (Hnone : lat1 = None \/ lon1 = None \/ lat2 = None \/ lon2 = None ->
                  haversine lat1 lon1 lat2 lon2 = Raise TypeError).
  { intros H. unfold haversine.
    destruct lon1 as [x1 |]; [| reflexivity].
    destruct lat1 as [y1 |]; [| reflexivity].
    destruct lon2 as [x2 |]; [| reflexivity].
    destruct lat2 as [y2 |]; [| reflexivity].
    destruct H as [H | [H | [H | H]]]; discriminate. }
  assert (Hsame : existsb missing [lat1; lon1; lat2; lon2] = false ->
                  haversine_km lat1 lon1 lat2 lon2 = haversine lat1 lon1 lat2 lon2).
  { intros H. unfold haversine_km. rewrite H. reflexivity. }
  split; [| split; [exact Hsame | split; [apply haversine_km_missing |
                                          split; [exact Hnone |]]]].
  - intros d Hd.
    destruct (existsb missing [lat1; lon1; lat2; lon2]) eqn:Hm.
    + rewrite (haversine_km_missing _ _ _ _ Hm).
      destruct lat1 as [y1 |]; [| rewrite Hnone in Hd by auto; discriminate].
      destruct lon1 as [x1 |]; [| rewrite Hnone in Hd by auto; discriminate].
      destruct lat2 as [y2 |]; [| rewrite Hnone in Hd by auto; discriminate].
      destruct lon2 as [x2 |]; [| rewrite Hnone in Hd by auto; discriminate].
      destruct (haversine_nan y1 x1 y2 x2 Hm) as [E | E]; rewrite E in Hd;
        [exact Hd | discriminate].
    + rewrite (Hsame eq_refl). exact Hd.
  - intros y1 x1 y2 x2 -> -> -> -> Hn. split.
    + apply haversine_nan. exact Hn.
    + apply haversine_infinite_latitude.
Qed.

Lemma haversine_versus_haversine_km_witness :
  haversine_km (Some (Fin 12.9)) (Some (Fin 77.6)) (Some (Fin 13)) (Some (Fin 77))
  = haversine (Some (Fin 12.9)) (Some (Fin 77.6)) (Some (Fin 13)) (Some (Fin 77)) /\
  haversine None (Some (Fin 77.6)) (Some (Fin 12.9)) (Some (Fin 77.6)) = Raise TypeError /\
  haversine_km None (Some (Fin 77.6)) (Some (Fin 12.9)) (Some (Fin 77.6)) = Ok NaN /\
  haversine (Some PInf) (Some NaN) (Some (Fin 12.9)) (Some (Fin 77.6)) = Raise ValueError /\
  haversine_km (Some PInf) (Some NaN) (Some (Fin 12.9)) (Some (Fin 77.6)) = Ok NaN.
Proof.
  split; [| split; [| split; [| split]]].
  - apply (haversine_versus_haversine_km (Some (Fin 12.9)) (Some (Fin 77.6))
             (Some (Fin 13)) (Some (Fin 77))).
    reflexivity.
  - apply (haversine_versus_haversine_km None (Some (Fin 77.6)) (Some (Fin 12.9))
             (Some (Fin 77.6))).
    left. reflexivity.
  - apply (haversine_versus_haversine_km None (Some (Fin 77.6)) (Some (Fin 12.9))
             (Some (Fin 77.6))).
    reflexivity.
  - destruct (haversine_versus_haversine_km (Some PInf) (Some NaN) (Some (Fin 12.9))
                (Some (Fin 77.6))) as (_ & _ & _ & _ & H).
    apply (H PInf NaN (Fin 12.9) (Fin 77.6)); try reflexivity.
    left. reflexivity.
  - apply (haversine_versus_haversine_km (Some PInf) (Some NaN) (Some (Fin 12.9))
             (Some (Fin 77.6))).
    reflexivity.
Defined.

Lemma great_circle_km_upper (lat1 lon1 lat2 lon2 : R) :
  great_circle_km lat1 lon1 lat2 lon2 <= 6371 * PI.
Proof.
  unfold great_circle_km.
  pose proof (asin_bound (sqrt (hav lat1 lon1 lat2 lon2))) as [_ Hu]. lra.
Qed.

Lemma great_circle_km_antipodes : great_circle_km 0 0 0 180 = 6371 * PI.
Proof.
  unfold great_circle_km, hav.
  replace ((0 * (PI / 180) - 0 * (PI / 180)) / 2) with 0 by lra.
  replace ((180 * (PI / 180) - 0 * (PI / 180)) / 2) with (PI / 2) by lra.
  replace (0 * (PI / 180)) with 0 by lra.
  rewrite sin_0, cos_0, sin_PI2.
  replace (0 * 0 + 1 * 1 * (1 * 1)) with 1 by lra.
  rewrite sqrt_1, asin_1. lra.
Qed.

(** X8: on real coordinates both distance functions return a distance
    between 0 and half the circumference 6371 x pi km, and the bound is
    reached, between the points (0, 0) and (0, 180). *)
Theorem haversine_range :
  (forall lat1 lon1 lat2 lon2 : R,
      exists d, 0 <= d <= 6371 * PI /\
        haversine (Some (Fin lat1)) (Some (Fin lon1)) (Some (Fin lat2)) (Some (Fin lon2))
        = Ok (Fin d) /\
        haversine_km (Some (Fin lat1)) (Some (Fin lon1)) (Some (Fin lat2)) (Some (Fin lon2))
        = Ok (Fin d))
  /\
  haversine_km (Some (Fin 0)) (Some (Fin 0)) (Some (Fin 0)) (Some (Fin 180))
  = Ok (Fin (6371 * PI)).
Proof.
  split.
  - intros lat1 lon1 lat2 lon2.
    exists (great_circle_km lat1 lon1 lat2 lon2).
    rewrite haversine_finite, haversine_km_finite.
    pose proof (great_circle_km_nonneg lat1 lon1 lat2 lon2).
    pose proof (great_circle_km_upper lat1 lon1 lat2 lon2).
    repeat split; assumption || reflexivity.
  - rewrite haversine_km_finite, great_circle_km_antipodes. reflexivity.
Qed.

(** *** Coordinates that are not finite *)

Lemma radians_PInf : fmul PInf (Fin (PI / 180)) = PInf.
Proof.
  pose proof PI180_pos. cbn [fmul].
  rewrite Req_bool_false by lra. rewrite Rlt_bool_true by lra. reflexivity.
Qed.

Lemma radians_NInf : fmul NInf (Fin (PI / 180)) = NInf.
Proof.
  pose proof PI180_pos. cbn [fmul].
  rewrite Req_bool_false by lra. rewrite Rlt_bool_true by lra. reflexivity.
Qed.

Lemma half_PInf : fdiv PInf (Fin 2) = PInf.
Proof. cbn [fdiv]. rewrite Rle_bool_true by lra. reflexivity. Qed.

Lemma half_NInf : fdiv NInf (Fin 2) = NInf.
Proof. cbn [fdiv]. rewrite Rle_bool_true by lra. reflexivity. Qed.

Lemma haversine_km_infinite_latitude (lat1 lon1 lat2 lon2 : pyfloat) :
  isna lat1 = false -> isna lon1 = false -> isna lat2 = false -> isna lon2 = false ->
  isfinite lat1 = false \/ isfinite lat2 = false ->
  haversine_km (Some lat1) (Some lon1) (Some lat2) (Some lon2) = Raise ValueError.
Proof.
  intros H1 H2 H3 H4 Hinf. unfold haversine_km.
  cbn [existsb missing]. rewrite H1, H2, H3, H4. cbn [orb].
  unfold radians. cbn [bind].
  destruct lat1 as [y1 | | |], lat2 as [y2 | | |];
    try discriminate;
    try (destruct Hinf; discriminate);
    rewrite ?radians_PInf, ?radians_NInf;
    cbn [fmul fsub fneg fadd];
    rewrite ?half_PInf, ?half_NInf; cbn [fdiv math_sin bind math_cos];
    try reflexivity.
Qed.

Lemma mapM_raises {A B : Type} (f : A -> result B) (l : list A) (x : A) (e : exn) :
  In x l -> f x = Raise e -> exists e', mapM f l = Raise e'.
Proof.
  induction l as [| a l IH]; intros Hin Hx; [contradiction |].
  cbn [mapM]. destruct Hin as [-> | Hin].
  - rewrite Hx. exists e. reflexivity.
  - destruct (f a) as [b |]; [| eexists; reflexivity].
    cbn [bind]. destruct (IH Hin Hx) as [e' ->]. exists e'. reflexivity.
Qed.

(** X10: [haversine_km] raises ValueError when a latitude is infinite
    (and no coordinate is missing), so one row of the history with an
    infinite latitude makes the filter, and with it the valuation of every
    located address, raise. *)
Theorem infinite_latitude_raises :
  (forall lat1 lon1 lat2 lon2 : pyfloat,
      isna lat1 = false -> isna lon1 = false -> isna lat2 = false -> isna lon2 = false ->
      isfinite lat1 = false \/ isfinite lat2 = false ->
      haversine_km (Some lat1) (Some lon1) (Some lat2) (Some lon2) = Raise ValueError)
  /\
  (forall (env : app_env) (f f' : cache_file) (a : string) (input : input_data)
          (radius_km : pyfloat) (months : Z) (la lo base : pyfloat) (r : sale),
      is_blank a = false ->
      cached_geocode (geocode_address (geo env)) (writable env) f a
      = Ok (f', (Some la, Some lo)) ->
      isna la = false -> isna lo = false ->
      predict_house_price env input = Ok base ->
      required_columns (load_historical_sales_cached env) = true ->
      In r (hist_rows (load_historical_sales_cached env)) ->
      complete_row r = true ->
      isfinite (row_lat r) = false ->
      exists e, render_valuation env f a input radius_km months = Raise e).
Proof.
  split; [exact haversine_km_infinite_latitude |].
  intros env f f' a input radius_km months la lo base r
         Hb Hgeo Hla Hlo Hbase Hcols Hin Hcomplete Hinf.
  unfold render_valuation. rewrite Hb, Hgeo. cbn [bind]. rewrite Hbase.
  unfold local_comps_adjustment. rewrite Hcols.
  destruct (hist_rows (load_historical_sales_cached env)) as [| h0 hs] eqn:Eh;
    [contradiction |].
  assert (Hd : In r (dropna_hist (h0 :: hs))).
  { unfold dropna_hist. apply filter_In. split; [exact Hin | exact Hcomplete]. }
  unfold complete_row in Hcomplete.
  repeat (apply andb_true_iff in Hcomplete; destruct Hcomplete as [Hcomplete ?]).
  assert (Hr : haversine_km (Some la) (Some lo) (Some (row_lat r)) (Some (row_lon r))
               = Raise ValueError).
  { apply haversine_km_infinite_latitude; try assumption.
    - unfold notna in Hcomplete. destruct (isna (row_lat r)); [discriminate | reflexivity].
    - unfold notna in H2. destruct (isna (row_lon r)); [discriminate | reflexivity].
    - right. exact Hinf. }
  rewrite recent_comps_mapM.
  destruct (mapM_raises
              (fun r0 => haversine_km (Some la) (Some lo) (Some (row_lat r0))
                           (Some (row_lon r0)))
              _ r ValueError Hd Hr) as [e' ->].
  exists e'. reflexivity.
Qed.

Lemma infinite_latitude_raises_witness :
  let r := sale_at (Some (midnight 2024 3 15)) (Fin 5200000) PInf (Fin 77.6) in
  exists e,
    render_valuation (sample_env (constant_model (Fin 5000000)) [r]) sample_cache sample_address
      sample_input (Fin 2) 3 = Raise e.
Proof.
  intros r.
  apply (proj2 infinite_latitude_raises (sample_env (constant_model (Fin 5000000)) [r])
           sample_cache sample_cache sample_address sample_input (Fin 2) 3%Z
           (Fin 12.9) (Fin 77.6) (Fin 5000000) r); try reflexivity.
  left. reflexivity.
Defined.

Lemma distances_of_missing_query (la lo : pyfloat) (hist : list sale) :
  isna la || isna lo = true ->
  mapM (fun r => haversine_km (Some la) (Some lo) (Some (row_lat r)) (Some (row_lon r)))
       hist
  = Ok (map (fun _ => NaN) hist).
Proof.
  intros H. induction hist as [| r hist IH]; [reflexivity |].
  cbn [mapM map]. rewrite IH.
  rewrite haversine_km_missing; [reflexivity |].
  cbn [existsb missing]. apply orb_true_iff in H. destruct H as [-> | ->];
    rewrite ?orb_true_r; reflexivity.
Qed.

Lemma recent_comps_missing_query (la lo radius_km : pyfloat) (cutoff : Z)
    (hist : list sale) :
  isna la || isna lo = true ->
  recent_comps (Some la) (Some lo) radius_km cutoff hist = Ok [].
Proof.
  intros H. rewrite recent_comps_mapM.
  rewrite (distances_of_missing_query la lo hist H). cbn [bind]. f_equal.
  induction hist as [| r hist IH]; [reflexivity |].
  cbn [map combine filter]. unfold in_window at 1. cbn [fst snd fle].
  rewrite andb_false_r. exact IH.
Qed.

(** X11: when the coordinates that the body of the cached geocoder finds
    in the cache for an address hold a NaN (an empty field of the file),
    every distance is NaN and no comp is retained, whatever the history
    holds: the adjustment is none, with the factor 1.0.  The page then draws the map at these coordinates, outside
    every [try], and the run ends in the error of the map: a ValueError of
    [folium.Map], or the exception of [st.map] without folium. *)
Theorem nan_coordinates_raise_at_map (env : app_env) (f : cache_file) (a : string)
    (input : input_data) (radius_km : pyfloat) (months : Z) (la lo : pyfloat) :
  is_blank a = false ->
  cache_lookup f a = Ok (Some (la, lo)) ->
  isna la || isna lo = true ->
  (forall base : pyfloat,
      local_comps_adjustment env (Some la) (Some lo) base radius_km months
      = Ok (no_adjustment base)) /\
  render_valuation env f a input radius_km months
  = Raise (if FOLIUM_AVAILABLE env then ValueError else OtherError).
Proof.
  intros Hb Hhit Hna.
  assert (Hadj : forall base : pyfloat,
             local_comps_adjustment env (Some la) (Some lo) base radius_km months
             = Ok (no_adjustment base)).
  { intros base. unfold local_comps_adjustment.
    destruct (hist_rows _) as [| h0 hs]; [reflexivity |].
    destruct (required_columns _); [| reflexivity].
    rewrite (recent_comps_missing_query la lo radius_km _ _ Hna). reflexivity. }
  split; [exact Hadj |].
  unfold render_valuation. rewrite Hb.
  rewrite (cached_geocode_unfold _ _ _ _ Hb), Hhit. cbn [bind].
  destruct (predict_house_price env input) as [base | e].
  - rewrite Hadj. cbn [bind draw_map]. rewrite Hna. reflexivity.
  - cbn [draw_map]. rewrite Hna. reflexivity.
Qed.

Lemma nan_coordinates_raise_at_map_witness :
  let f := Csv [ {| csv_address := sample_address; csv_lat := Num NaN;
                    csv_lon := Num NaN |} ] in
  let r := sale_at (Some (midnight 2024 3 15)) (Fin 5200000) PInf (Fin 77.6) in
  render_valuation (sample_env (constant_model (Fin 5000000)) [r]) f sample_address
    sample_input (Fin 2) 3
  = Raise ValueError.
Proof.
  intros f r.
  apply (nan_coordinates_raise_at_map
           (sample_env (constant_model (Fin 5000000)) [r]) f
           sample_address sample_input (Fin 2) 3 NaN NaN);
    reflexivity.
Defined.

(** *** Results of the valuation *)

Lemma adjust_with_comps_no_comps (hp : option pipeline) (base : pyfloat)
    (recent : list sale) :
  recent <> [] ->
  used_comps (adjust_with_comps hp base recent) = [] ->
  adjust_with_comps hp base recent = no_adjustment base.
Proof.
  intros Hne.
  assert (Hfb : used_comps (median_fallback base recent) = [] ->
                median_fallback base recent = no_adjustment base).
  { unfold median_fallback. destruct (truthy _ && truthy base); cbn [used_comps].
    - intros H. contradiction.
    - reflexivity. }
  unfold adjust_with_comps.
  destruct hp as [predict |]; [| exact Hfb].
  destruct (predict _) as [preds |]; [| exact Hfb].
  destruct (_ =? _)%nat; [| exact Hfb].
  rewrite ratio_adjustment_used. intros H. contradiction.
Qed.

Lemma local_comps_adjustment_no_comps (env : app_env) (lat lon : option pyfloat)
    (base radius_km : pyfloat) (months : Z) (adj : adjustment) :
  local_comps_adjustment env lat lon base radius_km months = Ok adj ->
  used_comps adj = [] ->
  adj = no_adjustment base.
Proof.
  unfold local_comps_adjustment. intros H Hu.
  destruct lat as [la |]; [| injection H as <-; reflexivity].
  destruct lon as [lo |]; [| injection H as <-; reflexivity].
  destruct (hist_rows _) as [| h0 hs]; [injection H as <-; reflexivity |].
  destruct (required_columns _); [| injection H as <-; reflexivity].
  destruct (recent_comps _ _ _ _ _) as [recent |]; cbn [bind] in H; [| discriminate].
  destruct recent as [| c cs]; injection H as <-; [reflexivity |].
  apply adjust_with_comps_no_comps; [discriminate | exact Hu].
Qed.

Lemma render_valuation_located (env : app_env) (f : cache_file) (a : string)
    (input : input_data) (radius_km : pyfloat) (months : Z)
    (f' : cache_file) (v : ValuationResult) :
  render_valuation env f a input radius_km months = Ok (f', Some v) ->
  exists lat lon adj,
    (if is_blank a then Ok (f, (None, None))
     else cached_geocode (geocode_address (geo env)) (writable env) f a)
    = Ok (f', (lat, lon)) /\
    local_comps_adjustment env lat lon (base_price v) radius_km months = Ok adj /\
    v = {| base_price := base_price v;
           adjustment_factor := factor adj;
           adjusted_price := adjusted adj;
           confidence := confidence_of (List.length (used_comps adj));
           comp_count := List.length (used_comps adj);
           comps := used_comps adj |}.
Proof.
  intros H.
  destruct (render_valuation_inv _ _ _ _ _ _ _ _ H)
    as (lat & lon & adj & Hloc & _ & Hadj & _ & Hv).
  exists lat, lon, adj. auto.
Qed.

(** X12: a valuation that shows no comps has made no adjustment: the
    factor is 1.0, the adjusted price is the base price and the confidence
    is Low; so a factor other than 1.0 always comes with the comps it was
    computed from. *)
Theorem no_comps_no_adjustment (env : app_env) (f : cache_file) (a : string)
    (input : input_data) (radius_km : pyfloat) (months : Z)
    (f' : cache_file) (v : ValuationResult) :
  render_valuation env f a input radius_km months = Ok (f', Some v) ->
  comps v = [] ->
  v = neutral_result (base_price v).
Proof.
  intros H Hc.
  destruct (render_valuation_located _ _ _ _ _ _ _ _ H)
    as (lat & lon & adj & _ & Hadj & Hv).
  assert (Hu : used_comps adj = []) by (rewrite Hv in Hc; exact Hc).
  rewrite (local_comps_adjustment_no_comps _ _ _ _ _ _ _ Hadj Hu) in Hv.
  exact Hv.
Qed.

Lemma no_comps_no_adjustment_witness :
  exists v,
    render_valuation (sample_env (constant_model (Fin 5000000)) []) sample_cache
      sample_address sample_input (Fin 2) 3 = Ok (sample_cache, Some v) /\
    v = neutral_result (base_price v).
Proof.
  eexists. split; [reflexivity |].
  apply (no_comps_no_adjustment (sample_env (constant_model (Fin 5000000)) [])
           sample_cache sample_address sample_input (Fin 2) 3 sample_cache);
    reflexivity.
Defined.

Lemma local_comps_adjustment_degrades (env : app_env) (lat lon : option pyfloat)
    (base radius_km : pyfloat) (months : Z) :
  lat = None \/ lon = None \/
  hist_rows (load_historical_sales_cached env) = [] \/
  required_columns (load_historical_sales_cached env) = false ->
  local_comps_adjustment env lat lon base radius_km months = Ok (no_adjustment base).
Proof.
  unfold local_comps_adjustment. intros H.
  destruct lat as [la |]; [| reflexivity].
  destruct lon as [lo |]; [| reflexivity].
  destruct (hist_rows _) as [| h0 hs]; [reflexivity |].
  destruct (required_columns _); [| reflexivity].
  destruct H as [H | [H | [H | H]]]; discriminate.
Qed.

(** X13: the local adjustment degrades to the base prediction: with a
    blank address, with a history that is absent or empty, or with a
    history that lacks one of the columns lat, lon, Price, Area, Date, the
    valuation is the base prediction with the factor 1.0 and no comps; a
    blank address also leaves the cache file untouched. *)
Theorem missing_prerequisite_gives_base (env : app_env) (f : cache_file)
    (a : string) (input : input_data) (radius_km : pyfloat) (months : Z)
    (f' : cache_file) (v : ValuationResult) :
  render_valuation env f a input radius_km months = Ok (f', Some v) ->
  is_blank a = true \/
  hist_rows (load_historical_sales_cached env) = [] \/
  required_columns (load_historical_sales_cached env) = false ->
  v = neutral_result (base_price v) /\ (is_blank a = true -> f' = f).
Proof.
  intros H Hpre.
  destruct (render_valuation_located _ _ _ _ _ _ _ _ H)
    as (lat & lon & adj & Hloc & Hadj & Hv).
  split.
  - rewrite local_comps_adjustment_degrades in Hadj.
    + injection Hadj as <-. exact Hv.
    + destruct Hpre as [Hb | [Hh | Hc]]; auto.
      rewrite Hb in Hloc. injection Hloc as _ <- _. auto.
  - intros Hb. rewrite Hb in Hloc. injection Hloc as <- _ _. reflexivity.
Qed.

Lemma missing_prerequisite_gives_base_witness :
  exists v,
    render_valuation (sample_env (constant_model (Fin 5000000)) []) sample_cache
      sample_address sample_input (Fin 2) 3 = Ok (sample_cache, Some v) /\
    v = neutral_result (base_price v).
Proof.
  eexists. split; [reflexivity |].
  apply (missing_prerequisite_gives_base (sample_env (constant_model (Fin 5000000)) [])
           sample_cache sample_address sample_input (Fin 2) 3 sample_cache).
  - reflexivity.
  - right. left. reflexivity.
Defined.

(** *** The KPIs of the dashboard *)

Lemma skipna_all_nan (l : list pyfloat) :
  Forall (fun x => isna x = true) l -> skipna l = [].
Proof.
  induction 1 as [| x l Hx Hl IH]; [reflexivity |].
  unfold skipna in *. cbn [filter]. rewrite Hx. exact IH.
Qed.

Lemma median_all_nan (l : list pyfloat) :
  Forall (fun x => isna x = true) l -> median l = NaN.
Proof. intros H. unfold median. rewrite (skipna_all_nan l H). reflexivity. Qed.

(** X15: the dashboard shows a placeholder for a KPI whose value is zero:
    when no sale with a price is dated in the last thirty days, the
    Monthly Sales figure is the placeholder 1,200,000 and not 0, the same
    as without any history. *)
Theorem monthly_sales_placeholder (now : Z) (has_Price has_Date : bool)
    (rows : list sale) (val_num sales_num : Z) :
  dashboard_kpis now has_Price has_Date rows = Ok (val_num, sales_num) ->
  (forall r, In r rows -> date_ge (Date r) (now - timedelta 30)%Z = true ->
             isna (Price r) = true) ->
  sales_num = 1200000%Z.
Proof.
  unfold dashboard_kpis. intros H Hnone.
  destruct (kpi_or _ 20000000) as [v |]; cbn [bind] in H; [| discriminate].
  assert (Hs : series_sum (map Price (last_30_days now rows)) = Fin 0).
  { unfold series_sum. rewrite skipna_all_nan; [reflexivity |].
    apply Forall_forall. intros x Hx. apply in_map_iff in Hx.
    destruct Hx as (r & <- & Hr). unfold last_30_days in Hr.
    apply filter_In in Hr. destruct Hr as [Hin Hd]. apply (Hnone r Hin Hd). }
  rewrite Hs in H.
  destruct (_ && has_Date); cbn [kpi_or truthy] in H.
  - rewrite Req_bool_true in H by reflexivity. cbn [negb bind] in H.
    injection H as _ <-. reflexivity.
  - cbn [bind] in H. injection H as _ <-. reflexivity.
Qed.

Lemma monthly_sales_placeholder_witness :
  let r := sale_at (Some (midnight 2024 1 15)) (Fin 5200000) (Fin 12.9) (Fin 77.6) in
  exists val_num sales_num,
    dashboard_kpis (midnight 2024 3 31) true true [r] = Ok (val_num, sales_num) /\
    sales_num = 1200000%Z.
Proof.
  intros r.
  assert (H : dashboard_kpis (midnight 2024 3 31) true true [r]
              = Ok (trunc 5200000, 1200000%Z)).
  { unfold dashboard_kpis. cbn [map andb]. unfold r at 1. cbn [Price sale_at].
    rewrite median_single by reflexivity.
    cbn [kpi_or truthy]. real_tests. cbn [negb py_int bind].
    replace (last_30_days (midnight 2024 3 31) [r]) with (@nil sale)
      by (vm_compute; reflexivity).
    cbn [map series_sum skipna filter fold_left kpi_or truthy].
    real_tests. reflexivity. }
  exists (trunc 5200000), 1200000%Z. split; [exact H |].
  apply (monthly_sales_placeholder (midnight 2024 3 31) true true [r]
           (trunc 5200000) 1200000 H).
  intros r' [<- | []] Hd. vm_compute in Hd. discriminate.
Defined.

(** X16: a history whose prices are all missing makes the dashboard
    raise: the median is NaN, NaN counts as true, and [int] of NaN raises
    ValueError outside every [try]. *)
Theorem dashboard_raises_on_nan_prices (now : Z) (has_Date : bool) (rows : list sale) :
  rows <> [] ->
  (forall r, In r rows -> isna (Price r) = true) ->
  dashboard_kpis now true has_Date rows = Raise ValueError.
Proof.
  intros Hne Hnan. unfold dashboard_kpis.
  destruct rows as [| r0 rows]; [contradiction |].
  rewrite median_all_nan; [reflexivity |].
  apply Forall_forall. intros x Hx. apply in_map_iff in Hx.
  destruct Hx as (r & <- & Hr). apply (Hnan r Hr).
Qed.

Lemma dashboard_raises_on_nan_prices_witness :
  dashboard_kpis (midnight 2024 3 31) true true
    [sale_at (Some (midnight 2024 3 15)) NaN (Fin 12.9) (Fin 77.6)]
  = Raise ValueError.
Proof.
  apply dashboard_raises_on_nan_prices.
  - discriminate.
  - intros r [<- | []]. reflexivity.
Defined.

(** *** The factor of [local_adjustment] *)

Lemma haversine_none_raises (lat lon : option pyfloat) (r : sale) :
  lat = None \/ lon = None ->
  haversine lat lon (Some (row_lat r)) (Some (row_lon r)) = Raise TypeError.
Proof.
  intros H. unfold haversine.
  destruct lon as [x |]; [| reflexivity].
  destruct lat as [y |]; [| reflexivity].
  destruct H; discriminate.
Qed.

(** X18: [local_adjustment] has no guard for a query point without
    coordinates.  With a latitude or longitude that is None it returns 1.0
    only when the file is absent.  With a file it raises: TypeError, from
    [haversine], when a row of the history has its latitude, longitude,
    price and date; and ValueError when no row has them, since [apply] on
    the frame without rows returns a frame, which the assignment to a
    column refuses. *)
Theorem local_adjustment_without_coordinates (now : Z) (lat lon : option pyfloat)
    (radius_km : pyfloat) (months : Z) :
  lat = None \/ lon = None ->
  local_adjustment None now lat lon radius_km months = Ok (Fin 1) /\
  forall rows,
    (dropna_local rows = [] ->
     local_adjustment (Some rows) now lat lon radius_km months = Raise ValueError) /\
    (dropna_local rows <> [] ->
     local_adjustment (Some rows) now lat lon radius_km months = Raise TypeError).
Proof.
  intros Hnone. split; [reflexivity |].
  intros rows. unfold local_adjustment, local_comps. split.
  - intros ->. cbn [DataFrame_apply].
    rewrite (haversine_none_raises lat lon nan_row Hnone). reflexivity.
  - destruct (dropna_local rows) as [| r df]; [contradiction |].
    intros _. cbn [DataFrame_apply mapM].
    rewrite (haversine_none_raises lat lon r Hnone). reflexivity.
Qed.

Lemma local_adjustment_without_coordinates_witness :
  local_adjustment
    (Some [sale_at (Some (midnight 2024 2 29)) (Fin 5000000) (Fin 0) (Fin 0)])
    (midnight 2024 3 31) None None (Fin 2) 1
  = Raise TypeError /\
  local_adjustment (Some [sale_at None (Fin 5000000) (Fin 0) (Fin 0)])
    (midnight 2024 3 31) None None (Fin 2) 1
  = Raise ValueError.
Proof.
  destruct (local_adjustment_without_coordinates (midnight 2024 3 31) None None
              (Fin 2) 1 (or_introl eq_refl)) as [_ H].
  split.
  - apply H. discriminate.
  - apply H. reflexivity.
Defined.

(** *** The base prediction *)

Lemma insertion_order_In (names : list string) (k : string) :
  In k (Predict.insertion_order names) <-> In k names.
Proof.
  induction names as [| n names IH]; [reflexivity |].
  cbn [Predict.insertion_order In]. rewrite filter_In, IH.
  destruct (String.eqb_spec k n) as [-> | Hne].
  - intuition.
  - split.
    + intros [H | [H _]]; auto.
    + intros [H | H]; [auto |]. right. split; [exact H | reflexivity].
Qed.

(** X19: the base prediction depends on the input only through the
    features that the metadata names: two inputs that agree on these keys
    get the same prediction (or the same error), whatever other keys they
    hold. *)
Theorem prediction_reads_metadata_features (dir : Predict.models_dir)
    (input input' : Predict.dict) :
  (forall meta k,
      Predict.house_price_metadata dir = Some meta ->
      In k (Predict.numeric meta ++ Predict.categorical meta) ->
      Predict.get input k = Predict.get input' k) ->
  Predict.predict_house_price dir input = Predict.predict_house_price dir input'.
Proof.
  intros H. unfold Predict.predict_house_price.
  destruct (Predict.house_price_model dir) as [model |]; [| reflexivity].
  destruct (Predict.house_price_metadata dir) as [meta |]; [| reflexivity].
  replace (Predict.data_frame meta input') with (Predict.data_frame meta input);
    [reflexivity |].
  unfold Predict.data_frame. apply map_ext_in.
  intros k Hk. apply (proj1 (insertion_order_In _ _)) in Hk.
  rewrite (H meta k eq_refl Hk). reflexivity.
Qed.

Lemma prediction_reads_metadata_features_witness :
  let dir := {| Predict.house_price_model := Some (constant_model (Fin 5000000));
                Predict.house_price_metadata :=
                  Some {| Predict.numeric := ["Area"%string];
                          Predict.categorical := [] |} |} in
  Predict.predict_house_price dir
    [("Area"%string, Predict.Number (Fin 1500)); ("Age"%string, Predict.Number (Fin 5))]
  = Predict.predict_house_price dir
    [("Age"%string, Predict.Number (Fin 80)); ("Area"%string, Predict.Number (Fin 1500))].
Proof.
  intros dir. apply prediction_reads_metadata_features.
  intros meta k Hm Hk. injection Hm as <-.
  destruct Hk as [<- | []]. reflexivity.
Defined.

(** X20: the form of the valuation page has no Location: whenever the
    metadata of the model names Location as a feature, the frame given to
    the model for the subject property holds None in that column, while
    the features of every comp carry the Location of its row. *)
Theorem subject_has_no_location (meta : Predict.metadata) (i : input_data) :
  In "Location"%string (Predict.numeric meta ++ Predict.categorical meta) ->
  In ("Location"%string, None) (Predict.data_frame meta (Predict.form_dict i)) /\
  forall row : sale, f_Location (build_feat row) = Location row.
Proof.
  intros H. split; [| reflexivity].
  unfold Predict.data_frame. apply in_map_iff.
  exists "Location"%string. split; [reflexivity |].
  apply (proj2 (insertion_order_In _ _)). exact H.
Qed.

Lemma subject_has_no_location_witness :
  In ("Location"%string, None)
     (Predict.data_frame
        {| Predict.numeric := ["Area"; "Bedrooms"; "Bathrooms"; "Age"]%string;
           Predict.categorical := ["Location"; "Property_Type"]%string |}
        (Predict.form_dict sample_input)).
Proof.
  apply (subject_has_no_location
           {| Predict.numeric := ["Area"; "Bedrooms"; "Bathrooms"; "Age"]%string;
              Predict.categorical := ["Location"; "Property_Type"]%string |}
           sample_input).
  cbn. auto 10.
Defined.

(** *** Ingesting recent sales *)

Section IngestFacts.
Context {A : Type}.
Implicit Types (rows h n : list (Ingest.row A)) (r : Ingest.row A) (k : Ingest.key).

Lemma address_eqb_eq (a b : option string) :
  Ingest.address_eqb a b = true <-> a = b.
Proof.
  destruct a as [x |], b as [y |]; cbn [Ingest.address_eqb];
    try (split; [discriminate | discriminate]); [| split; reflexivity].
  rewrite String.eqb_eq. split; [intros ->; reflexivity | intros H; injection H; auto].
Qed.

Lemma date_eqb_eq (a b : option Z) : Ingest.date_eqb a b = true <-> a = b.
Proof.
  destruct a as [x |], b as [y |]; cbn [Ingest.date_eqb];
    try (split; [discriminate | discriminate]); [| split; reflexivity].
  rewrite Z.eqb_eq. split; [intros ->; reflexivity | intros H; injection H; auto].
Qed.

Lemma key_eqb_eq k1 k2 : Ingest.key_eqb k1 k2 = true <-> k1 = k2.
Proof.
  destruct k1 as [a1 d1], k2 as [a2 d2]. unfold Ingest.key_eqb. cbn [fst snd].
  rewrite andb_true_iff, address_eqb_eq, date_eqb_eq.
  split; [intros [-> ->]; reflexivity | intros H; injection H; auto].
Qed.

Lemma has_key_In k rows :
  Ingest.has_key k rows = true <-> In k (map fst rows).
Proof.
  unfold Ingest.has_key. rewrite existsb_exists, in_map_iff. split.
  - intros (r & Hr & He). apply key_eqb_eq in He. exists r. auto.
  - intros (r & He & Hr). exists r. split; [exact Hr |]. apply key_eqb_eq. exact He.
Qed.

Lemma has_key_false k rows :
  Ingest.has_key k rows = false <-> ~ In k (map fst rows).
Proof.
  rewrite <- has_key_In. destruct (Ingest.has_key k rows); split; intros H;
    try discriminate; try reflexivity; auto. exfalso. apply H. reflexivity.
Qed.

Lemma drop_In r rows : In r (Ingest.drop_duplicates_last rows) -> In r rows.
Proof.
  induction rows as [| r0 rows IH]; [auto |].
  cbn [Ingest.drop_duplicates_last].
  destruct (Ingest.has_key (fst r0) rows); cbn [In]; intuition.
Qed.

Lemma drop_keys k rows :
  In k (map fst rows) -> In k (map fst (Ingest.drop_duplicates_last rows)).
Proof.
  induction rows as [| r0 rows IH]; [auto |].
  cbn [Ingest.drop_duplicates_last map In].
  destruct (Ingest.has_key (fst r0) rows) eqn:E.
  - intros [<- | H]; [| auto]. apply IH. apply has_key_In. exact E.
  - cbn [map In]. intuition.
Qed.

Lemma drop_NoDup rows : NoDup (map fst (Ingest.drop_duplicates_last rows)).
Proof.
  induction rows as [| r0 rows IH]; [constructor |].
  cbn [Ingest.drop_duplicates_last].
  destruct (Ingest.has_key (fst r0) rows) eqn:E; [exact IH |].
  cbn [map]. constructor; [| exact IH].
  intros Hin. apply has_key_false in E. apply E.
  apply in_map_iff in Hin. destruct Hin as (r & He & Hr).
  apply in_map_iff. exists r. split; [exact He | apply drop_In; exact Hr].
Qed.

Lemma has_key_app k (l1 l2 : list (Ingest.row A)) :
  Ingest.has_key k (l1 ++ l2) = Ingest.has_key k l1 || Ingest.has_key k l2.
Proof. unfold Ingest.has_key. apply existsb_app. Qed.

(** Rows in front of others: those stay whose key comes neither later in
    front nor among the others. *)
Lemma drop_app (l1 l2 : list (Ingest.row A)) :
  Ingest.drop_duplicates_last (l1 ++ l2)
  = filter (fun r => negb (Ingest.has_key (fst r) l2)) (Ingest.drop_duplicates_last l1)
    ++ Ingest.drop_duplicates_last l2.
Proof.
  induction l1 as [| r0 l1 IH]; [reflexivity |].
  cbn [app Ingest.drop_duplicates_last]. rewrite has_key_app.
  destruct (Ingest.has_key (fst r0) l1); cbn [orb]; [exact IH |].
  cbn [filter]. destruct (Ingest.has_key (fst r0) l2); cbn [negb]; rewrite IH; reflexivity.
Qed.






End IngestFacts.

(** X21: an ingest into an existing history leaves one row per pair of
    address and date: every row written comes from the history or the new
    rows, every pair of the two is still there, and where the new rows
    hold the pair the row written is the last of the new rows with it. *)
Theorem ingest_dedupes_new_wins {A : Type} (df_hist df_new : list (Ingest.row A)) :
  let written := Ingest.ingest (Some df_hist) df_new in
  NoDup (map fst written) /\
  (forall r, In r written -> In r (df_hist ++ df_new)) /\
  (forall k, In k (map fst (df_hist ++ df_new)) -> In k (map fst written)) /\
  (forall r, In r written -> In (fst r) (map fst df_new) ->
             In r (Ingest.drop_duplicates_last df_new)).
Proof.
  cbn [Ingest.ingest]. split; [apply drop_NoDup |].
  split; [intros r; apply drop_In |].
  split; [intros k; apply drop_keys |].
  intros r Hr Hk. rewrite drop_app in Hr. apply in_app_or in Hr.
  destruct Hr as [Hr | Hr]; [| exact Hr].
  apply filter_In in Hr. destruct Hr as [_ Hr].
  apply has_key_In in Hk. rewrite Hk in Hr. discriminate.
Qed.

Lemma ingest_dedupes_new_wins_witness :
  let k := (Some "12 Baker Street"%string, Some (midnight 2024 3 15)) in
  let df_hist := [(k, 5000000%Z)] in
  let df_new := [(k, 5100000%Z); (k, 5200000%Z)] in
  Ingest.ingest (Some df_hist) df_new = [(k, 5200000%Z)] /\
  In (k, 5200000%Z) (Ingest.drop_duplicates_last df_new).
Proof.
  intros k df_hist df_new.
  assert (E : Ingest.ingest (Some df_hist) df_new = [(k, 5200000%Z)])
    by (vm_compute; reflexivity).
  split; [exact E |].
  apply (proj2 (proj2 (proj2 (ingest_dedupes_new_wins df_hist df_new)))).
  - change (In (k, 5200000%Z) (Ingest.ingest (Some df_hist) df_new)).
    rewrite E. left. reflexivity.
  - left. reflexivity.
Defined.


(** *** Cleaning *)

Lemma to_numeric_twice (c : cell) :
  Cleaning.to_numeric (Cleaning.to_numeric c) = Cleaning.to_numeric c.
Proof. destruct c; reflexivity. Qed.

Lemma number_to_numeric (c : cell) :
  Cleaning.number (Cleaning.to_numeric c) = Cleaning.number c.
Proof. destruct c; reflexivity. Qed.

Lemma when_twice (b : bool) (c : cell) :
  Cleaning.when b Cleaning.to_numeric (Cleaning.when b Cleaning.to_numeric c)
  = Cleaning.when b Cleaning.to_numeric c.
Proof. destruct b; [apply to_numeric_twice | reflexivity]. Qed.

Lemma map_fixed {A : Type} (f : A -> A) (l : list A) :
  (forall x, In x l -> f x = x) -> map f l = l.
Proof.
  induction l as [| a l IH]; [reflexivity |].
  intros H. cbn [map]. rewrite (H a (or_introl eq_refl)), IH; [reflexivity |].
  intros x Hx. apply H. right. exact Hx.
Qed.

Lemma filter_map_commute {A : Type} (p : A -> bool) (f : A -> A) (l : list A) :
  (forall x, p (f x) = p x) -> filter p (map f l) = map f (filter p l).
Proof.
  intros H. induction l as [| a l IH]; [reflexivity |].
  cbn [map filter]. rewrite H. destruct (p a); cbn [map]; rewrite IH; reflexivity.
Qed.

Lemma filter_filter_same {A : Type} (p : A -> bool) (l : list A) :
  filter p (filter p l) = filter p l.
Proof.
  induction l as [| a l IH]; [reflexivity |].
  cbn [filter]. destruct (p a) eqn:E; cbn [filter]; rewrite ?E, IH; reflexivity.
Qed.

Lemma with_total_twice (product : pyfloat -> pyfloat -> pyfloat)
    (r : Cleaning.sales_row) :
  Cleaning.with_total product (Cleaning.with_total product r)
  = Cleaning.with_total product r.
Proof. reflexivity. Qed.

(** X23: in [clean_sales], one missing total recomputes them all: when
    the frame has prices and quantities and either no Total_Sales column
    or a row whose total is missing or not a number, every row written
    has as its Total_Sales the product of its Price and Quantity, a
    missing factor taken as 0, the rows that came with a total included.
    The product is the one of the two columns, whatever it makes of an
    overflow. *)
Theorem clean_sales_recomputes_all (product : pyfloat -> pyfloat -> pyfloat)
    (df df' : Cleaning.sales_frame) :
  Cleaning.clean_sales product df = Ok df' ->
  Cleaning.has_Price df = true ->
  Cleaning.has_Quantity df = true ->
  Cleaning.has_Total_Sales df = false \/
  (exists r0, In r0 (Cleaning.sales_rows df) /\
              isna (Cleaning.number (Cleaning.s_Total_Sales r0)) = true) ->
  forall r, In r (Cleaning.sales_rows df') ->
    Cleaning.s_Total_Sales r
    = Num (product (Cleaning.fillna0 (Cleaning.number (Cleaning.s_Price r)))
                   (Cleaning.fillna0 (Cleaning.number (Cleaning.s_Quantity r)))).
Proof.
  unfold Cleaning.clean_sales. intros H Hp Hq Hmiss r Hr.
  assert (Htm : Cleaning.total_missing (Cleaning.has_Total_Sales df)
                  (map (Cleaning.numeric_sales df) (Cleaning.sales_rows df)) = true).
  { unfold Cleaning.total_missing. destruct Hmiss as [-> | (r0 & Hin & Hna)];
      [reflexivity |].
    apply orb_true_iff. destruct (Cleaning.has_Total_Sales df) eqn:Et; [right | auto].
    apply existsb_exists. exists (Cleaning.numeric_sales df r0).
    split; [apply in_map; exact Hin |].
    unfold Cleaning.numeric_sales. cbn [Cleaning.s_Total_Sales].
    rewrite Et. cbn [Cleaning.when]. rewrite number_to_numeric. exact Hna. }
  rewrite Htm, Hp, Hq in H. cbn [andb] in H.
  destruct (Cleaning.has_Date df && Cleaning.has_Product df); [| discriminate].
  injection H as <-. cbn [Cleaning.sales_rows] in Hr.
  apply filter_In in Hr. destruct Hr as [Hr _].
  apply in_map_iff in Hr. destruct Hr as (r1 & <- & _). reflexivity.
Qed.

Lemma clean_sales_recomputes_all_witness :
  let given := {| Cleaning.s_Date := Some (midnight 2024 3 15);
                  Cleaning.s_Product := Some "Phone"%string;
                  Cleaning.s_Price := Num (Fin 100);
                  Cleaning.s_Quantity := Num (Fin 2);
                  Cleaning.s_Total_Sales := Num (Fin 150) |} in
  let lacking := {| Cleaning.s_Date := Some (midnight 2024 3 16);
                    Cleaning.s_Product := Some "Laptop"%string;
                    Cleaning.s_Price := Num (Fin 900);
                    Cleaning.s_Quantity := Num (Fin 1);
                    Cleaning.s_Total_Sales := Junk |} in
  let df := {| Cleaning.has_Date := true; Cleaning.has_Product := true;
               Cleaning.has_Price := true; Cleaning.has_Quantity := true;
               Cleaning.has_Total_Sales := true;
               Cleaning.sales_rows := [given; lacking] |} in
  exists df',
    Cleaning.clean_sales fmul df = Ok df' /\
    In (Cleaning.with_total fmul given) (Cleaning.sales_rows df') /\
    Cleaning.s_Total_Sales (Cleaning.with_total fmul given)
    = Num (fmul (Fin 100) (Fin 2)).
Proof.
  intros given lacking df. eexists. split; [reflexivity |].
  split; [left; reflexivity |].
  apply (clean_sales_recomputes_all fmul df _ eq_refl eq_refl eq_refl).
  - right. exists lacking. split; [right; left; reflexivity | reflexivity].
  - left. reflexivity.
Defined.

Lemma numeric_sales_fixed (df df' : Cleaning.sales_frame) (r : Cleaning.sales_row) :
  Cleaning.has_Price df' = Cleaning.has_Price df ->
  Cleaning.has_Quantity df' = Cleaning.has_Quantity df ->
  Cleaning.numeric_sales df' (Cleaning.numeric_sales df r)
  = {| Cleaning.s_Date := Cleaning.s_Date r;
       Cleaning.s_Product := Cleaning.s_Product r;
       Cleaning.s_Price := Cleaning.s_Price (Cleaning.numeric_sales df r);
       Cleaning.s_Quantity := Cleaning.s_Quantity (Cleaning.numeric_sales df r);
       Cleaning.s_Total_Sales :=
         Cleaning.when (Cleaning.has_Total_Sales df') Cleaning.to_numeric
           (Cleaning.s_Total_Sales (Cleaning.numeric_sales df r)) |}.
Proof.
  intros Hp Hq. unfold Cleaning.numeric_sales.
  cbn [Cleaning.s_Date Cleaning.s_Product Cleaning.s_Price Cleaning.s_Quantity
       Cleaning.s_Total_Sales].
  rewrite Hp, Hq, !when_twice. reflexivity.
Qed.

(** X24: [clean_sales] is idempotent: cleaning a cleaned frame returns
    it unchanged. *)
Theorem clean_sales_idempotent (product : pyfloat -> pyfloat -> pyfloat)
    (df df' : Cleaning.sales_frame) :
  Cleaning.clean_sales product df = Ok df' -> Cleaning.clean_sales product df' = Ok df'.
Proof.
  unfold Cleaning.clean_sales at 1. intros H.
  destruct (Cleaning.has_Date df && Cleaning.has_Product df); [| discriminate].
  injection H as <-.
  set (rows := map (Cleaning.numeric_sales df) (Cleaning.sales_rows df)).
  set (tm := Cleaning.total_missing (Cleaning.has_Total_Sales df) rows).
  set (recompute := tm && Cleaning.has_Price df && Cleaning.has_Quantity df).
  set (rows' := if recompute then map (Cleaning.with_total product) rows else rows).
  set (out := {| Cleaning.has_Date := true; Cleaning.has_Product := true;
                 Cleaning.has_Price := Cleaning.has_Price df;
                 Cleaning.has_Quantity := Cleaning.has_Quantity df;
                 Cleaning.has_Total_Sales := Cleaning.has_Total_Sales df || recompute;
                 Cleaning.sales_rows := filter Cleaning.dated_product rows' |}).
  (* the rows of [out] are already numeric *)
  assert (Hnum : map (Cleaning.numeric_sales out) (filter Cleaning.dated_product rows')
                 = filter Cleaning.dated_product rows').
  { apply map_fixed. intros r Hr. apply filter_In in Hr. destruct Hr as [Hr _].
    unfold rows' in Hr. destruct recompute eqn:Er.
    - apply in_map_iff in Hr. destruct Hr as (r1 & <- & Hr1).
      unfold rows in Hr1. apply in_map_iff in Hr1. destruct Hr1 as (r0 & <- & _).
      unfold Cleaning.numeric_sales, Cleaning.with_total, out.
      cbn [Cleaning.s_Date Cleaning.s_Product Cleaning.s_Price Cleaning.s_Quantity
           Cleaning.s_Total_Sales Cleaning.has_Price Cleaning.has_Quantity
           Cleaning.has_Total_Sales].
      rewrite !when_twice. rewrite orb_true_r. reflexivity.
    - unfold rows in Hr. apply in_map_iff in Hr. destruct Hr as (r0 & <- & _).
      rewrite (numeric_sales_fixed df out r0 eq_refl eq_refl).
      unfold out. cbn [Cleaning.has_Total_Sales]. rewrite orb_false_r.
      unfold Cleaning.numeric_sales at 3.
      cbn [Cleaning.s_Total_Sales]. rewrite when_twice.
      unfold Cleaning.numeric_sales. reflexivity. }
  unfold Cleaning.clean_sales.
  change (Cleaning.sales_rows out) with (filter Cleaning.dated_product rows').
  change (Cleaning.has_Date out && Cleaning.has_Product out) with true.
  cbv iota. rewrite Hnum.
  change (Cleaning.has_Price out) with (Cleaning.has_Price df).
  change (Cleaning.has_Quantity out) with (Cleaning.has_Quantity df).
  change (Cleaning.has_Total_Sales out) with (Cleaning.has_Total_Sales df || recompute).
  set (recompute2 := Cleaning.total_missing (Cleaning.has_Total_Sales df || recompute)
                       (filter Cleaning.dated_product rows')
                     && Cleaning.has_Price df && Cleaning.has_Quantity df).
  assert (Hrows : (if recompute2
                   then map (Cleaning.with_total product) (filter Cleaning.dated_product rows')
                   else filter Cleaning.dated_product rows')
                  = filter Cleaning.dated_product rows').
  { destruct recompute2 eqn:E2; [| reflexivity].
    destruct recompute eqn:Er.
    - unfold rows'. apply map_fixed. intros r Hr.
      apply filter_In in Hr. destruct Hr as [Hr _].
      apply in_map_iff in Hr. destruct Hr as (r1 & <- & _). reflexivity.
    - (* no recomputation the first time: none the second time *)
      exfalso. unfold recompute2 in E2. rewrite orb_false_r in E2.
      unfold recompute in Er. unfold rows' in E2.
      apply andb_true_iff in E2. destruct E2 as [E2 Hq].
      apply andb_true_iff in E2. destruct E2 as [E2 Hp].
      rewrite Hp, Hq, !andb_true_r in Er.
      unfold tm, Cleaning.total_missing in Er, E2.
      apply orb_false_iff in Er. destruct Er as [Eh Ee].
      rewrite Eh in E2. cbn [orb] in E2.
      apply existsb_exists in E2. destruct E2 as (r & Hr & Hna).
      apply filter_In in Hr. destruct Hr as [Hr _].
      assert (Hex : existsb (fun r => isna (Cleaning.number (Cleaning.s_Total_Sales r)))
                      rows = true)
        by (apply existsb_exists; exists r; auto).
      rewrite Hex in Ee. discriminate. }
  rewrite Hrows, filter_filter_same.
  assert (Hflag : Cleaning.has_Total_Sales df || recompute || recompute2
                  = Cleaning.has_Total_Sales df || recompute).
  { destruct (Cleaning.has_Total_Sales df) eqn:Eh; [reflexivity |].
    destruct recompute eqn:Er; [reflexivity |].
    cbn [orb]. unfold recompute, tm, Cleaning.total_missing in Er.
    cbn [negb orb andb] in Er.
    unfold recompute2, Cleaning.total_missing. cbn [negb orb andb]. exact Er. }
  rewrite Hflag. reflexivity.
Qed.

Lemma clean_sales_idempotent_witness :
  let df := {| Cleaning.has_Date := true; Cleaning.has_Product := true;
               Cleaning.has_Price := true; Cleaning.has_Quantity := true;
               Cleaning.has_Total_Sales := false;
               Cleaning.sales_rows :=
                 [ {| Cleaning.s_Date := Some (midnight 2024 3 15);
                      Cleaning.s_Product := Some "Phone"%string;
                      Cleaning.s_Price := Junk;
                      Cleaning.s_Quantity := Num (Fin 2);
                      Cleaning.s_Total_Sales := Junk |} ] |} in
  exists df',
    Cleaning.clean_sales fmul df = Ok df' /\ Cleaning.clean_sales fmul df' = Ok df'.
Proof.
  intros df. eexists. split; [reflexivity |].
  apply (clean_sales_idempotent fmul df). reflexivity.
Defined.

(** X25: [clean_house] needs the columns Area and Price (KeyError
    without one of them), keeps the rows in which both are numbers, and
    is idempotent. *)
Theorem clean_house_keeps_priced_areas (df : Cleaning.house_frame) :
  (Cleaning.clean_house df = Raise KeyError <->
   Cleaning.has_Area df = false \/ Cleaning.has_house_Price df = false) /\
  forall df',
    Cleaning.clean_house df = Ok df' ->
    (forall r, In r (Cleaning.house_rows df') ->
       exists area price,
         Cleaning.h_Area r = Num area /\ isna area = false /\
         Cleaning.h_Price r = Num price /\ isna price = false) /\
    (List.length (Cleaning.house_rows df') <= List.length (Cleaning.house_rows df))%nat /\
    Cleaning.clean_house df' = Ok df'.
Proof.
  unfold Cleaning.clean_house at 1 2. split.
  - destruct (Cleaning.has_Area df), (Cleaning.has_house_Price df); cbn [andb];
      split; intros H; try discriminate; try reflexivity; auto;
      destruct H; discriminate.
  - intros df' H.
    destruct (Cleaning.has_Area df) eqn:Ea; [| discriminate].
    destruct (Cleaning.has_house_Price df) eqn:Ep; [| discriminate].
    cbn [andb] in H. injection H as <-. cbn [Cleaning.house_rows].
    split; [| split].
    + intros r Hr. apply filter_In in Hr. destruct Hr as [Hr Hk].
      apply in_map_iff in Hr. destruct Hr as (r0 & <- & _).
      unfold Cleaning.area_price, Cleaning.numeric_house, notna in *.
      cbn [Cleaning.h_Area Cleaning.h_Price] in *. rewrite Ea, Ep in *.
      cbn [Cleaning.when] in *.
      apply andb_true_iff in Hk. destruct Hk as [Hk1 Hk2].
      destruct (Cleaning.h_Area r0) as [x |], (Cleaning.h_Price r0) as [y |];
        cbn [Cleaning.to_numeric Cleaning.number isna negb] in *; try discriminate.
      exists x, y. repeat split;
        [destruct (isna x); [discriminate | reflexivity]
        | destruct (isna y); [discriminate | reflexivity]].
    + rewrite <- (length_map (Cleaning.numeric_house df) (Cleaning.house_rows df)).
      apply filter_length_le.
    + unfold Cleaning.clean_house. cbn [Cleaning.has_Area Cleaning.has_house_Price andb
        Cleaning.house_rows Cleaning.has_Bedrooms Cleaning.has_Bathrooms Cleaning.has_Age].
      f_equal. f_equal.
      rewrite map_fixed.
      * apply filter_filter_same.
      * intros r Hr. apply filter_In in Hr. destruct Hr as [Hr _].
        apply in_map_iff in Hr. destruct Hr as (r0 & <- & _).
        unfold Cleaning.numeric_house.
        cbn [Cleaning.has_Area Cleaning.has_house_Price Cleaning.has_Bedrooms
             Cleaning.has_Bathrooms Cleaning.has_Age Cleaning.h_Area
             Cleaning.h_Bedrooms Cleaning.h_Bathrooms Cleaning.h_Age Cleaning.h_Price].
        rewrite Ea, Ep. cbn [Cleaning.when]. rewrite !to_numeric_twice, !when_twice.
        reflexivity.
Qed.

Lemma clean_house_keeps_priced_areas_witness :
  let df := {| Cleaning.has_Area := true; Cleaning.has_Bedrooms := true;
               Cleaning.has_Bathrooms := false; Cleaning.has_Age := false;
               Cleaning.has_house_Price := true;
               Cleaning.house_rows :=
                 [ {| Cleaning.h_Area := Num (Fin 1500); Cleaning.h_Bedrooms := Junk;
                      Cleaning.h_Bathrooms := Junk; Cleaning.h_Age := Junk;
                      Cleaning.h_Price := Num (Fin 5000000) |};
                   {| Cleaning.h_Area := Junk; Cleaning.h_Bedrooms := Num (Fin 2);
                      Cleaning.h_Bathrooms := Junk; Cleaning.h_Age := Junk;
                      Cleaning.h_Price := Num (Fin 4000000) |} ] |} in
  exists df',
    Cleaning.clean_house df = Ok df' /\
    List.length (Cleaning.house_rows df') = 1%nat /\
    Cleaning.clean_house df' = Ok df'.
Proof.
  intros df. eexists. split; [reflexivity |]. split; [reflexivity |].
  apply (proj2 (clean_house_keeps_priced_areas df)). reflexivity.
Defined.

